(** * nifipy: a REST client for Apache NiFi

    A shallow embedding of [nifipy/components.py].  Python values that
    travel through the client (decoded JSON documents, component ids) are an
    inductive type; a Python [dict] is an association list in insertion
    order; every effect of the client (an HTTP request, a log record, a line
    on standard output, a sleep, opening a file) is appended to a trace that
    is threaded, together with the state of the remote server, through a small
    state-and-exception monad. *)

From Stdlib Require Import String Ascii List ZArith Lia Bool.
From Stdlib Require Import DecimalString.
From Stdlib Require Floats.SpecFloat.
Import ListNotations.
Local Open Scope string_scope.
Local Open Scope Z_scope.

(** ** Python values *)

(** What [json.loads] / [Response.json] can produce: [None], [bool], [int],
    [float], [str], [list], and [dict] with string keys (kept in insertion
    order, as Python's dicts are). *)
#[warnings="-register-all"]
Inductive pyval : Type :=
| PyNone
| PyBool (b : bool)
| PyInt (z : Z)
| PyFloat (f : SpecFloat.spec_float)
| PyStr (s : string)
| PyList (l : list pyval)
| PyDict (d : list (string * pyval)).

(** The exceptions the client can end with. *)
Inductive exn : Type :=
| KeyError (key : string)
| TypeError
| IndexError
| ValueError
| IOError (path : string)
| RequestException
| ConnectionError (msg : string)
| Unsupported.

Inductive result (A : Type) : Type :=
| Ok (a : A)
| Raise (e : exn).
Arguments Ok {A} a.
Arguments Raise {A} e.

Definition rbind {A B} (r : result A) (k : A -> result B) : result B :=
  match r with
  | Ok a => k a
  | Raise e => Raise e
  end.

(** ** Dictionaries and subscripting *)

Fixpoint dict_get (d : list (string * pyval)) (k : string) : option pyval :=
  match d with
  | [] => None
  | (k', v) :: d' => if String.eqb k' k then Some v else dict_get d' k
  end.

(** [d[k] = v]: an existing key keeps its position, a new key goes last. *)
Fixpoint dict_set (d : list (string * pyval)) (k : string) (v : pyval)
  : list (string * pyval) :=
  match d with
  | [] => [(k, v)]
  | (k', v') :: d' =>
      if String.eqb k' k then (k', v) :: d' else (k', v') :: dict_set d' k v
  end.

(** [o[k]] for a string key [k]: a lookup in a dict ([KeyError] when the key
    is absent); every other JSON value refuses a string subscript with a
    [TypeError]. *)
Definition getitem (o : pyval) (k : string) : result pyval :=
  match o with
  | PyDict d =>
      match dict_get d k with
      | Some v => Ok v
      | None => Raise (KeyError k)
      end
  | _ => Raise TypeError
  end.

(** [o[k][k'] = v] as the client uses it: the inner dict is updated in place,
    which the outer dict sees because it holds a reference to it. *)
Definition setitem2 (o : pyval) (k k' : string) (v : pyval) : result pyval :=
  match o with
  | PyDict d =>
      match dict_get d k with
      | Some (PyDict inner) => Ok (PyDict (dict_set d k (PyDict (dict_set inner k' v))))
      | Some _ => Raise TypeError
      | None => Raise (KeyError k)
      end
  | _ => Raise TypeError
  end.

(** [v == s] for a string [s]: only an equal [str] compares equal. *)
Definition py_eq_str (v : pyval) (s : string) : bool :=
  match v with
  | PyStr s' => String.eqb s' s
  | _ => false
  end.

(** Truthiness of an optional string argument: [None] and the empty string are false. *)
Definition truthy (o : option string) : bool :=
  match o with
  | None => false
  | Some EmptyString => false
  | Some _ => true
  end.

(** The double quote, as a one-character string. *)
Definition dq : string := String "034"%char EmptyString.

(** [str(n)] for an [int]. *)
Definition str_of_Z (z : Z) : string := NilZero.string_of_int (Z.to_int z).

(** ** [str.format]

    The client formats fixed templates whose replacement fields are plain:
    a keyword name ([{url_base}]) or the auto-numbered [{}].  The scanner
    below walks the template once, left to right; [field] is [None] in
    literal text and [Some name] while the name of a replacement field is
    being read.  [{{] and [}}] are the escapes for a brace.  A substituted
    value is emitted as it is and never scanned again.  Conversions
    ([!r]), format specs ([:>8]), attribute or index access and explicit
    numbering occur in no template of the client and are outside this model
    ([Unsupported]). *)

Definition field_special (c : ascii) : bool :=
  existsb (Ascii.eqb c) ["!"; ":"; "."; "["; "]"; "{"]%char.

Definition is_digit (c : ascii) : bool :=
  let n := nat_of_ascii c in (48 <=? n)%nat && (n <=? 57)%nat.

Fixpoint all_digits (s : string) : bool :=
  match s with
  | EmptyString => true
  | String c s' => is_digit c && all_digits s'
  end.

Fixpoint kw_get (kwargs : list (string * string)) (k : string) : option string :=
  match kwargs with
  | [] => None
  | (k', v) :: rest => if String.eqb k' k then Some v else kw_get rest k
  end.

Definition snoc (s : string) (c : ascii) : string := s ++ String c EmptyString.

Definition emit (c : ascii) (r : result string) : result string :=
  rbind r (fun s => Ok (String c s)).

Definition emit_str (v : string) (r : result string) : result string :=
  rbind r (fun s => Ok (v ++ s)).

Definition lbrace : ascii := "{"%char.
Definition rbrace : ascii := "}"%char.

Fixpoint format_scan (args : list string) (kwargs : list (string * string))
  (t : string) (field : option string) (auto : nat) {struct t} : result string :=
  match t with
  | EmptyString =>
      match field with
      | None => Ok EmptyString
      | Some _ => Raise ValueError
      end
  | String c t' =>
      match field with
      | None =>
          if Ascii.eqb c lbrace then
            match t' with
            | String c' t'' =>
                if Ascii.eqb c' lbrace
                then emit lbrace (format_scan args kwargs t'' None auto)
                else format_scan args kwargs t' (Some EmptyString) auto
            | EmptyString => format_scan args kwargs t' (Some EmptyString) auto
            end
          else if Ascii.eqb c rbrace then
            match t' with
            | String c' t'' =>
                if Ascii.eqb c' rbrace
                then emit rbrace (format_scan args kwargs t'' None auto)
                else Raise ValueError
            | EmptyString => Raise ValueError
            end
          else emit c (format_scan args kwargs t' None auto)
      | Some name =>
          if Ascii.eqb c rbrace then
            match name with
            | EmptyString =>
                match nth_error args auto with
                | Some v => emit_str v (format_scan args kwargs t' None (S auto))
                | None => Raise IndexError
                end
            | _ =>
                if all_digits name then Raise Unsupported
                else match kw_get kwargs name with
                     | Some v => emit_str v (format_scan args kwargs t' None auto)
                     | None => Raise (KeyError name)
                     end
            end
          else if field_special c then Raise Unsupported
          else format_scan args kwargs t' (Some (snoc name c)) auto
      end
  end.

(** [t.format( *args, **kwargs)]. *)
Definition format (t : string) (args : list string) (kwargs : list (string * string))
  : result string :=
  format_scan args kwargs t None 0.

(** ** Component types and endpoint templates *)

Definition BASE := "Base".
Definition PROCESSOR := "Processor".
Definition FLOW := "Flow".
Definition CONTROLLER_SERVICE := "Controller Service".
Definition CONTROLLER_SERVICES := "Controller Services".
Definition PROCESS_GROUP := "Process Group".
Definition TEMPLATE := "Template".

Definition COMPONENT_ENDPOINT_TEMPLATES : list (string * string) :=
  [ (BASE, "{url_base}/nifi-api");
    (PROCESSOR, "{url_base}/nifi-api/processors/{component_id}");
    (CONTROLLER_SERVICE, "{url_base}/nifi-api/controller-services/{component_id}");
    (FLOW, "{url_base}/nifi-api/flow/process-groups/{component_id}/");
    (PROCESS_GROUP, "{url_base}/nifi-api/process-groups/{component_id}/");
    (CONTROLLER_SERVICES, "{url_base}/nifi-api/flow/process-groups/{process_group}/{subpath}");
    (TEMPLATE, "{url_base}/nifi-api/templates/{component_id}/") ].

Definition template_of (component_type : string) : result string :=
  match kw_get COMPONENT_ENDPOINT_TEMPLATES component_type with
  | Some t => Ok t
  | None => Raise (KeyError component_type)
  end.

(** ** Effects *)

(** The calls the client makes on the [requests] library: [requests.get(url,
    verify=False)], [requests.put] and [requests.post] with a JSON body, the
    multipart [requests.post(url, files=...)] and [requests.delete]. *)
Inductive request : Type :=
| GET (url : string)
| PUT (url data : string)
| POST (url data : string)
| UPLOAD (url field filename content mime : string)
| DELETE (url : string).

Record response : Type := { status_code : Z; text : string }.

Inductive event : Type :=
| Http (r : request)
| LogInfo (msg : string)
| LogWarning (msg : string)
| Print (s : string)
| Sleep (seconds : Z)
| Open (path : string).

Definition is_write (r : request) : bool :=
  match r with
  | GET _ => false
  | _ => true
  end.

(** The requests of a trace, in order, and its reads and writes. *)
Fixpoint requests_of (tr : list event) : list request :=
  match tr with
  | [] => []
  | Http r :: tr' => r :: requests_of tr'
  | _ :: tr' => requests_of tr'
  end.

Definition writes_of (tr : list event) : list request :=
  filter is_write (requests_of tr).

Definition reads_of (tr : list event) : list request :=
  filter (fun r => negb (is_write r)) (requests_of tr).

(** [os.path.basename]: what follows the last slash. *)
Fixpoint basename (path : string) : string :=
  match path with
  | EmptyString => EmptyString
  | String c rest =>
      if Ascii.eqb c "/" then basename rest
      else if existsb (Ascii.eqb "/"%char) (list_ascii_of_string rest) then basename rest
      else path
  end.

(** Iterating a value in a [for]: a list yields its items, a dict its keys,
    a string its characters; nothing else is iterable. *)
Definition py_iter (v : pyval) : result (list pyval) :=
  match v with
  | PyList l => Ok l
  | PyDict d => Ok (map (fun kv => PyStr (fst kv)) d)
  | PyStr s => Ok (map (fun c => PyStr (String c EmptyString)) (list_ascii_of_string s))
  | _ => Raise TypeError
  end.

(** ** The template-id pattern

    The pattern is [<id>] , a group holding a greedy dot-star, [</id>].

    [re.findall] with this pattern, written as the backtracking search the
    [re] module performs: the scan moves left to right; at a position where
    [<id>] stands, the greedy [.*] takes every character it can (any character
    but a newline) and gives characters back one at a time until [</id>]
    follows; the text of the group is collected and the scan resumes behind
    the match. *)

Definition newline : ascii := "010"%char.

Fixpoint drop (n : nat) (s : string) : string :=
  match n, s with
  | O, _ => s
  | S n', String _ s' => drop n' s'
  | S _, EmptyString => EmptyString
  end.

(** The group and the closing tag against [s]: the text of the group and
    what follows the match. *)
Fixpoint greedy_close (s : string) : option (string * string) :=
  match s with
  | EmptyString => None
  | String c s' =>
      match (if Ascii.eqb c newline then None else greedy_close s') with
      | Some (g, rest) => Some (String c g, rest)
      | None => if prefix "</id>" s then Some (EmptyString, drop 5 s) else None
      end
  end.

(** The whole pattern anchored at the start of [s]: the text of the group. *)
Definition match_at (s : string) : option string :=
  if prefix "<id>" s then
    match greedy_close (drop 4 s) with
    | Some (g, _) => Some g
    | None => None
    end
  else None.

(** [skip] counts the characters of the last match still to be stepped over. *)
Fixpoint findall_scan (s : string) (skip : nat) : list string :=
  match s with
  | EmptyString => []
  | String _ s' =>
      match skip with
      | S k => findall_scan s' k
      | O =>
          match match_at s with
          | Some g => g :: findall_scan s' (String.length g + 8)
          | None => findall_scan s' 0
          end
      end
  end.

(** [re.findall] of the pattern in [s]. *)
Definition findall_id (s : string) : list string := findall_scan s 0.

Record NifiConnection : Type := { url_base : string }.

(** The fields [NifiComponent.__init__] sets. *)
Record NifiComponent : Type := {
  component_type : string;
  component_id : pyval;
  nifi_connection : NifiConnection;
  template : string;
  url : string;
  endpoints : list (string * string)
}.

Definition with_endpoint (c : NifiComponent) (k v : string) : NifiComponent :=
  {| component_type := component_type c;
     component_id := component_id c;
     nifi_connection := nifi_connection c;
     template := template c;
     url := url c;
     endpoints := endpoints c ++ [(k, v)] |}.

Definition endpoint (c : NifiComponent) (k : string) : result string :=
  match kw_get (endpoints c) k with
  | Some v => Ok v
  | None => Raise (KeyError k)
  end.

(** The world the client runs in: the state of the remote server and the
    trace of everything the client has done so far. *)
Record world (server : Type) : Type := { remote : server; trace : list event }.
Arguments remote {server} w.
Arguments trace {server} w.
Arguments Build_world {server} remote trace.

(** ** A mock transport

    A server with a fixed set of documents, one per URL, used to run the
    client on concrete inputs.  Its wire format is a compact JSON writer
    (strings are written without escapes); its reader recognises exactly the
    documents of the site. *)

Module Mock.

Fixpoint render (v : pyval) : string :=
  match v with
  | PyNone => "null"
  | PyBool b => if b then "true" else "false"
  | PyInt z => str_of_Z z
  | PyFloat _ => "NaN"
  | PyStr s => dq ++ s ++ dq
  | PyList l =>
      "[" ++ (fix items (l : list pyval) : string :=
                match l with
                | [] => EmptyString
                | x :: r =>
                    match r with
                    | [] => render x
                    | _ => render x ++ ", " ++ items r
                    end
                end) l ++ "]"
  | PyDict d =>
      "{" ++ (fix members (d : list (string * pyval)) : string :=
                match d with
                | [] => EmptyString
                | (k, x) :: r =>
                    match r with
                    | [] => dq ++ k ++ dq ++ ": " ++ render x
                    | _ => dq ++ k ++ dq ++ ": " ++ render x ++ ", " ++ members r
                    end
                end) d ++ "}"
  end.

Record site : Type := {
  documents : list (string * pyval);
  write_status : Z;
  write_body : string;
  upload_body : string
}.

Definition document (st : site) (u : string) : option pyval :=
  match find (fun p => String.eqb (fst p) u) (documents st) with
  | Some p => Some (snd p)
  | None => None
  end.

Definition serve (st : site) (r : request) (s : unit) : option response * unit :=
  match r with
  | GET u =>
      match document st u with
      | Some doc => (Some {| status_code := 200; text := render doc |}, tt)
      | None => (Some {| status_code := 404; text := "Not Found" |}, tt)
      end
  | UPLOAD _ _ _ _ _ => (Some {| status_code := 201; text := upload_body st |}, tt)
  | _ => (Some {| status_code := write_status st; text := write_body st |}, tt)
  end.

Definition loads (st : site) (body : string) : option pyval :=
  match find (fun p => String.eqb (render (snd p)) body) (documents st) with
  | Some p => Some (snd p)
  | None => None
  end.

Definition dumps : pyval -> string := render.

Definition py_str : pyval -> string := render.

Definition read_file (path : string) : option string :=
  if String.eqb path "/tmp/flow.xml" then Some "<template></template>" else None.

(** The document of a component: identity, state, name, revision, and, for
    a controller service, the components that reference it. *)
Definition entity (id state name : string) (version : Z)
  (refs : list (string * string)) : pyval :=
  PyDict [ ("revision", PyDict [("version", PyInt version)]);
           ("id", PyStr id);
           ("component",
             PyDict [ ("id", PyStr id); ("name", PyStr name); ("state", PyStr state);
                      ("referencingComponents",
                        PyList (map (fun r =>
                                  PyDict [ ("component",
                                            PyDict [ ("id", PyStr (fst r));
                                                     ("referenceType", PyStr (snd r)) ]) ])
                                  refs)) ]) ].

Definition base : string := "http://nifi:8080".

Definition conn : NifiConnection := {| url_base := base |}.

Definition processors (id : string) : string := base ++ "/nifi-api/processors/" ++ id.
Definition services (id : string) : string :=
  base ++ "/nifi-api/controller-services/" ++ id.

(** Two processors and a controller service they both reference, next to a
    reporting task; a second service with the same name, and a listing. *)
Definition plant : site :=
  {| documents :=
       [ (processors "p1", entity "p1" "RUNNING" "GetFile" 3 []);
         (processors "p2", entity "p2" "STOPPED" "PutFile" 7 []);
         (processors "p3", entity "p3" "DISABLED" "LogAttribute" 1 []);
         (processors "p4", entity "p4" EmptyString "Funnel" 0 []);
         (services "cs1",
           entity "cs1" "ENABLED" "pool" 4
             [("p1", "Processor"); ("rt", "ReportingTask"); ("p2", "Processor")]);
         (services "cs2", entity "cs2" "ENABLED" "cache" 2 []);
         (services "cs3", entity "cs3" "DISABLED" "pool" 9 []);
         (base ++ "/nifi-api/flow/process-groups/root/controller-services",
           PyDict [ ("controllerServices",
                      PyList [ PyDict [("component", PyDict [("id", PyStr "cs1")])];
                               PyDict [("component", PyDict [("id", PyStr "cs2")])];
                               PyDict [("component", PyDict [("id", PyStr "cs3")])] ]) ]) ];
     write_status := 200;
     write_body := "OK";
     upload_body :=
       "<templateEntity><template><id>abc-123</id></template></templateEntity>" |}.

(** The same plant behind a server that refuses every write. *)
Definition refusing : site :=
  {| documents := documents plant;
     write_status := 409;
     write_body := "revision conflict";
     upload_body := "<errors/>" |}.

Definition plant_serve := serve plant.
Definition plant_loads := loads plant.
Definition refusing_serve := serve refusing.
Definition refusing_loads := loads refusing.

(** The world before the client has done anything. *)
Definition w0 : world unit := {| remote := tt; trace := [] |}.

(** A server that answers reads as the plant does and is gone for every
    write. *)
Definition serve_reads_only (r : request) (s : unit) : option response * unit :=
  match r with
  | GET _ => serve plant r s
  | _ => (None, tt)
  end.

(** The answer to a template instantiation: two new process groups. *)
Definition flow_answer : pyval :=
  PyDict [ ("flow",
             PyDict [ ("processGroups",
                        PyList [ PyDict [("id", PyStr "pg-1")];
                                 PyDict [("id", PyStr "pg-2")] ]) ]) ].

Definition empty_flow_answer : pyval :=
  PyDict [ ("flow", PyDict [ ("processGroups", PyList []) ]) ].

(** A site whose documents have gaps: a processor with a numeric state, a
    service with properties and one without, a service with a reference
    that has no id, and a listing with an entry that has no id. *)
Definition annex : site :=
  {| documents :=
       [ (processors "q1",
           PyDict [ ("component", PyDict [("id", PyStr "q1"); ("state", PyInt 1)]);
                    ("revision", PyDict [("version", PyInt 2)]) ]);
         (services "cs9",
           PyDict [ ("revision", PyDict [("version", PyInt 5)]);
                    ("component",
                      PyDict [ ("id", PyStr "cs9"); ("name", PyStr "pool");
                               ("properties",
                                 PyDict [ ("url", PyStr "jdbc:a");
                                          ("user", PyStr "nifi") ]) ]) ]);
         (services "cs8",
           PyDict [ ("revision", PyDict [("version", PyInt 1)]);
                    ("component", PyDict [ ("id", PyStr "cs8"); ("properties", PyNone) ]) ]);
         (services "cs7",
           PyDict [ ("component",
                      PyDict [ ("id", PyStr "cs7");
                               ("referencingComponents",
                                 PyList [ PyDict [ ("component",
                                                     PyDict [ ("id", PyStr "p1");
                                                              ("referenceType", PyStr "Processor") ]) ];
                                          PyDict [ ("component",
                                                     PyDict [ ("referenceType",
                                                               PyStr "ReportingTask") ]) ];
                                          PyDict [ ("component",
                                                     PyDict [ ("id", PyStr "p2");
                                                              ("referenceType", PyStr "Processor") ]) ] ]) ]) ]);
         (base ++ "/nifi-api/flow/process-groups/annex/controller-services",
           PyDict [ ("controllerServices",
                      PyList [ PyDict [("component", PyDict [("id", PyStr "cs9")])];
                               PyDict [("component", PyDict [("name", PyStr "nameless")])];
                               PyDict [("component", PyDict [("id", PyStr "cs8")])] ]) ]);
         ("answer", flow_answer) ];
     write_status := 201;
     write_body := render flow_answer;
     upload_body := EmptyString |}.

Definition annex_serve := serve annex.
Definition annex_loads := loads annex.

(** A site that answers an instantiation with no process group. *)
Definition barren : site :=
  {| documents := [ ("answer", empty_flow_answer) ];
     write_status := 201;
     write_body := render empty_flow_answer;
     upload_body := EmptyString |}.

Definition barren_serve := serve barren.
Definition barren_loads := loads barren.

(** A service that two processors reference, one of them DISABLED. *)
Definition yard : site :=
  {| documents :=
       [ (processors "y1", entity "y1" "RUNNING" "GetFile" 3 []);
         (processors "y2", entity "y2" "DISABLED" "PutFile" 7 []);
         (services "csy",
           entity "csy" "ENABLED" "pool" 4 [("y1", "Processor"); ("y2", "Processor")]) ];
     write_status := 200;
     write_body := "OK";
     upload_body := EmptyString |}.

Definition yard_serve := serve yard.
Definition yard_loads := loads yard.

(** A working directory that holds one file. *)
Definition read_local (path : string) : option string :=
  if String.eqb path "flow.xml" then Some "<template></template>" else None.

End Mock.

(** ** The client *)

Declare Scope client_scope.
Delimit Scope client_scope with client.

Section Client.

(** The remote server: its state, and how it answers a request ([None]
    when [requests] raises instead of returning a response). *)
Context {server : Type}.
Variable serve : request -> server -> option response * server.

(** [json.loads] ([None] for a body that is not JSON) and [json.dumps]. *)
Variable loads : string -> option pyval.
Variable dumps : pyval -> string.

(** [str(v)] for a value that is neither a [str] nor an [int]. *)
Variable py_str : pyval -> string.

(** The local files: the content behind a path, when it can be opened. *)
Variable read_file : string -> option string.

Definition M (A : Type) : Type := world server -> result A * world server.

Definition ret {A} (a : A) : M A := fun w => (Ok a, w).

Definition raise {A} (e : exn) : M A := fun w => (Raise e, w).

Definition bind {A B} (m : M A) (k : A -> M B) : M B :=
  fun w =>
    match m w with
    | (Ok a, w') => k a w'
    | (Raise e, w') => (Raise e, w')
    end.

Definition lift {A} (r : result A) : M A := fun w => (r, w).

Definition emit_event (ev : event) : M unit :=
  fun w => (Ok tt, {| remote := remote w; trace := trace w ++ [ev] |}).

Notation "x <- m ;; k" := (bind m (fun x => k))
  (at level 61, m at next level, right associativity) : client_scope.
Notation "m ;; k" := (bind m (fun _ => k))
  (at level 61, right associativity) : client_scope.
Local Open Scope client_scope.

Fixpoint mapM {A B} (f : A -> M B) (l : list A) : M (list B) :=
  match l with
  | [] => ret []
  | a :: l' => b <- f a ;; bs <- mapM f l' ;; ret (b :: bs)
  end.

(** One call on [requests]: the request is recorded, the server moves, and
    the call returns the response or raises. *)
Definition http (r : request) : M response :=
  fun w =>
    let (o, s') := serve r (remote w) in
    let w' := {| remote := s'; trace := trace w ++ [Http r] |} in
    match o with
    | Some resp => (Ok resp, w')
    | None => (Raise RequestException, w')
    end.

Definition log_info (msg : string) : M unit := emit_event (LogInfo msg).
Definition log_warning (msg : string) : M unit := emit_event (LogWarning msg).
Definition print (s : string) : M unit := emit_event (Print s).
Definition sleep (seconds : Z) : M unit := emit_event (Sleep seconds).

(** [open(path, 'rb')], read when the multipart body is built. *)
Definition open_rb (path : string) : M string :=
  emit_event (Open path) ;;
  match read_file path with
  | Some content => ret content
  | None => raise (IOError path)
  end.

(** [str(v)], as [str.format] and [+] on strings see a value. *)
Definition str_of (v : pyval) : string :=
  match v with
  | PyStr s => s
  | PyInt z => str_of_Z z
  | _ => py_str v
  end.

(** [response.json()] and [json.loads(response.text)]. *)
Definition json_of (r : response) : M pyval :=
  match loads (text r) with
  | Some v => ret v
  | None => raise ValueError
  end.

(** *** NifiComponent *)

Definition NifiComponent_init (cls_component_type : string)
  (conn : NifiConnection) (id : pyval) : result NifiComponent :=
  rbind (template_of cls_component_type) (fun t =>
  rbind (format t [] [("url_base", url_base conn); ("component_id", str_of id)]) (fun u =>
  Ok {| component_type := cls_component_type;
        component_id := id;
        nifi_connection := conn;
        template := t;
        url := u;
        endpoints := [] |})).

Definition Processor (conn : NifiConnection) (processor_id : pyval) :=
  NifiComponent_init PROCESSOR conn processor_id.

Definition ControllerService (conn : NifiConnection) (controller_service_id : pyval) :=
  NifiComponent_init CONTROLLER_SERVICE conn controller_service_id.

Definition FlowProcessGroup (conn : NifiConnection) (process_group_id : pyval) :=
  rbind (NifiComponent_init FLOW conn process_group_id) (fun c =>
  Ok (with_endpoint c "controller-services" "controller-services")).

Definition ProcessGroup (conn : NifiConnection) (process_group_id : pyval) :=
  rbind (NifiComponent_init PROCESS_GROUP conn process_group_id) (fun c =>
  Ok (with_endpoint
        (with_endpoint
           (with_endpoint c "upload_template" "templates/upload")
           "initialize_template" "template-instance")
        "controller-services" "controller-services")).

Definition Template (conn : NifiConnection) (template_id : pyval) :=
  rbind (NifiComponent_init TEMPLATE conn template_id) (fun c =>
  Ok (with_endpoint c "download" "download")).

(** [str(self)]. *)
Definition NifiComponent_str (c : NifiComponent) : result string :=
  format "url: {}" [url c] [].

(** [template.format(self)] for a one-field log template. *)
Definition describe (t : string) (c : NifiComponent) : M string :=
  lift (rbind (NifiComponent_str c) (fun s => format t [s] [])).

(** *** NifiConnection *)

Definition _get (u : string) : M response := http (GET u).
Definition _put (u data : string) : M response := http (PUT u data).
Definition _post (u data : string) : M response := http (POST u data).

Definition get_info (u : string) : M pyval :=
  response <- _get u ;;
  json_of response.

Definition get_state (u : string) : M pyval :=
  response_dict <- get_info u ;;
  c <- lift (getitem response_dict "component") ;;
  id <- lift (getitem c "id") ;;
  c' <- lift (getitem response_dict "component") ;;
  st <- lift (getitem c' "state") ;;
  r <- lift (getitem response_dict "revision") ;;
  v <- lift (getitem r "version") ;;
  ret (PyDict [ ("component", PyDict [("id", id); ("state", st)]);
                ("revision", PyDict [("version", v)]) ]).

Definition get_min_info (u : string) : M pyval :=
  response_dict <- get_info u ;;
  c <- lift (getitem response_dict "component") ;;
  id <- lift (getitem c "id") ;;
  c' <- lift (getitem response_dict "component") ;;
  name <- lift (getitem c' "name") ;;
  r <- lift (getitem response_dict "revision") ;;
  v <- lift (getitem r "version") ;;
  ret (PyDict [ ("component", PyDict [("id", id); ("name", name)]);
                ("revision", PyDict [("version", v)]) ]).

(** [forbidden_initial_state and request_dict[..][..] == forbidden_initial_state]:
    the comparison is evaluated only when the argument is truthy. *)
Definition in_forbidden_state (request_dict : pyval)
  (forbidden_initial_state : option string) : M bool :=
  if truthy forbidden_initial_state then
    match forbidden_initial_state with
    | Some f =>
        c <- lift (getitem request_dict "component") ;;
        st <- lift (getitem c "state") ;;
        ret (py_eq_str st f)
    | None => ret false
    end
  else ret false.

Definition change_state (u state : string)
  (forbidden_initial_state : option string) : M unit :=
  request_dict <- get_state u ;;
  forbidden <- in_forbidden_state request_dict forbidden_initial_state ;;
  if forbidden then
    msg <- lift (format "Can't change from {} to {}"
                   [match forbidden_initial_state with Some f => f | None => "None" end;
                    state] []) ;;
    log_info (msg ++ " in this request!" ++ "Method does not support this!")
  else
    request_dict' <- lift (setitem2 request_dict "component" "state" (PyStr state)) ;;
    response <- _post u (dumps request_dict') ;;
    log_info (str_of_Z (status_code response)) ;;
    if status_code response =? 200 then ret tt
    else print (text response).

Definition referencing_component_info (d : pyval) : M (pyval * pyval) :=
  c <- lift (getitem d "component") ;;
  id <- lift (getitem c "id") ;;
  c' <- lift (getitem d "component") ;;
  t <- lift (getitem c' "referenceType") ;;
  ret (id, t).

Definition get_referencing_components (conn : NifiConnection) (u : string)
  : M (list NifiComponent) :=
  request_dict <- get_info u ;;
  c <- lift (getitem request_dict "component") ;;
  referencing_component_dicts <- lift (getitem c "referencingComponents") ;;
  items <- lift (py_iter referencing_component_dicts) ;;
  referencing_component_infos <- mapM referencing_component_info items ;;
  mapM (fun info => lift (Processor conn (fst info)))
       (filter (fun info => py_eq_str (snd info) PROCESSOR)
               referencing_component_infos).

(** [NifiConnection(url_base)]: the probe of the base endpoint; whatever it
    raises becomes a [ConnectionError]. *)
Definition NifiConnection_init (base : string) : M NifiConnection :=
  u <- lift (rbind (template_of BASE) (fun t => format t [] [("url_base", base)])) ;;
  fun w =>
    match _get u w with
    | (Ok _, w') => (Ok {| url_base := base |}, w')
    | (Raise _, w') =>
        (rbind (format "Could not connect to endpoint: {}." [u] []) (fun m =>
         Raise (ConnectionError
                  (m ++ "Make sure you enter 'http://', specify your hostname and the port, "
                     ++ "e.g. http://myhost.example.com:9090"))), w')
    end.

Definition get_processor (conn : NifiConnection) (processor_id : pyval) :=
  Processor conn processor_id.

Definition get_processors (conn : NifiConnection) : M unit :=
  log_warning "method get_processors not implemented!".

Definition get_controller_service (conn : NifiConnection) (id : pyval) :=
  ControllerService conn id.

Definition controller_service_id (controller_service : pyval) : M pyval :=
  c <- lift (getitem controller_service "component") ;;
  lift (getitem c "id").

(** The two comprehensions shared by both listings of controller services. *)
Definition controller_services_of (conn : NifiConnection) (response_json : pyval)
  : M (list NifiComponent) :=
  l <- lift (getitem response_json "controllerServices") ;;
  items <- lift (py_iter l) ;;
  controller_service_ids <- mapM controller_service_id items ;;
  mapM (fun id => lift (ControllerService conn id)) controller_service_ids.

Definition get_controller_services (conn : NifiConnection) (process_group : string)
  : M (list NifiComponent) :=
  url_template <- lift (template_of CONTROLLER_SERVICES) ;;
  u <- lift (format url_template []
               [("url_base", url_base conn); ("process_group", process_group);
                ("subpath", "controller-services")]) ;;
  response <- _get u ;;
  response_json <- json_of response ;;
  controller_services_of conn response_json.

(** *** Processor *)

Definition Processor_start (p : NifiComponent) : M unit :=
  msg <- describe "starting {}" p ;; log_info msg ;;
  change_state (url p) "RUNNING" (Some "DISABLED").

Definition Processor_stop (p : NifiComponent) : M unit :=
  msg <- describe "stopping {}" p ;; log_info msg ;;
  change_state (url p) "STOPPED" (Some "DISABLED").

Definition Processor_enable (p : NifiComponent) : M unit :=
  msg <- describe "enabling {}" p ;; log_info msg ;;
  change_state (url p) "STOPPED" (Some "RUNNING").

Definition Processor_disable (p : NifiComponent) : M unit :=
  msg <- describe "disabling {}" p ;; log_info msg ;;
  change_state (url p) "DISABLED" (Some "RUNNING").

Definition Processor_restart (p : NifiComponent) : M unit :=
  msg <- describe "restarting {}" p ;; log_info msg ;;
  Processor_stop p ;;
  sleep 5 ;;
  Processor_start p.

(** *** ControllerService *)

Definition ControllerService_get_name (cs : NifiComponent) : M pyval :=
  response <- _get (url cs) ;;
  j <- json_of response ;;
  c <- lift (getitem j "component") ;;
  cs_name <- lift (getitem c "name") ;;
  s <- lift (NifiComponent_str cs) ;;
  msg <- lift (format "name of {} is {}" [s; str_of cs_name] []) ;;
  log_info msg ;;
  ret cs_name.

Definition ControllerService_get_referencing_components (cs : NifiComponent) :=
  get_referencing_components (nifi_connection cs) (url cs).

Definition stop_referencing_components (cs : NifiComponent) : M (list unit) :=
  components <- ControllerService_get_referencing_components cs ;;
  mapM Processor_stop components.

Definition start_referencing_components (cs : NifiComponent) : M (list unit) :=
  components <- ControllerService_get_referencing_components cs ;;
  mapM Processor_start components.

Definition ControllerService_enable (cs : NifiComponent) : M unit :=
  msg <- describe "enabling {}" cs ;; log_info msg ;;
  change_state (url cs) "ENABLED" None.

Definition ControllerService_disable (cs : NifiComponent) : M unit :=
  msg <- describe "disabling {}" cs ;; log_info msg ;;
  change_state (url cs) "DISABLED" None.

Definition ControllerService_restart (cs : NifiComponent) : M unit :=
  msg <- describe "restarting controller service {}" cs ;; log_info msg ;;
  stop_referencing_components cs ;;
  sleep 5 ;;
  ControllerService_disable cs ;;
  sleep 5 ;;
  ControllerService_enable cs ;;
  sleep 5 ;;
  start_referencing_components cs ;;
  msg' <- describe "restart attempt of controller service {} concluded." cs ;;
  log_info msg'.

(** *** FlowProcessGroup *)

Definition FlowProcessGroup_get_controller_services (g : NifiComponent)
  : M (list NifiComponent) :=
  e <- lift (endpoint g "controller-services") ;;
  response <- _get (url g ++ e) ;;
  response_json <- json_of response ;;
  controller_services <- controller_services_of (nifi_connection g) response_json ;;
  msg <- lift (format "{} controllers found"
                 [str_of_Z (Z.of_nat (List.length controller_services))] []) ;;
  log_info msg ;;
  ret controller_services.

(** The body of the [for] loop of [get_controller_service_by_name], over
    the rest of the listing, with the handle found so far. *)
Fixpoint scan_by_name (name : string) (controller_services : list NifiComponent)
  (controller_service : option NifiComponent) : M (option NifiComponent) :=
  match controller_services with
  | [] => ret controller_service
  | cs :: rest =>
      n <- ControllerService_get_name cs ;;
      if py_eq_str n name then
        msg <- lift (format "found controller with name {}" [name] []) ;;
        log_info msg ;;
        scan_by_name name rest (Some cs)
      else scan_by_name name rest controller_service
  end.

Definition get_controller_service_by_name (g : NifiComponent) (name : string)
  : M (option NifiComponent) :=
  controller_services <- FlowProcessGroup_get_controller_services g ;;
  scan_by_name name controller_services None.

(** [a + b] where [a] is a [str]: [b] has to be a [str] too. *)
Definition str_add (a : string) (b : pyval) : result string :=
  match b with
  | PyStr s => Ok (a ++ s)
  | _ => Raise TypeError
  end.

Definition FlowProcessGroup_start (g : NifiComponent) : M response :=
  msg <- describe "starting {}" g ;; log_info msg ;;
  d <- lift (str_add ("{" ++ dq ++ "id" ++ dq ++ ": " ++ dq) (component_id g)) ;;
  _put (url g) (d ++ dq ++ ", " ++ dq ++ "state" ++ dq ++ ": " ++ dq ++ "RUNNING" ++ dq ++ "}").

(** *** ProcessGroup *)

(** [l[0]]. *)
Definition first {A} (l : list A) : result A :=
  match l with
  | x :: _ => Ok x
  | [] => Raise IndexError
  end.

Definition upload_template (g : NifiComponent) (template_path : string)
  : M NifiComponent :=
  e <- lift (endpoint g "upload_template") ;;
  content <- open_rb template_path ;;
  response <- http (UPLOAD (url g ++ e) "template" (basename template_path)
                           content "text/xml") ;;
  template_id <- lift (first (findall_id (text response))) ;;
  lift (Template (nifi_connection g) (PyStr template_id)).

(** *** Template *)

Definition Template_download (t : NifiComponent) : M string :=
  msg <- describe "downloading {}" t ;; log_info msg ;;
  e <- lift (endpoint t "download") ;;
  response <- _get (url t ++ e) ;;
  ret (text response).

Definition Template_delete (t : NifiComponent) : M unit :=
  msg <- describe "deleting {}" t ;; log_info msg ;;
  http (DELETE (url t)) ;;
  ret tt.

(** *** The concrete component classes *)

Inductive component_class : Type :=
| ProcessorClass
| ControllerServiceClass
| FlowProcessGroupClass
| ProcessGroupClass
| TemplateClass.

Definition construct (cls : component_class)
  : NifiConnection -> pyval -> result NifiComponent :=
  match cls with
  | ProcessorClass => Processor
  | ControllerServiceClass => ControllerService
  | FlowProcessGroupClass => FlowProcessGroup
  | ProcessGroupClass => ProcessGroup
  | TemplateClass => Template
  end.

Definition class_component_type (cls : component_class) : string :=
  match cls with
  | ProcessorClass => "Processor"
  | ControllerServiceClass => "Controller Service"
  | FlowProcessGroupClass => "Flow"
  | ProcessGroupClass => "Process Group"
  | TemplateClass => "Template"
  end.

(** *** Operations on more of the document *)

(** [o[0]]: the first item of a list, the first character of a string; a dict
    is asked for the key [0] (which no decoded JSON object holds, its keys
    being strings; the key is reported as text); nothing else can be
    subscripted. *)
Definition getitem0 (o : pyval) : result pyval :=
  match o with
  | PyList (x :: _) => Ok x
  | PyList [] => Raise IndexError
  | PyStr (String c _) => Ok (PyStr (String c EmptyString))
  | PyStr EmptyString => Raise IndexError
  | PyDict _ => Raise (KeyError "0")
  | _ => Raise TypeError
  end.

(** [o[k] = v] for a string key: only a dict takes it. *)
Definition setitem (o : pyval) (k : string) (v : pyval) : result pyval :=
  match o with
  | PyDict d => Ok (PyDict (dict_set d k v))
  | _ => Raise TypeError
  end.

(** [doc["component"]["properties"][property] = value]: the two lookups, then
    the assignment in the innermost dict, which the document holds by
    reference. *)
Definition set_property (doc : pyval) (property : string) (value : pyval)
  : result pyval :=
  rbind (getitem doc "component") (fun c =>
  rbind (getitem c "properties") (fun ps =>
  rbind (setitem ps property value) (fun ps' =>
  rbind (setitem c "properties" ps') (fun c' =>
  setitem doc "component" c')))).

Definition update_property (cs : NifiComponent) (property : string) (value : pyval)
  : M response :=
  s <- lift (NifiComponent_str cs) ;;
  msg <- lift (format "updating {}, set property {} to value {} "
                 [s; property; str_of value] []) ;;
  log_info msg ;;
  response <- _get (url cs) ;;
  controller_service <- json_of response ;;
  controller_service' <- lift (set_property controller_service property value) ;;
  _put (url cs) (dumps controller_service').

(** The body [initialize_template] posts. *)
Definition template_instance_body (template_id : pyval) (origin_x origin_y : pyval)
  : result string :=
  rbind (str_add ("{" ++ dq ++ "templateId" ++ dq ++ ":" ++ dq) template_id) (fun a =>
  Ok (a ++ dq ++ "," ++ dq ++ "originX" ++ dq ++ ":" ++ str_of origin_x
        ++ "," ++ dq ++ "originY" ++ dq ++ ":" ++ str_of origin_y ++ "}")).

Definition initialize_template (g : NifiComponent) (template : NifiComponent)
  (origin_x origin_y : pyval) : M NifiComponent :=
  s <- lift (NifiComponent_str g) ;;
  msg <- lift (format "initializing template in {} " [s] []) ;;
  log_info msg ;;
  e <- lift (endpoint g "initialize_template") ;;
  data <- lift (template_instance_body (component_id template) origin_x origin_y) ;;
  response <- _post (url g ++ e) data ;;
  j <- json_of response ;;
  flow <- lift (getitem j "flow") ;;
  process_groups <- lift (getitem flow "processGroups") ;;
  pg <- lift (getitem0 process_groups) ;;
  process_group_id <- lift (getitem pg "id") ;;
  lift (ProcessGroup (nifi_connection g) process_group_id).

(** [NifiComponent.get_info] and [NifiComponent.get_min_info]. *)
Definition NifiComponent_get_info (c : NifiComponent) : M pyval := get_info (url c).
Definition NifiComponent_get_min_info (c : NifiComponent) : M pyval :=
  get_min_info (url c).

(** ** Specifications *)

(** The body of a state change: the identity and revision just read, with
    the state replaced by the target. *)
Definition state_payload (id : pyval) (state : string) (version : pyval) : pyval :=
  PyDict [ ("component", PyDict [("id", id); ("state", PyStr state)]);
           ("revision", PyDict [("version", version)]) ].

(** The document [j] carries the three fields [get_state] extracts. *)
Definition has_state (j id st version : pyval) : Prop :=
  exists c r,
    getitem j "component" = Ok c /\ getitem c "id" = Ok id /\
    getitem c "state" = Ok st /\
    getitem j "revision" = Ok r /\ getitem r "version" = Ok version.

(** A [GET] of [u] in server state [s] is answered by the JSON document
    [j], and leaves the server in [s']. *)
Definition answers (u : string) (s : server) (j : pyval) (s' : server) : Prop :=
  exists resp, serve (GET u) s = (Some resp, s') /\ loads (text resp) = Some j.

Definition after (w : world server) (s : server) (evs : list event) : world server :=
  {| remote := s; trace := trace w ++ evs |}.

Definition brace_free (s : string) : bool :=
  forallb (fun c => negb (Ascii.eqb c lbrace) && negb (Ascii.eqb c rbrace))
          (list_ascii_of_string s).

(** [u] is the template [t] with the base URL put for its one [{url_base}]
    field and the id for its one [{component_id}] field. *)
Definition instance_of (t base id u : string) : Prop :=
  exists mid suf,
    t = "{url_base}" ++ mid ++ "{component_id}" ++ suf /\
    brace_free mid = true /\ brace_free suf = true /\
    u = base ++ mid ++ id ++ suf.

(** Resolving the URL again from what a handle stores. *)
Definition resolve (c : NifiComponent) : result string :=
  format (template c) []
    [ ("url_base", url_base (nifi_connection c));
      ("component_id", str_of (component_id c)) ].

(** The body [FlowProcessGroup.start] sends for the id [i]. *)
Definition flow_start_body (i : string) : string :=
  "{" ++ dq ++ "id" ++ dq ++ ": " ++ dq ++ i ++ dq ++ ", "
      ++ dq ++ "state" ++ dq ++ ": " ++ dq ++ "RUNNING" ++ dq ++ "}".

(** What [Processor(conn, id)] builds. *)
Definition processor_handle (conn : NifiConnection) (id : pyval) : NifiComponent :=
  {| component_type := PROCESSOR;
     component_id := id;
     nifi_connection := conn;
     template := "{url_base}/nifi-api/processors/{component_id}";
     url := url_base conn ++ "/nifi-api/processors/" ++ str_of id;
     endpoints := [] |}.

(** What [ControllerService(conn, id)] builds. *)
Definition service_handle (conn : NifiConnection) (id : pyval) : NifiComponent :=
  {| component_type := CONTROLLER_SERVICE;
     component_id := id;
     nifi_connection := conn;
     template := "{url_base}/nifi-api/controller-services/{component_id}";
     url := url_base conn ++ "/nifi-api/controller-services/" ++ str_of id;
     endpoints := [] |}.

(** An entry of a [referencingComponents] list with its id and type. *)
Definition reference_entry (item : pyval) (info : pyval * pyval) : Prop :=
  exists c,
    getitem item "component" = Ok c /\
    getitem c "id" = Ok (fst info) /\
    getitem c "referenceType" = Ok (snd info).

Definition is_processor_reference (info : pyval * pyval) : bool :=
  py_eq_str (snd info) "Processor".

(** An entry of a [controllerServices] listing with its id. *)
Definition listing_entry (item id : pyval) : Prop :=
  exists c, getitem item "component" = Ok c /\ getitem c "id" = Ok id.

(** Whatever its state, the server answers a [GET] of [u] with a document
    whose [component.name] is [name]. *)
Definition always_named (u : string) (name : pyval) : Prop :=
  forall s, exists j s' c,
    answers u s j s' /\ getitem j "component" = Ok c /\ getitem c "name" = Ok name.

(** The handle the loop of [get_controller_service_by_name] holds after
    the ids [ids], given the names [name_of] the services report. *)
Definition last_named (conn : NifiConnection) (name_of : pyval -> pyval)
  (name : string) (ids : list pyval) (found : option NifiComponent)
  : option NifiComponent :=
  fold_left (fun acc id =>
               if py_eq_str (name_of id) name then Some (service_handle conn id)
               else acc)
            ids found.

(** Whatever its state, the server answers a [GET] of [u] with a document
    that carries an id, a state and a revision version. *)
Definition always_state (u : string) : Prop :=
  forall s, exists j s' id st v, answers u s j s' /\ has_state j id st v.

(** Whatever its state, the server answers a [GET] of [u] with a document
    whose [referencingComponents] are well formed and whose entries of type
    Processor carry the ids [ids], in this order. *)
Definition always_referenced_by (u : string) (ids : list pyval) : Prop :=
  forall s, exists j s' c items infos,
    answers u s j s' /\
    getitem j "component" = Ok c /\
    getitem c "referencingComponents" = Ok (PyList items) /\
    Forall2 reference_entry items infos /\
    map fst (filter is_processor_reference infos) = ids.

(** The server answers every [POST] with a response. *)
Definition posts_answered : Prop :=
  forall u data s, fst (serve (POST u data) s) <> None.

Definition cant_change (f state : string) : string :=
  ("Can't change from " ++ f ++ " to " ++ state)
  ++ " in this request!" ++ "Method does not support this!".

(** What a run of the client does to the server, step by step: a plain
    read; a state change that was written (the read of the revision, then
    the [POST] of the new state under it); an attempted state change (the
    same, or the read followed by the logged refusal when the component is
    in the forbidden state); a sleep. *)
Inductive step : Type :=
| Read (u : string)
| Write (u state : string)
| Attempt (u state : string)
| Pause (seconds : Z).

(** [accounts evs steps]: the events [evs] are the steps [steps], in order,
    with log records and printed lines in between. *)
Inductive accounts : list event -> list step -> Prop :=
| accounts_nil : accounts [] []
| accounts_log msg evs steps :
    accounts evs steps -> accounts (LogInfo msg :: evs) steps
| accounts_print out evs steps :
    accounts evs steps -> accounts (Print out :: evs) steps
| accounts_read u evs steps :
    accounts evs steps -> accounts (Http (GET u) :: evs) (Read u :: steps)
| accounts_write u id state v evs steps :
    accounts evs steps ->
    accounts (Http (GET u) :: Http (POST u (dumps (state_payload id state v))) :: evs)
             (Write u state :: steps)
| accounts_attempt u id state v evs steps :
    accounts evs steps ->
    accounts (Http (GET u) :: Http (POST u (dumps (state_payload id state v))) :: evs)
             (Attempt u state :: steps)
| accounts_refused u f state evs steps :
    accounts evs steps ->
    accounts (Http (GET u) :: LogInfo (cant_change f state) :: evs)
             (Attempt u state :: steps)
| accounts_pause n evs steps :
    accounts evs steps -> accounts (Sleep n :: evs) (Pause n :: steps).

(** From every world, [m] returns [a] and what it does is [steps]. *)
Definition runs {A} (m : M A) (a : A) (steps : list step) : Prop :=
  forall w, exists s' evs, m w = (Ok a, after w s' evs) /\ accounts evs steps.

(** What [Template(conn, id)] builds. *)
Definition template_handle (conn : NifiConnection) (id : pyval) : NifiComponent :=
  {| component_type := TEMPLATE;
     component_id := id;
     nifi_connection := conn;
     template := "{url_base}/nifi-api/templates/{component_id}/";
     url := url_base conn ++ "/nifi-api/templates/" ++ str_of id ++ "/";
     endpoints := [("download", "download")] |}.

Definition no_newline (g : string) : bool :=
  forallb (fun c => negb (Ascii.eqb c newline)) (list_ascii_of_string g).

(** The pattern matches in [s] right after [pre], with [g] in its group:
    an opening tag, text without a newline, a closing tag. *)
Definition occurs_at (s pre g : string) : Prop :=
  exists rest, s = pre ++ "<id>" ++ g ++ "</id>" ++ rest /\ no_newline g = true.

(** The match [re] finds first: the leftmost one and, there, the longest. *)
Definition first_occurrence (s pre g : string) : Prop :=
  occurs_at s pre g /\
  forall pre' g', occurs_at s pre' g' ->
    (String.length pre <= String.length pre')%nat /\
    (String.length pre' = String.length pre ->
     (String.length g' <= String.length g)%nat).

(** What [get_state] returns for the id, state and version it has read. *)
Definition state_payload_read (id st version : pyval) : pyval :=
  PyDict [ ("component", PyDict [("id", id); ("state", st)]);
           ("revision", PyDict [("version", version)]) ].

(** What [FlowProcessGroup(conn, id)] builds. *)
Definition flow_handle (conn : NifiConnection) (id : pyval) : NifiComponent :=
  {| component_type := FLOW;
     component_id := id;
     nifi_connection := conn;
     template := "{url_base}/nifi-api/flow/process-groups/{component_id}/";
     url := url_base conn ++ "/nifi-api/flow/process-groups/" ++ str_of id ++ "/";
     endpoints := [("controller-services", "controller-services")] |}.

(** What [ProcessGroup(conn, id)] builds. *)
Definition process_group_handle (conn : NifiConnection) (id : pyval) : NifiComponent :=
  {| component_type := PROCESS_GROUP;
     component_id := id;
     nifi_connection := conn;
     template := "{url_base}/nifi-api/process-groups/{component_id}/";
     url := url_base conn ++ "/nifi-api/process-groups/" ++ str_of id ++ "/";
     endpoints := [ ("upload_template", "templates/upload");
                    ("initialize_template", "template-instance");
                    ("controller-services", "controller-services") ] |}.

Definition no_slash (s : string) : bool :=
  negb (existsb (Ascii.eqb "/"%char) (list_ascii_of_string s)).

(** The body of a template instantiation, for the template id and the two
    coordinates as text. *)
Definition template_instance_text (tid x y : string) : string :=
  "{" ++ dq ++ "templateId" ++ dq ++ ":" ++ dq ++ tid ++ dq ++ ","
      ++ dq ++ "originX" ++ dq ++ ":" ++ x ++ ","
      ++ dq ++ "originY" ++ dq ++ ":" ++ y ++ "}".

(** The document [j] carries the three fields [get_min_info] extracts. *)
Definition has_min_info (j id name version : pyval) : Prop :=
  exists c r,
    getitem j "component" = Ok c /\ getitem c "id" = Ok id /\
    getitem c "name" = Ok name /\
    getitem j "revision" = Ok r /\ getitem r "version" = Ok version.

(** Whatever its state, the server answers a [GET] of [u] with a document
    that carries an id, a state and a revision version, and the state is not
    the string [f]. *)
Definition always_state_not (u f : string) : Prop :=
  forall s, exists j s' id st v,
    answers u s j s' /\ has_state j id st v /\ py_eq_str st f = false.

(** The request [req] is the write of the state [snd us] on the URL
    [fst us], under some id and revision version. *)
Definition sets_state (req : request) (us : string * string) : Prop :=
  exists id v, req = POST (fst us) (dumps (state_payload id (snd us) v)).

(** A directory part: empty, or ending in a slash. *)
Definition directory_part (dir : string) : Prop :=
  dir = EmptyString \/ exists d, dir = d ++ "/".

(** The state changes among the steps, as (URL, state) pairs. *)
Fixpoint written (steps : list step) : list (string * string) :=
  match steps with
  | [] => []
  | Write u state :: rest => (u, state) :: written rest
  | _ :: rest => written rest
  end.

Fixpoint attempt_free (steps : list step) : bool :=
  match steps with
  | [] => true
  | Attempt _ _ :: _ => false
  | _ :: rest => attempt_free rest
  end.

Lemma requests_of_app (a b : list event) :
  requests_of (a ++ b) = (requests_of a ++ requests_of b)%list.
Proof.
  induction a as [|ev a IH]; simpl; [reflexivity|].
  destruct ev; simpl; rewrite IH; reflexivity.
Qed.

Lemma writes_of_app (a b : list event) :
  writes_of (a ++ b) = (writes_of a ++ writes_of b)%list.
Proof. unfold writes_of. rewrite requests_of_app, filter_app. reflexivity. Qed.

Lemma reads_of_app (a b : list event) :
  reads_of (a ++ b) = (reads_of a ++ reads_of b)%list.
Proof. unfold reads_of. rewrite requests_of_app, filter_app. reflexivity. Qed.

Lemma after_after (w : world server) s1 e1 s2 e2 :
  after (after w s1 e1) s2 e2 = after w s2 (e1 ++ e2)%list.
Proof. unfold after; simpl. rewrite app_assoc. reflexivity. Qed.

Lemma bind_ok {A B} (m : M A) (k : A -> M B) w a w' :
  m w = (Ok a, w') -> bind m k w = k a w'.
Proof. intros H. unfold bind. rewrite H. reflexivity. Qed.

Lemma bind_raise {A B} (m : M A) (k : A -> M B) w e w' :
  m w = (Raise e, w') -> bind m k w = (Raise e, w').
Proof. intros H. unfold bind. rewrite H. reflexivity. Qed.

Lemma get_info_run u w j s' :
  answers u (remote w) j s' ->
  get_info u w = (Ok j, after w s' [Http (GET u)]).
Proof.
  intros (resp & Hs & Hl).
  unfold get_info, _get, http, json_of, bind. rewrite Hs. rewrite Hl.
  reflexivity.
Qed.

Lemma get_state_run u w j s' id st v :
  answers u (remote w) j s' -> has_state j id st v ->
  get_state u w =
    (Ok (PyDict [ ("component", PyDict [("id", id); ("state", st)]);
                  ("revision", PyDict [("version", v)]) ]),
     after w s' [Http (GET u)]).
Proof.
  intros Ha (c & r & Hc & Hi & Hst & Hr & Hv).
  unfold get_state. rewrite (bind_ok _ _ _ _ _ (get_info_run _ _ _ _ Ha)).
  unfold bind, lift, ret. rewrite Hc, Hi, Hst, Hr, Hv. reflexivity.
Qed.

Lemma append_empty_r (s : string) : s ++ EmptyString = s.
Proof. induction s as [|c s IH]; simpl; [reflexivity | rewrite IH; reflexivity]. Qed.

Lemma str_app_assoc (a b c : string) : (a ++ b) ++ c = a ++ b ++ c.
Proof. induction a as [|x a IH]; simpl; [reflexivity | rewrite IH; reflexivity]. Qed.

Lemma format_one_trailing (lit v : string) :
  forallb (fun c => negb (Ascii.eqb c lbrace) && negb (Ascii.eqb c rbrace))
          (list_ascii_of_string lit) = true ->
  format (lit ++ "{}") [v] [] = Ok (lit ++ v).
Proof.
  unfold format. induction lit as [|c lit IH]; intros H.
  - simpl. rewrite append_empty_r. reflexivity.
  - simpl in H. apply andb_prop in H as [Hc Hl].
    apply andb_prop in Hc as [Hl' Hr'].
    apply negb_true_iff in Hl', Hr'.
    change (format_scan [v] [] (String c (lit ++ "{}")) None 0 = Ok (String c (lit ++ v))).
    simpl. rewrite Hl', Hr'. rewrite (IH Hl). reflexivity.
Qed.

Lemma format_cant_change (f state : string) :
  format "Can't change from {} to {}" [f; state] []
  = Ok ("Can't change from " ++ f ++ " to " ++ state).
Proof. unfold format. cbn. rewrite append_empty_r. reflexivity. Qed.

Lemma NifiComponent_str_eq (c : NifiComponent) :
  NifiComponent_str c = Ok ("url: " ++ url c).
Proof. apply (format_one_trailing "url: "). reflexivity. Qed.

Lemma describe_run (lit : string) (c : NifiComponent) (w : world server) :
  forallb (fun c => negb (Ascii.eqb c lbrace) && negb (Ascii.eqb c rbrace))
          (list_ascii_of_string lit) = true ->
  describe (lit ++ "{}") c w = (Ok (lit ++ "url: " ++ url c), w).
Proof.
  intros H. unfold describe, lift. rewrite NifiComponent_str_eq. simpl rbind.
  rewrite (format_one_trailing _ _ H). reflexivity.
Qed.

(** The guard of [change_state] as one boolean. *)
Definition forbidden_matches (st : pyval) (forbidden_initial_state : option string)
  : bool :=
  match forbidden_initial_state with
  | Some f => truthy forbidden_initial_state && py_eq_str st f
  | None => false
  end.

Lemma in_forbidden_state_run id st v forbidden w :
  in_forbidden_state
    (PyDict [ ("component", PyDict [("id", id); ("state", st)]);
              ("revision", PyDict [("version", v)]) ]) forbidden w
  = (Ok (forbidden_matches st forbidden), w).
Proof.
  unfold in_forbidden_state, forbidden_matches.
  destruct forbidden as [f|]; [|reflexivity].
  destruct (truthy (Some f)); reflexivity.
Qed.

(** The events of the write branch once the server has answered. *)
Definition write_events (u data : string) (resp : response) : list event :=
  [Http (GET u); Http (POST u data); LogInfo (str_of_Z (status_code resp))]
  ++ (if status_code resp =? 200 then [] else [Print (text resp)]).

Lemma change_state_skips u state f w j s1 id st v :
  answers u (remote w) j s1 -> has_state j id st v ->
  forbidden_matches st (Some f) = true ->
  change_state u state (Some f) w =
    (Ok tt,
     after w s1 [Http (GET u);
                 LogInfo (("Can't change from " ++ f ++ " to " ++ state)
                          ++ " in this request!" ++ "Method does not support this!")]).
Proof.
  intros Ha Hs Hm. unfold change_state.
  rewrite (bind_ok _ _ _ _ _ (get_state_run _ _ _ _ _ _ _ Ha Hs)).
  rewrite (bind_ok _ _ _ _ _ (in_forbidden_state_run _ _ _ _ _)).
  rewrite Hm. unfold bind, lift. rewrite format_cant_change.
  unfold log_info, emit_event, after. cbn [remote trace].
  rewrite <- app_assoc. reflexivity.
Qed.

Lemma change_state_writes u state forbidden w j s1 id st v :
  answers u (remote w) j s1 -> has_state j id st v ->
  forbidden_matches st forbidden = false ->
  let data := dumps (state_payload id state v) in
  change_state u state forbidden w =
    match serve (POST u data) s1 with
    | (Some resp, s2) => (Ok tt, after w s2 (write_events u data resp))
    | (None, s2) =>
        (Raise RequestException, after w s2 [Http (GET u); Http (POST u data)])
    end.
Proof.
  intros Ha Hs Hm data. unfold change_state.
  rewrite (bind_ok _ _ _ _ _ (get_state_run _ _ _ _ _ _ _ Ha Hs)).
  rewrite (bind_ok _ _ _ _ _ (in_forbidden_state_run _ _ _ _ _)).
  rewrite Hm. unfold bind, lift, _post, http, log_info, print, emit_event, ret. cbn.
  fold (state_payload id state v). fold data.
  destruct (serve (POST u data) s1) as [[resp|] s2]; cbn.
  - unfold write_events, after. cbn.
    destruct (status_code resp =? 200); cbn; rewrite <- !app_assoc; reflexivity.
  - unfold after. cbn. rewrite <- !app_assoc. reflexivity.
Qed.

(** ** Claims about [change_state] *)

(** C1. When [change_state] is called with no forbidden initial state, or
    with one that the state just read does not equal, the requests it
    issues are exactly one read, a [GET] of the component, followed by
    exactly one write, a [POST] whose body is
    [{component: {id, state}, revision: {version}}] with the id and the
    version of that read, unmodified, and the new state. *)
Theorem change_state_reads_then_writes :
  forall (u state : string) (forbidden_initial_state : option string)
         (w : world server) (j : pyval) (s1 : server) (id st v : pyval),
    answers u (remote w) j s1 ->
    has_state j id st v ->
    (forbidden_initial_state = None \/
     exists f, forbidden_initial_state = Some f /\ py_eq_str st f = false) ->
    let w' := snd (change_state u state forbidden_initial_state w) in
    requests_of (trace w') =
      (requests_of (trace w)
       ++ [GET u; POST u (dumps (state_payload id state v))])%list
    /\ reads_of (trace w') = (reads_of (trace w) ++ [GET u])%list
    /\ writes_of (trace w') =
         (writes_of (trace w) ++ [POST u (dumps (state_payload id state v))])%list.
Proof.
  intros u state fb w j s1 id st v Ha Hs Hf.
  assert (Hm : forbidden_matches st fb = false).
  { destruct Hf as [-> | (f & -> & Hne)]; [reflexivity|].
    unfold forbidden_matches. rewrite Hne. apply andb_false_r. }
  cbv zeta. rewrite (change_state_writes u state fb w _ _ _ _ _ Ha Hs Hm).
  destruct (serve (POST u (dumps (state_payload id state v))) s1) as [[resp|] s2];
    cbn [snd after trace]; unfold write_events;
    rewrite ?requests_of_app, ?reads_of_app, ?writes_of_app;
    destruct (status_code resp =? 200) || idtac; repeat split; reflexivity.
Qed.

(** C2, as amended.  When the forbidden initial state is a non-empty
    string and the state just read equals it, [change_state] issues no
    write: it logs that the change is not supported and returns normally. *)
Theorem change_state_forbidden_skips_write :
  forall (u state f : string) (w : world server) (j : pyval) (s1 : server)
         (id st v : pyval),
    answers u (remote w) j s1 ->
    has_state j id st v ->
    f <> EmptyString ->
    py_eq_str st f = true ->
    let r := change_state u state (Some f) w in
    fst r = Ok tt
    /\ writes_of (trace (snd r)) = writes_of (trace w)
    /\ requests_of (trace (snd r)) = (requests_of (trace w) ++ [GET u])%list
    /\ exists msg, trace (snd r) = (trace w ++ [Http (GET u); LogInfo msg])%list.
Proof.
  intros u state f w j s1 id st v Ha Hs Hne Heq.
  assert (Hm : forbidden_matches st (Some f) = true).
  { unfold forbidden_matches. rewrite Heq.
    destruct f; [contradiction | reflexivity]. }
  cbv zeta. rewrite (change_state_skips u state f w _ _ _ _ _ Ha Hs Hm).
  cbn [fst snd after trace].
  rewrite writes_of_app, requests_of_app. cbn. rewrite app_nil_r.
  repeat split; eauto.
Qed.

(** C5. When the write of [change_state] is answered with a status other
    than 200, the call returns normally ([None], no exception): the status
    is logged and the body of the response printed. *)
Theorem change_state_swallows_failed_write :
  forall (u state : string) (forbidden_initial_state : option string)
         (w : world server) (j : pyval) (s1 s2 : server) (id st v : pyval)
         (resp : response),
    answers u (remote w) j s1 ->
    has_state j id st v ->
    forbidden_matches st forbidden_initial_state = false ->
    serve (POST u (dumps (state_payload id state v))) s1 = (Some resp, s2) ->
    status_code resp <> 200 ->
    change_state u state forbidden_initial_state w =
      (Ok tt,
       after w s2 [ Http (GET u);
                    Http (POST u (dumps (state_payload id state v)));
                    LogInfo (str_of_Z (status_code resp));
                    Print (text resp) ]).
Proof.
  intros u state fb w j s1 s2 id st v resp Ha Hs Hm Hp Hne.
  rewrite (change_state_writes u state fb w _ _ _ _ _ Ha Hs Hm). cbv zeta. rewrite Hp.
  unfold write_events. apply Z.eqb_neq in Hne. rewrite Hne. reflexivity.
Qed.

(** ** Claims about handles and their URLs *)

Lemma Processor_ok conn id : Processor conn id = Ok (processor_handle conn id).
Proof.
  unfold Processor, NifiComponent_init, processor_handle, format. cbn.
  rewrite append_empty_r. reflexivity.
Qed.

Lemma ControllerService_ok conn id :
  ControllerService conn id = Ok (service_handle conn id).
Proof.
  unfold ControllerService, NifiComponent_init, service_handle, format. cbn.
  rewrite append_empty_r. reflexivity.
Qed.

Ltac instance_with mid suf :=
  exists mid, suf; repeat split; cbn; rewrite ?append_empty_r; reflexivity.

(** C9. For each of the five component classes and every base URL and id,
    construction succeeds and the URL it resolves is the template of the
    class with the base URL and the id each put in once, whatever text they
    contain; the handle keeps the inputs it was built from, and resolving
    again from them yields the same URL. *)
Theorem resolved_url_instantiates_template :
  forall (cls : component_class) (conn : NifiConnection) (id : pyval),
  exists c,
    construct cls conn id = Ok c
    /\ component_type c = class_component_type cls
    /\ template_of (component_type c) = Ok (template c)
    /\ instance_of (template c) (url_base conn) (str_of id) (url c)
    /\ nifi_connection c = conn /\ component_id c = id
    /\ resolve c = Ok (url c).
Proof.
  intros cls conn id.
  destruct cls; cbn [construct];
    unfold Processor, ControllerService, FlowProcessGroup, ProcessGroup, Template,
      NifiComponent_init, format; cbn;
    eexists; (split; [reflexivity|]); cbn;
    (split; [reflexivity|]); (split; [reflexivity|]);
    (split; [|split; [reflexivity|split; [reflexivity|]]]).
  - instance_with "/nifi-api/processors/" EmptyString.
  - unfold resolve, format. cbn. reflexivity.
  - instance_with "/nifi-api/controller-services/" EmptyString.
  - unfold resolve, format. cbn. reflexivity.
  - instance_with "/nifi-api/flow/process-groups/" "/".
  - unfold resolve, format. cbn. reflexivity.
  - instance_with "/nifi-api/process-groups/" "/".
  - unfold resolve, format. cbn. reflexivity.
  - instance_with "/nifi-api/templates/" "/".
  - unfold resolve, format. cbn. reflexivity.
Qed.

(** ** Claims about processors and process groups *)

(** C3. The four state methods of a processor are [change_state] on the
    processor's URL, after one log record, with these target and forbidden
    initial states: start, RUNNING and DISABLED; stop, STOPPED and DISABLED;
    enable, STOPPED and RUNNING; disable, DISABLED and RUNNING. *)
Theorem processor_state_methods :
  forall (p : NifiComponent) (w : world server),
    Processor_start p w =
      change_state (url p) "RUNNING" (Some "DISABLED")
        (after w (remote w) [LogInfo ("starting url: " ++ url p)])
    /\ Processor_stop p w =
      change_state (url p) "STOPPED" (Some "DISABLED")
        (after w (remote w) [LogInfo ("stopping url: " ++ url p)])
    /\ Processor_enable p w =
      change_state (url p) "STOPPED" (Some "RUNNING")
        (after w (remote w) [LogInfo ("enabling url: " ++ url p)])
    /\ Processor_disable p w =
      change_state (url p) "DISABLED" (Some "RUNNING")
        (after w (remote w) [LogInfo ("disabling url: " ++ url p)]).
Proof.
  intros p w.
  unfold Processor_start, Processor_stop, Processor_enable, Processor_disable.
  rewrite (bind_ok _ _ _ _ _ (describe_run "starting " p w eq_refl)).
  rewrite (bind_ok _ _ _ _ _ (describe_run "stopping " p w eq_refl)).
  rewrite (bind_ok _ _ _ _ _ (describe_run "enabling " p w eq_refl)).
  rewrite (bind_ok _ _ _ _ _ (describe_run "disabling " p w eq_refl)).
  repeat split; reflexivity.
Qed.

(** C7. [FlowProcessGroup.start] issues one request, a [PUT] on the
    group's URL whose body names the id and the state RUNNING and carries no
    revision; no read precedes it. *)
Theorem flow_process_group_start_writes_directly :
  forall (g : NifiComponent) (i : string) (w : world server),
    component_id g = PyStr i ->
    let w' := snd (FlowProcessGroup_start g w) in
    requests_of (trace w') =
      (requests_of (trace w) ++ [PUT (url g) (flow_start_body i)])%list
    /\ reads_of (trace w') = reads_of (trace w)
    /\ trace w' =
         (trace w ++ [ LogInfo ("starting url: " ++ url g);
                       Http (PUT (url g) (flow_start_body i)) ])%list.
Proof.
  intros g i w Hid. cbv zeta.
  assert (Ht : trace (snd (FlowProcessGroup_start g w)) =
               (trace w ++ [ LogInfo ("starting url: " ++ url g);
                             Http (PUT (url g) (flow_start_body i)) ])%list).
  { unfold FlowProcessGroup_start.
    rewrite (bind_ok _ _ _ _ _ (describe_run "starting " g w eq_refl)).
    unfold bind, log_info, emit_event, lift, str_add, _put, http. rewrite Hid. cbn.
    fold (flow_start_body i).
    destruct (serve _ _) as [[resp|] s2]; cbn; rewrite <- app_assoc; reflexivity. }
  rewrite Ht, requests_of_app, reads_of_app. cbn. rewrite app_nil_r.
  repeat split; reflexivity.
Qed.

(** ** Claims about referencing components *)

Lemma mapM_infos (items : list pyval) (infos : list (pyval * pyval)) (w : world server) :
  Forall2 reference_entry items infos ->
  mapM referencing_component_info items w = (Ok infos, w).
Proof.
  induction 1 as [|item info items infos (c & Hc & Hi & Ht) _ IH]; [reflexivity|].
  cbn [mapM]. unfold bind at 1. unfold referencing_component_info at 1.
  unfold bind, lift, ret. rewrite Hc, Hi, Ht.
  unfold bind, ret in IH. rewrite IH. destruct info; reflexivity.
Qed.

Lemma mapM_processors conn (infos : list (pyval * pyval)) (w : world server) :
  mapM (fun info => lift (Processor conn (fst info))) infos w =
    (Ok (map (processor_handle conn) (map fst infos)), w).
Proof.
  induction infos as [|info infos IH]; [reflexivity|].
  cbn [mapM map]. unfold bind, lift, ret in *. rewrite Processor_ok, IH. reflexivity.
Qed.

Lemma get_referencing_components_run conn u w j c s' items infos :
  answers u (remote w) j s' ->
  getitem j "component" = Ok c ->
  getitem c "referencingComponents" = Ok (PyList items) ->
  Forall2 reference_entry items infos ->
  get_referencing_components conn u w =
    (Ok (map (processor_handle conn)
             (map fst (filter is_processor_reference infos))),
     after w s' [Http (GET u)]).
Proof.
  intros Ha Hc Hr Hf.
  unfold get_referencing_components.
  rewrite (bind_ok _ _ _ _ _ (get_info_run _ _ _ _ Ha)).
  unfold bind at 1. unfold lift at 1. rewrite Hc.
  unfold bind at 1. unfold lift at 1. rewrite Hr.
  unfold bind at 1. unfold lift at 1. cbn [py_iter].
  rewrite (bind_ok _ _ _ _ _ (mapM_infos _ _ _ Hf)).
  apply mapM_processors.
Qed.

(** C6. From a [referencingComponents] list, [get_referencing_components]
    returns the processor handles of exactly the entries whose
    [referenceType] is the string Processor, in the order of the list;
    entries of any other type are dropped. *)
Theorem get_referencing_components_keeps_processors :
  forall (conn : NifiConnection) (u : string) (w : world server) (j c : pyval)
         (s' : server) (items : list pyval) (infos : list (pyval * pyval)),
    answers u (remote w) j s' ->
    getitem j "component" = Ok c ->
    getitem c "referencingComponents" = Ok (PyList items) ->
    Forall2 reference_entry items infos ->
    get_referencing_components conn u w =
      (Ok (map (processor_handle conn)
               (map fst (filter is_processor_reference infos))),
       after w s' [Http (GET u)]).
Proof.
  intros conn u w j c s' items infos Ha Hc Hr Hf.
  exact (get_referencing_components_run conn u w j c s' items infos Ha Hc Hr Hf).
Qed.

(** ** Claims about the lookup of a controller service by name *)

Lemma format_name_of (a b : string) :
  format "name of {} is {}" [a; b] [] = Ok ("name of " ++ a ++ " is " ++ b).
Proof. unfold format. cbn. rewrite append_empty_r. reflexivity. Qed.

Lemma format_found (name : string) :
  format "found controller with name {}" [name] []
  = Ok ("found controller with name " ++ name).
Proof. apply (format_one_trailing "found controller with name "). reflexivity. Qed.

Lemma format_found_count (n : string) :
  format "{} controllers found" [n] [] = Ok (n ++ " controllers found").
Proof. reflexivity. Qed.

Lemma get_name_run (cs : NifiComponent) (name : pyval) (w : world server) :
  always_named (url cs) name ->
  exists s' msg,
    ControllerService_get_name cs w =
      (Ok name, after w s' [Http (GET (url cs)); LogInfo msg]).
Proof.
  intros H. destruct (H (remote w)) as (j & s' & c & (resp & Hs & Hl) & Hc & Hn).
  exists s', ("name of " ++ ("url: " ++ url cs) ++ " is " ++ str_of name).
  unfold ControllerService_get_name, _get, http, json_of, bind, lift, ret,
    log_info, emit_event.
  rewrite Hs, Hl, Hc, Hn, NifiComponent_str_eq, format_name_of.
  unfold after. cbn. rewrite <- app_assoc. reflexivity.
Qed.

Lemma scan_by_name_run conn name_of name :
  forall (ids : list pyval) (found : option NifiComponent) (w : world server),
    (forall id, In id ids -> always_named (url (service_handle conn id)) (name_of id)) ->
    exists w',
      scan_by_name name (map (service_handle conn) ids) found w =
        (Ok (last_named conn name_of name ids found), w')
      /\ requests_of (trace w') =
           (requests_of (trace w)
            ++ map (fun id => GET (url (service_handle conn id))) ids)%list.
Proof.
  induction ids as [|id ids IH]; intros found w Hn.
  - exists w. cbn. rewrite app_nil_r. split; reflexivity.
  - destruct (get_name_run (service_handle conn id) (name_of id) w
                (Hn id (or_introl eq_refl))) as (s1 & msg & Hg).
    cbn [map scan_by_name].
    rewrite (bind_ok _ _ _ _ _ Hg).
    assert (Hn' : forall x, In x ids ->
              always_named (url (service_handle conn x)) (name_of x))
      by (intros x Hx; apply Hn; right; exact Hx).
    cbn [last_named fold_left]. fold (last_named conn name_of name).
    destruct (py_eq_str (name_of id) name).
    + unfold bind at 1. unfold lift at 1. rewrite format_found.
      unfold bind at 1. unfold log_info at 1, emit_event at 1.
      destruct (IH (Some (service_handle conn id))
                   {| remote := remote (after w s1 [Http (GET (url (service_handle conn id))); LogInfo msg]);
                      trace := (trace (after w s1 [Http (GET (url (service_handle conn id))); LogInfo msg])
                                ++ [LogInfo ("found controller with name " ++ name)])%list |}
                   Hn') as (w' & Hrun & Hreq).
      exists w'. split; [exact Hrun|].
      rewrite Hreq. cbn [trace after]. rewrite !requests_of_app. cbn.
      rewrite app_nil_r, <- app_assoc. reflexivity.
    + destruct (IH found (after w s1 [Http (GET (url (service_handle conn id))); LogInfo msg]) Hn')
        as (w' & Hrun & Hreq).
      exists w'. split; [exact Hrun|].
      rewrite Hreq. cbn [trace after]. rewrite !requests_of_app. cbn.
      rewrite <- app_assoc. reflexivity.
Qed.

Lemma last_named_last conn name_of name pre i post found :
  py_eq_str (name_of i) name = true ->
  Forall (fun x => py_eq_str (name_of x) name = false) post ->
  last_named conn name_of name (pre ++ i :: post) found = Some (service_handle conn i).
Proof.
  intros Hi Hpost. unfold last_named. rewrite fold_left_app. cbn [fold_left].
  rewrite Hi. clear Hi. induction Hpost as [|x post Hx _ IH]; [reflexivity|].
  cbn [fold_left]. rewrite Hx. exact IH.
Qed.

Lemma mapM_ids (items ids : list pyval) (w : world server) :
  Forall2 listing_entry items ids ->
  mapM controller_service_id items w = (Ok ids, w).
Proof.
  induction 1 as [|item id items ids (c & Hc & Hi) _ IH]; [reflexivity|].
  cbn [mapM]. unfold bind at 1. unfold controller_service_id at 1.
  unfold bind, lift, ret. rewrite Hc, Hi.
  unfold bind, ret in IH. rewrite IH. reflexivity.
Qed.

Lemma mapM_services conn (ids : list pyval) (w : world server) :
  mapM (fun id => lift (ControllerService conn id)) ids w =
    (Ok (map (service_handle conn) ids), w).
Proof.
  induction ids as [|id ids IH]; [reflexivity|].
  cbn [mapM map]. unfold bind, lift, ret in *.
  rewrite ControllerService_ok, IH. reflexivity.
Qed.

Lemma get_controller_services_run conn gid g w j s1 items ids :
  FlowProcessGroup conn gid = Ok g ->
  answers (url g ++ "controller-services") (remote w) j s1 ->
  getitem j "controllerServices" = Ok (PyList items) ->
  Forall2 listing_entry items ids ->
  exists msg,
    FlowProcessGroup_get_controller_services g w =
      (Ok (map (service_handle conn) ids),
       after w s1 [Http (GET (url g ++ "controller-services")); LogInfo msg]).
Proof.
  intros Hg (resp & Hs & Hl) Hj Hf.
  unfold FlowProcessGroup, NifiComponent_init, format in Hg. cbn in Hg.
  injection Hg as <-. cbn in *.
  exists (str_of_Z (Z.of_nat (List.length (map (service_handle conn) ids)))
          ++ " controllers found").
  unfold FlowProcessGroup_get_controller_services, endpoint. cbn.
  unfold bind at 1. unfold lift at 1.
  unfold bind at 1. unfold _get, http. cbn. rewrite Hs.
  unfold bind at 1. unfold json_of. rewrite Hl. unfold ret at 1.
  unfold controller_services_of.
  unfold bind at 1. unfold bind at 1. unfold lift at 1. rewrite Hj.
  unfold bind at 1. unfold lift at 1. cbn [py_iter].
  unfold bind at 1. rewrite (mapM_ids _ _ _ Hf).
  rewrite mapM_services.
  unfold bind, log_info, emit_event, ret, after. cbn [remote trace].
  rewrite <- app_assoc. reflexivity.
Qed.

(** C8. When several controller services of the listing report the name
    asked for, [get_controller_service_by_name] returns the handle of the
    last of them in listing order: the scan asks every service of the
    listing for its name, in order, and a later match replaces an earlier
    one. *)
Theorem get_controller_service_by_name_last_match :
  forall (conn : NifiConnection) (gid : pyval) (g : NifiComponent)
         (name : string) (w : world server) (j : pyval) (s1 : server)
         (items pre post : list pyval) (i : pyval) (name_of : pyval -> pyval),
    FlowProcessGroup conn gid = Ok g ->
    answers (url g ++ "controller-services") (remote w) j s1 ->
    getitem j "controllerServices" = Ok (PyList items) ->
    Forall2 listing_entry items (pre ++ i :: post) ->
    (forall id, In id (pre ++ i :: post) ->
                always_named (url (service_handle conn id)) (name_of id)) ->
    py_eq_str (name_of i) name = true ->
    Forall (fun x => py_eq_str (name_of x) name = false) post ->
    let r := get_controller_service_by_name g name w in
    fst r = Ok (Some (service_handle conn i))
    /\ requests_of (trace (snd r)) =
         (requests_of (trace w)
          ++ GET (url g ++ "controller-services")
             :: map (fun id => GET (url (service_handle conn id))) (pre ++ i :: post))%list.
Proof.
  intros conn gid g name w j s1 items pre post i name_of Hg Ha Hj Hf Hn Hi Hpost.
  destruct (get_controller_services_run conn gid g w j s1 items _ Hg Ha Hj Hf)
    as (msg & Hl).
  destruct (scan_by_name_run conn name_of name (pre ++ i :: post) None
              (after w s1 [Http (GET (url g ++ "controller-services")); LogInfo msg])
              Hn) as (w' & Hrun & Hreq).
  cbv zeta. unfold get_controller_service_by_name.
  rewrite (bind_ok _ _ _ _ _ Hl), Hrun. cbn [fst snd].
  rewrite (last_named_last conn name_of name pre i post None Hi Hpost).
  split; [reflexivity|].
  rewrite Hreq. cbn [after trace]. rewrite requests_of_app. cbn.
  rewrite <- app_assoc. reflexivity.
Qed.

(** ** Claims about the restart of a controller service *)

Lemma accounts_app evs1 steps1 evs2 steps2 :
  accounts evs1 steps1 -> accounts evs2 steps2 ->
  accounts (evs1 ++ evs2) (steps1 ++ steps2).
Proof.
  intros H1 H2. induction H1; cbn; try (constructor; assumption). exact H2.
Qed.

Lemma after_nil (w : world server) : after w (remote w) [] = w.
Proof. destruct w. unfold after. cbn. rewrite app_nil_r. reflexivity. Qed.

Lemma runs_bind {A B} (m : M A) (k : A -> M B) a b steps1 steps2 :
  runs m a steps1 -> runs (k a) b steps2 ->
  runs (bind m k) b (steps1 ++ steps2).
Proof.
  intros Hm Hk w.
  destruct (Hm w) as (s1 & evs1 & Hr1 & Ha1).
  destruct (Hk (after w s1 evs1)) as (s2 & evs2 & Hr2 & Ha2).
  exists s2, (evs1 ++ evs2)%list. split.
  - rewrite (bind_ok _ _ _ _ _ Hr1), Hr2, after_after. reflexivity.
  - apply accounts_app; assumption.
Qed.

Lemma runs_silent {A B} (m : M A) (k : A -> M B) a b steps :
  runs m a [] -> runs (k a) b steps -> runs (bind m k) b steps.
Proof. intros Hm Hk. exact (runs_bind m k a b [] steps Hm Hk). Qed.

Lemma runs_ret {A} (a : A) : runs (ret a) a [].
Proof.
  intros w. exists (remote w), []. rewrite after_nil. split; [reflexivity | constructor].
Qed.

Lemma runs_log (msg : string) : runs (log_info msg) tt [].
Proof.
  intros w. exists (remote w), [LogInfo msg]. split; [reflexivity | repeat constructor].
Qed.

Lemma runs_sleep (n : Z) : runs (sleep n) tt [Pause n].
Proof.
  intros w. exists (remote w), [Sleep n]. split; [reflexivity | repeat constructor].
Qed.

Lemma runs_describe (lit : string) (c : NifiComponent) :
  brace_free lit = true ->
  runs (describe (lit ++ "{}") c) (lit ++ "url: " ++ url c) [].
Proof.
  intros H w. exists (remote w), []. rewrite after_nil.
  split; [apply describe_run; exact H | constructor].
Qed.

(** A logged operation: the log record, then the operation itself. *)
Lemma runs_logged {A} (lit : string) (c : NifiComponent) (m : M A) a steps :
  brace_free lit = true -> runs m a steps ->
  runs (bind (describe (lit ++ "{}") c) (fun msg => bind (log_info msg) (fun _ => m)))
       a steps.
Proof.
  intros H Hm.
  apply (runs_silent _ _ _ _ _ (runs_describe lit c H)).
  apply (runs_silent _ _ _ _ _ (runs_log _)). exact Hm.
Qed.

Lemma runs_change_state_attempt (u state f : string) :
  always_state u -> posts_answered ->
  runs (change_state u state (Some f)) tt [Attempt u state].
Proof.
  intros Hs Hp w.
  destruct (Hs (remote w)) as (j & s1 & id & st & v & Ha & Hst).
  destruct (forbidden_matches st (Some f)) eqn:Hm.
  - exists s1, [Http (GET u); LogInfo (cant_change f state)]. split.
    + apply (change_state_skips u state f w j s1 id st v Ha Hst Hm).
    + repeat constructor.
  - pose proof (change_state_writes u state (Some f) w j s1 id st v Ha Hst Hm) as Hw.
    cbv zeta in Hw. specialize (Hp u (dumps (state_payload id state v)) s1).
    destruct (serve (POST u (dumps (state_payload id state v))) s1) as [[resp|] s2];
      [|contradiction Hp; reflexivity].
    exists s2, (write_events u (dumps (state_payload id state v)) resp).
    split; [exact Hw|].
    unfold write_events. cbn. apply accounts_attempt.
    destruct (status_code resp =? 200); repeat constructor.
Qed.

Lemma runs_change_state_write (u state : string) :
  always_state u -> posts_answered ->
  runs (change_state u state None) tt [Write u state].
Proof.
  intros Hs Hp w.
  destruct (Hs (remote w)) as (j & s1 & id & st & v & Ha & Hst).
  pose proof (change_state_writes u state None w j s1 id st v Ha Hst eq_refl) as Hw.
  cbv zeta in Hw. specialize (Hp u (dumps (state_payload id state v)) s1).
  destruct (serve (POST u (dumps (state_payload id state v))) s1) as [[resp|] s2];
    [|contradiction Hp; reflexivity].
  exists s2, (write_events u (dumps (state_payload id state v)) resp).
  split; [exact Hw|].
  unfold write_events. cbn. apply accounts_write.
  destruct (status_code resp =? 200); repeat constructor.
Qed.

Lemma runs_referencing conn u ids :
  always_referenced_by u ids ->
  runs (get_referencing_components conn u) (map (processor_handle conn) ids) [Read u].
Proof.
  intros H w.
  destruct (H (remote w)) as (j & s1 & c & items & infos & Ha & Hc & Hr & Hf & <-).
  exists s1, [Http (GET u)]. split.
  - apply (get_referencing_components_run conn u w j c s1 items infos Ha Hc Hr Hf).
  - repeat constructor.
Qed.

Lemma runs_stop (p : NifiComponent) :
  always_state (url p) -> posts_answered ->
  runs (Processor_stop p) tt [Attempt (url p) "STOPPED"].
Proof.
  intros Hs Hp. apply (runs_logged "stopping " p); [reflexivity|].
  apply runs_change_state_attempt; assumption.
Qed.

Lemma runs_start (p : NifiComponent) :
  always_state (url p) -> posts_answered ->
  runs (Processor_start p) tt [Attempt (url p) "RUNNING"].
Proof.
  intros Hs Hp. apply (runs_logged "starting " p); [reflexivity|].
  apply runs_change_state_attempt; assumption.
Qed.

Lemma runs_concluded (cs : NifiComponent) :
  runs (msg <- describe "restart attempt of controller service {} concluded." cs ;;
        log_info msg) tt [].
Proof.
  apply (runs_silent _ _
           ("restart attempt of controller service " ++ ("url: " ++ url cs)
            ++ " concluded.")).
  - intros w. exists (remote w), []. rewrite after_nil. split; [|constructor].
    unfold describe, lift. rewrite NifiComponent_str_eq. reflexivity.
  - apply runs_log.
Qed.

(** ** Claims about the upload of a template *)

Lemma prefix_drop (p s : string) :
  prefix p s = true -> s = p ++ drop (String.length p) s.
Proof.
  revert s. induction p as [|c p IH]; intros s H; [reflexivity|].
  destruct s as [|c' s]; [discriminate|]. cbn in H.
  destruct (ascii_dec c c') as [->|]; [|discriminate].
  cbn. f_equal. apply IH. exact H.
Qed.

Lemma prefix_app (p s : string) : prefix p (p ++ s) = true.
Proof.
  induction p as [|c p IH]; cbn; [destruct s; reflexivity|].
  destruct (ascii_dec c c); [exact IH | contradiction].
Qed.

Lemma drop_app (p s : string) : drop (String.length p) (p ++ s) = s.
Proof. induction p as [|c p IH]; [reflexivity | exact IH]. Qed.

Lemma length_app (a b : string) :
  String.length (a ++ b) = (String.length a + String.length b)%nat.
Proof. induction a as [|c a IH]; cbn; [reflexivity | rewrite IH; reflexivity]. Qed.

Lemma app_same_length (a a' b b' : string) :
  a ++ b = a' ++ b' -> String.length a = String.length a' -> a = a'.
Proof.
  revert a'. induction a as [|c a IH]; intros [|c' a'] H L; try discriminate.
  - reflexivity.
  - cbn in H. injection H as -> H. f_equal. apply IH; [exact H|].
    cbn in L. congruence.
Qed.

Lemma greedy_close_sound (s g rest : string) :
  greedy_close s = Some (g, rest) ->
  s = g ++ "</id>" ++ rest /\ no_newline g = true.
Proof.
  revert g rest. induction s as [|c s IH]; intros g rest H; [discriminate|].
  cbn [greedy_close] in H.
  destruct (Ascii.eqb c newline) eqn:Hc.
  - destruct (prefix "</id>" (String c s)) eqn:Hp; [|discriminate].
    injection H as <- <-. split; [|reflexivity].
    exact (prefix_drop "</id>" _ Hp).
  - destruct (greedy_close s) as [[g' rest']|] eqn:Hg.
    + injection H as <- <-. destruct (IH g' rest' eq_refl) as [-> Hn].
      split; [reflexivity|]. unfold no_newline. cbn. rewrite Hc. exact Hn.
    + destruct (prefix "</id>" (String c s)) eqn:Hp; [|discriminate].
      injection H as <- <-. split; [|reflexivity].
      exact (prefix_drop "</id>" _ Hp).
Qed.

Lemma greedy_close_longest (g rest : string) :
  no_newline g = true ->
  exists g' rest',
    greedy_close (g ++ "</id>" ++ rest) = Some (g', rest')
    /\ (String.length g <= String.length g')%nat.
Proof.
  induction g as [|c g IH]; intros Hn.
  - change (EmptyString ++ "</id>" ++ rest) with (String "<" ("/id>" ++ rest)).
    cbn [greedy_close]. change (Ascii.eqb "<" newline) with false. cbv iota.
    destruct (greedy_close ("/id>" ++ rest)) as [[g' rest']|].
    + exists (String "<" g'), rest'. split; [reflexivity | cbn; lia].
    + exists EmptyString, rest. split; [|cbn; lia].
      change (String "<" ("/id>" ++ rest)) with ("</id>" ++ rest).
      rewrite prefix_app. change 5%nat with (String.length "</id>").
      rewrite drop_app. reflexivity.
  - unfold no_newline in Hn. cbn in Hn. apply andb_prop in Hn as [Hc Hn].
    apply negb_true_iff in Hc.
    destruct (IH Hn) as (g' & rest' & Hg & Hl).
    exists (String c g'), rest'.
    change (String c g ++ "</id>" ++ rest) with (String c (g ++ "</id>" ++ rest)).
    cbn [greedy_close]. rewrite Hc, Hg. split; [reflexivity | cbn; lia].
Qed.

Lemma match_at_sound (s g : string) :
  match_at s = Some g -> occurs_at s EmptyString g.
Proof.
  unfold match_at. destruct (prefix "<id>" s) eqn:Hp; [|discriminate].
  destruct (greedy_close (drop 4 s)) as [[g' rest]|] eqn:Hg; [|discriminate].
  intros H. injection H as <-.
  destruct (greedy_close_sound _ _ _ Hg) as [He Hn].
  exists rest. split; [|exact Hn].
  rewrite (prefix_drop "<id>" s Hp) at 1. cbn [String.length].
  rewrite He. reflexivity.
Qed.

Lemma match_at_longest (s g : string) :
  occurs_at s EmptyString g ->
  exists g', match_at s = Some g' /\ (String.length g <= String.length g')%nat.
Proof.
  intros (rest & -> & Hn). unfold match_at.
  change (EmptyString ++ "<id>" ++ g ++ "</id>" ++ rest)
    with ("<id>" ++ (g ++ "</id>" ++ rest)).
  rewrite prefix_app.
  change 4%nat with (String.length "<id>"). rewrite drop_app.
  destruct (greedy_close_longest g rest Hn) as (g' & rest' & -> & Hl).
  exists g'. split; [reflexivity | exact Hl].
Qed.

Lemma occurs_at_shift (c : ascii) (s pre g : string) :
  occurs_at s pre g <-> occurs_at (String c s) (String c pre) g.
Proof.
  split; intros (rest & He & Hn); exists rest; (split; [|exact Hn]).
  - rewrite He. reflexivity.
  - cbn in He. injection He as He. exact He.
Qed.

Lemma findall_id_none (s : string) :
  (forall pre g, ~ occurs_at s pre g) -> findall_id s = [].
Proof.
  unfold findall_id. induction s as [|c s IH]; intros H; [reflexivity|].
  cbn [findall_scan].
  destruct (match_at (String c s)) as [g|] eqn:Hm.
  - exfalso. exact (H _ _ (match_at_sound _ _ Hm)).
  - apply IH. intros pre g Ho. apply (H (String c pre) g).
    apply occurs_at_shift. exact Ho.
Qed.

Lemma findall_id_first (s pre g : string) :
  first_occurrence s pre g -> exists rest, findall_id s = g :: rest.
Proof.
  unfold findall_id. revert s. induction pre as [|c pre IH]; intros s [Ho Hfirst].
  - destruct (match_at_longest s g Ho) as (g' & Hm & Hl).
    pose proof (match_at_sound _ _ Hm) as Ho'.
    destruct (Hfirst _ _ Ho') as [_ Hle]. specialize (Hle eq_refl).
    assert (g' = g) as ->.
    { destruct Ho as (r & He & _), Ho' as (r' & He' & _).
      rewrite He in He'. cbn in He'. injection He' as He'.
      symmetry. apply (app_same_length _ _ _ _ He'). lia. }
    destruct s as [|c s]; [discriminate Hm|].
    cbn [findall_scan]. rewrite Hm. eexists. reflexivity.
  - destruct Ho as (r & He & Hn). subst s.
    change (String c pre ++ "<id>" ++ g ++ "</id>" ++ r)
      with (String c (pre ++ "<id>" ++ g ++ "</id>" ++ r)) in *.
    cbn [findall_scan].
    destruct (match_at (String c (pre ++ "<id>" ++ g ++ "</id>" ++ r))) as [g'|] eqn:Hm.
    + exfalso. destruct (Hfirst _ _ (match_at_sound _ _ Hm)) as [Hle _].
      cbn in Hle. lia.
    + apply IH. split.
      * exists r. split; [reflexivity | exact Hn].
      * intros pre' g' Ho'.
        destruct (Hfirst (String c pre') g') as [H1 H2].
        { apply occurs_at_shift. exact Ho'. }
        cbn in H1, H2. split; [lia|]. intros L. apply H2. congruence.
Qed.

Lemma Template_ok conn id : Template conn id = Ok (template_handle conn id).
Proof. unfold Template, NifiComponent_init, template_handle, format. cbn. reflexivity. Qed.

Lemma upload_template_run conn gid g path content w resp s' :
  ProcessGroup conn gid = Ok g ->
  read_file path = Some content ->
  serve (UPLOAD (url g ++ "templates/upload") "template" (basename path)
                content "text/xml") (remote w) = (Some resp, s') ->
  fst (upload_template g path w) =
    match findall_id (text resp) with
    | x :: _ => Ok (template_handle conn (PyStr x))
    | [] => Raise IndexError
    end.
Proof.
  intros Hg Hf Hs.
  unfold ProcessGroup, NifiComponent_init, format in Hg. cbn in Hg.
  injection Hg as <-.
  unfold upload_template, endpoint. cbn [kw_get endpoints with_endpoint app String.eqb].
  cbn in Hs |- *.
  unfold bind at 1. unfold lift at 1.
  unfold bind at 1. unfold open_rb, bind, emit_event, ret, raise. rewrite Hf.
  unfold http. cbn [remote trace]. rewrite Hs. unfold lift.
  destruct (findall_id (text resp)) as [|x rest]; cbn [first fst].
  - reflexivity.
  - cbn [nifi_connection]. rewrite Template_ok. reflexivity.
Qed.

(** C10. [upload_template] takes the template id from the body of the
    response: it is the text of the group in the first match of the
    pattern (the leftmost, and there the longest), which is the first
    element of what [re.findall] returns; when the pattern matches nowhere
    in the body, the call ends with an [IndexError] and returns no handle. *)
Theorem upload_template_extracts_first_id :
  forall (conn : NifiConnection) (gid : pyval) (g : NifiComponent)
         (path content : string) (w : world server) (resp : response) (s' : server),
    ProcessGroup conn gid = Ok g ->
    read_file path = Some content ->
    serve (UPLOAD (url g ++ "templates/upload") "template" (basename path)
                  content "text/xml") (remote w) = (Some resp, s') ->
    let r := fst (upload_template g path w) in
    (forall pre x, first_occurrence (text resp) pre x ->
                   r = Ok (template_handle conn (PyStr x)))
    /\ ((forall pre x, ~ occurs_at (text resp) pre x) -> r = Raise IndexError)
    /\ r = match findall_id (text resp) with
           | x :: _ => Ok (template_handle conn (PyStr x))
           | [] => Raise IndexError
           end.
Proof.
  intros conn gid g path content w resp s' Hg Hf Hs. cbv zeta.
  rewrite (upload_template_run conn gid g path content w resp s' Hg Hf Hs).
  repeat split.
  - intros pre x Hfirst. destruct (findall_id_first _ _ _ Hfirst) as (rest & ->).
    reflexivity.
  - intros Hnone. rewrite (findall_id_none _ Hnone). reflexivity.
Qed.

(** ** More about [get_state] and [change_state] *)

Lemma get_info_trace u w :
  trace (snd (get_info u w)) = (trace w ++ [Http (GET u)])%list.
Proof.
  unfold get_info, _get, http, json_of, bind.
  destruct (serve (GET u) (remote w)) as [[resp|] s1]; cbn; [|reflexivity].
  destruct (loads (text resp)); reflexivity.
Qed.

Lemma get_state_trace u w :
  trace (snd (get_state u w)) = (trace w ++ [Http (GET u)])%list.
Proof.
  unfold get_state. unfold bind at 1.
  pose proof (get_info_trace u w) as H.
  destruct (get_info u w) as [[j|e] w1]; cbn [snd] in *; [|exact H].
  unfold bind, lift, ret.
  repeat (match goal with
          | |- context [getitem ?a ?b] => destruct (getitem a b); cbn [snd]
          end); exact H.
Qed.

(** [get_state] succeeds exactly on a document that carries the id, the
    state and the revision version; it then returns these three fields and
    nothing else of the document.  Succeeding or not, it has issued one
    [GET]. *)
Theorem get_state_succeeds_iff :
  forall (u : string) (w : world server) (j : pyval) (s' : server),
    answers u (remote w) j s' ->
    ((exists d, fst (get_state u w) = Ok d) <-> exists id st v, has_state j id st v)
    /\ (forall id st v, has_state j id st v ->
          fst (get_state u w) = Ok (state_payload_read id st v))
    /\ trace (snd (get_state u w)) = (trace w ++ [Http (GET u)])%list.
Proof.
  intros u w j s' Ha. split; [split|split].
  - intros (d & Hd). revert Hd.
    unfold get_state. rewrite (bind_ok _ _ _ _ _ (get_info_run _ _ _ _ Ha)).
    unfold bind, lift, ret.
    destruct (getitem j "component") as [c|] eqn:Hc; [|discriminate].
    destruct (getitem c "id") as [id|] eqn:Hi; [|discriminate].
    destruct (getitem c "state") as [st|] eqn:Hst; [|discriminate].
    destruct (getitem j "revision") as [r|] eqn:Hr; [|discriminate].
    destruct (getitem r "version") as [v|] eqn:Hv; [|discriminate].
    intros _. exists id, st, v, c, r. repeat split; assumption.
  - intros (id & st & v & Hs). eexists.
    rewrite (get_state_run u w j s' id st v Ha Hs). reflexivity.
  - intros id st v Hs. rewrite (get_state_run u w j s' id st v Ha Hs). reflexivity.
  - apply get_state_trace.
Qed.

(** When the read of [change_state] fails, for whatever reason (the
    transport raises, the body is not JSON, a field is missing), the call
    ends with the exception of the read, and the [GET] is the only request
    it has issued: nothing is written. *)
Theorem change_state_failed_read_writes_nothing :
  forall (u state : string) (forbidden_initial_state : option string)
         (w : world server) (e : exn),
    fst (get_state u w) = Raise e ->
    let r := change_state u state forbidden_initial_state w in
    fst r = Raise e
    /\ trace (snd r) = (trace w ++ [Http (GET u)])%list
    /\ writes_of (trace (snd r)) = writes_of (trace w).
Proof.
  intros u state fb w e He. cbv zeta.
  assert (Hr : change_state u state fb w = (Raise e, snd (get_state u w))).
  { unfold change_state. apply bind_raise.
    destruct (get_state u w) as [r w1]. cbn in He |- *. rewrite He. reflexivity. }
  rewrite Hr. cbn [fst snd]. rewrite get_state_trace.
  rewrite writes_of_app. cbn. rewrite app_nil_r. repeat split; reflexivity.
Qed.

(** When the transport raises on the write of [change_state], the call ends
    with that exception after the [GET] and the [POST] have been issued; no
    status is logged. *)
Theorem change_state_write_raises :
  forall (u state : string) (forbidden_initial_state : option string)
         (w : world server) (j : pyval) (s1 s2 : server) (id st v : pyval),
    answers u (remote w) j s1 ->
    has_state j id st v ->
    forbidden_matches st forbidden_initial_state = false ->
    serve (POST u (dumps (state_payload id state v))) s1 = (None, s2) ->
    change_state u state forbidden_initial_state w =
      (Raise RequestException,
       after w s2 [Http (GET u); Http (POST u (dumps (state_payload id state v)))]).
Proof.
  intros u state fb w j s1 s2 id st v Ha Hs Hm Hp.
  rewrite (change_state_writes u state fb w j s1 id st v Ha Hs Hm). cbv zeta.
  rewrite Hp. reflexivity.
Qed.

(** The guard of [change_state] compares the state read with a string: a
    state that is not a JSON string (a number, [null], a list) never equals
    the forbidden state, and the write is issued. *)
Theorem change_state_guard_needs_a_string_state :
  forall (u state f : string) (w : world server) (j : pyval) (s1 : server)
         (id st v : pyval),
    answers u (remote w) j s1 ->
    has_state j id st v ->
    (forall s, st <> PyStr s) ->
    writes_of (trace (snd (change_state u state (Some f) w))) =
      (writes_of (trace w) ++ [POST u (dumps (state_payload id state v))])%list.
Proof.
  intros u state f w j s1 id st v Ha Hs Hst.
  assert (Hm : forbidden_matches st (Some f) = false).
  { unfold forbidden_matches, py_eq_str.
    destruct st; try apply andb_false_r. exfalso. exact (Hst s eq_refl). }
  rewrite (change_state_writes u state (Some f) w j s1 id st v Ha Hs Hm). cbv zeta.
  destruct (serve (POST u (dumps (state_payload id state v))) s1) as [[resp|] s2];
    cbn [snd after trace]; unfold write_events; rewrite writes_of_app;
    [destruct (status_code resp =? 200)|]; reflexivity.
Qed.

(** On a processor whose state is DISABLED, [start] and [stop] return
    normally without writing; so do [enable] and [disable] on a processor
    whose state is RUNNING. *)
Theorem processor_methods_refused :
  forall (p : NifiComponent) (w : world server) (j : pyval) (s1 : server)
         (id st v : pyval),
    answers (url p) (remote w) j s1 ->
    has_state j id st v ->
    (st = PyStr "DISABLED" ->
       fst (Processor_start p w) = Ok tt
       /\ writes_of (trace (snd (Processor_start p w))) = writes_of (trace w)
       /\ fst (Processor_stop p w) = Ok tt
       /\ writes_of (trace (snd (Processor_stop p w))) = writes_of (trace w))
    /\ (st = PyStr "RUNNING" ->
       fst (Processor_enable p w) = Ok tt
       /\ writes_of (trace (snd (Processor_enable p w))) = writes_of (trace w)
       /\ fst (Processor_disable p w) = Ok tt
       /\ writes_of (trace (snd (Processor_disable p w))) = writes_of (trace w)).
Proof.
  intros p w j s1 id st v Ha Hs.
  assert (Hskip : forall lit state f,
            brace_free lit = true ->
            forbidden_matches st (Some f) = true ->
            let r := (msg <- describe (lit ++ "{}") p ;; log_info msg ;;
                      change_state (url p) state (Some f)) w in
            fst r = Ok tt /\ writes_of (trace (snd r)) = writes_of (trace w)).
  { intros lit state f Hl Hm. cbv zeta.
    rewrite (bind_ok _ _ _ _ _ (describe_run lit p w Hl)).
    change ((log_info (lit ++ "url: " ++ url p);;
             change_state (url p) state (Some f)) w)
      with (change_state (url p) state (Some f)
              (after w (remote w) [LogInfo (lit ++ "url: " ++ url p)])).
    rewrite (change_state_skips (url p) state f
               (after w (remote w) [LogInfo (lit ++ "url: " ++ url p)])
               j s1 id st v Ha Hs Hm).
    cbn [fst snd after trace]. rewrite !writes_of_app. cbn. rewrite !app_nil_r.
    split; reflexivity. }
  split; intros ->.
  - destruct (Hskip "starting " "RUNNING" "DISABLED" eq_refl eq_refl) as [A B].
    destruct (Hskip "stopping " "STOPPED" "DISABLED" eq_refl eq_refl) as [C D].
    repeat split; assumption.
  - destruct (Hskip "enabling " "STOPPED" "RUNNING" eq_refl eq_refl) as [A B].
    destruct (Hskip "disabling " "DISABLED" "RUNNING" eq_refl eq_refl) as [C D].
    repeat split; assumption.
Qed.

(** ** More about the connection *)

Lemma format_could_not_connect (u : string) :
  format "Could not connect to endpoint: {}." [u] []
  = Ok ("Could not connect to endpoint: " ++ u ++ ".").
Proof. reflexivity. Qed.

(** Construction of a connection issues one [GET] on the base endpoint and
    succeeds on any response, whatever its status; it fails, with a
    [ConnectionError] that names the endpoint, exactly when the transport
    raises. *)
Theorem connection_probe_outcome :
  forall (base : string) (w : world server),
    NifiConnection_init base w =
      match serve (GET (base ++ "/nifi-api")) (remote w) with
      | (Some _, s') =>
          (Ok {| url_base := base |}, after w s' [Http (GET (base ++ "/nifi-api"))])
      | (None, s') =>
          (Raise (ConnectionError
                    (("Could not connect to endpoint: " ++ (base ++ "/nifi-api") ++ ".")
                     ++ "Make sure you enter 'http://', specify your hostname and the port, "
                     ++ "e.g. http://myhost.example.com:9090")),
           after w s' [Http (GET (base ++ "/nifi-api"))])
      end.
Proof.
  intros base w. unfold NifiConnection_init, bind, lift.
  assert (Hu : rbind (template_of BASE)
                 (fun t => format t [] [("url_base", base)])
               = Ok (base ++ "/nifi-api")) by reflexivity.
  rewrite Hu. unfold _get, http.
  destruct (serve (GET (base ++ "/nifi-api")) (remote w)) as [[resp|] s']; [reflexivity|].
  rewrite format_could_not_connect. reflexivity.
Qed.

Lemma listing_url (base pg : string) :
  rbind (template_of CONTROLLER_SERVICES)
    (fun t => format t [] [ ("url_base", base); ("process_group", pg);
                            ("subpath", "controller-services") ])
  = Ok (base ++ "/nifi-api/flow/process-groups/" ++ pg ++ "/controller-services").
Proof.
  unfold format. cbn. reflexivity.
Qed.

Lemma controller_services_of_run conn j items ids w :
  getitem j "controllerServices" = Ok (PyList items) ->
  Forall2 listing_entry items ids ->
  controller_services_of conn j w = (Ok (map (service_handle conn) ids), w).
Proof.
  intros Hj Hf. unfold controller_services_of.
  unfold bind at 1. unfold lift at 1. rewrite Hj.
  unfold bind at 1. unfold lift at 1. cbn [py_iter].
  unfold bind at 1. rewrite (mapM_ids _ _ _ Hf). apply mapM_services.
Qed.

(** [NifiConnection.get_controller_services] issues one [GET], on the
    listing of the process group asked for (its name put into the URL once,
    as it is), and returns one controller-service handle per entry of the
    listing, in the order of the listing. *)
Theorem connection_lists_controller_services :
  forall (conn : NifiConnection) (process_group : string) (w : world server)
         (j : pyval) (s1 : server) (items ids : list pyval),
    let u := url_base conn ++ "/nifi-api/flow/process-groups/" ++ process_group
             ++ "/controller-services" in
    answers u (remote w) j s1 ->
    getitem j "controllerServices" = Ok (PyList items) ->
    Forall2 listing_entry items ids ->
    get_controller_services conn process_group w =
      (Ok (map (service_handle conn) ids), after w s1 [Http (GET u)]).
Proof.
  intros conn pg w j s1 items ids u (resp & Hs & Hl) Hj Hf.
  unfold get_controller_services.
  pose proof (listing_url (url_base conn) pg) as Hu. fold u in Hu.
  unfold rbind in Hu. unfold bind at 1. unfold lift at 1.
  destruct (template_of CONTROLLER_SERVICES) as [t|]; [|discriminate].
  unfold bind at 1. unfold lift at 1. rewrite Hu.
  unfold bind at 1. unfold _get, http. rewrite Hs.
  unfold bind at 1. unfold json_of. rewrite Hl. unfold ret.
  apply (controller_services_of_run conn j items ids _ Hj Hf).
Qed.

Lemma mapM_ids_bad good ids bad c rest (w : world server) :
  Forall2 listing_entry good ids ->
  getitem bad "component" = Ok c ->
  getitem c "id" = Raise (KeyError "id") ->
  mapM controller_service_id (good ++ bad :: rest) w = (Raise (KeyError "id"), w).
Proof.
  intros Hf Hc Hi. induction Hf as [|item id good ids (c0 & Hc0 & Hi0) _ IH].
  - cbn [app mapM]. apply bind_raise. unfold controller_service_id.
    unfold bind, lift. rewrite Hc, Hi. reflexivity.
  - cbn [app mapM]. unfold bind at 1. unfold controller_service_id at 1.
    unfold bind at 1, lift at 1. rewrite Hc0. unfold lift at 1. rewrite Hi0.
    unfold ret at 1. apply bind_raise. exact IH.
Qed.

Lemma mapM_unchanged {A B} (f : A -> M B) (l : list A) :
  (forall a, exists r, forall w, f a w = (r, w)) ->
  exists r, forall w, mapM f l w = (r, w).
Proof.
  intros Hf. induction l as [|a l (rl & IH)].
  - exists (Ok []). reflexivity.
  - destruct (Hf a) as (ra & Ha). cbn [mapM]. unfold bind, ret.
    destruct ra as [b|e].
    + destruct rl as [bs|e].
      * exists (Ok (b :: bs)). intros w. rewrite Ha, IH. reflexivity.
      * exists (Raise e). intros w. rewrite Ha, IH. reflexivity.
    + exists (Raise e). intros w. rewrite Ha. reflexivity.
Qed.

Lemma controller_services_of_unchanged conn j :
  exists r, forall w, controller_services_of conn j w = (r, w).
Proof.
  unfold controller_services_of, bind, lift.
  destruct (getitem j "controllerServices") as [l|e]; [|eexists; reflexivity].
  destruct (py_iter l) as [items|e]; [|eexists; reflexivity].
  destruct (mapM_unchanged controller_service_id items) as (r1 & H1).
  { intros a. unfold controller_service_id, bind, lift.
    destruct (getitem a "component") as [c|e]; eexists; reflexivity. }
  destruct r1 as [ids|e].
  - destruct (mapM_unchanged (fun id => lift (ControllerService conn id)) ids)
      as (r2 & H2).
    { intros a. eexists. reflexivity. }
    exists r2. intros w. rewrite H1. apply H2.
  - exists (Raise e). intros w. rewrite H1. reflexivity.
Qed.

Lemma FlowProcessGroup_ok conn id : FlowProcessGroup conn id = Ok (flow_handle conn id).
Proof. unfold FlowProcessGroup, NifiComponent_init, flow_handle, format. cbn. reflexivity. Qed.

Lemma ProcessGroup_ok conn id :
  ProcessGroup conn id = Ok (process_group_handle conn id).
Proof.
  unfold ProcessGroup, NifiComponent_init, process_group_handle, format. cbn. reflexivity.
Qed.

Lemma flow_handle_endpoint conn id :
  endpoint (flow_handle conn id) "controller-services" = Ok "controller-services".
Proof. reflexivity. Qed.

(** The listing of a flow process group and the listing of the connection
    for the same group are the same call on the server with the same outcome:
    both issue one [GET] on the same URL and return the same handles, or end
    with the same exception.  (The group also logs how many it found.) *)
Theorem listings_agree :
  forall (conn : NifiConnection) (pg : string) (g : NifiComponent)
         (w : world server),
    FlowProcessGroup conn (PyStr pg) = Ok g ->
    fst (FlowProcessGroup_get_controller_services g w)
      = fst (get_controller_services conn pg w)
    /\ requests_of (trace (snd (FlowProcessGroup_get_controller_services g w)))
       = requests_of (trace (snd (get_controller_services conn pg w))).
Proof.
  intros conn pg g w Hg.
  rewrite FlowProcessGroup_ok in Hg. injection Hg as <-.
  unfold FlowProcessGroup_get_controller_services, get_controller_services.
  rewrite flow_handle_endpoint.
  pose proof (listing_url (url_base conn) pg) as Hu. unfold rbind in Hu.
  destruct (template_of CONTROLLER_SERVICES) as [t|]; [|discriminate].
  assert (Hurl : url (flow_handle conn (PyStr pg)) ++ "controller-services"
                 = url_base conn ++ "/nifi-api/flow/process-groups/" ++ pg
                   ++ "/controller-services").
  { cbn [url flow_handle str_of]. rewrite !str_app_assoc. reflexivity. }
  cbn [nifi_connection flow_handle].
  unfold bind, lift, _get, http, json_of, ret, log_info, emit_event.
  rewrite Hu, Hurl.
  destruct (serve _ (remote w)) as [[resp|] s1]; [|split; reflexivity].
  destruct (loads (text resp)) as [j|]; [|split; reflexivity].
  destruct (controller_services_of_unchanged conn j) as (r & Hr).
  rewrite !Hr.
  destruct r as [l|e]; [|split; reflexivity].
  rewrite format_found_count. cbn [fst snd trace].
  rewrite !requests_of_app. cbn. rewrite app_nil_r. split; reflexivity.
Qed.

(** ** More about processors and controller services *)

Lemma runs_mapM {A} (f : NifiComponent -> M A) (a : A)
  (what : NifiComponent -> list step) (ps : list NifiComponent) :
  (forall p, In p ps -> runs (f p) a (what p)) ->
  runs (mapM f ps) (map (fun _ => a) ps) (flat_map what ps).
Proof.
  induction ps as [|p ps IH]; intros H.
  - apply runs_ret.
  - cbn [mapM map flat_map].
    apply (runs_bind _ _ a _ _ _ (H p (or_introl eq_refl))).
    rewrite <- (app_nil_r (flat_map what ps)).
    apply (runs_bind _ _ (map (fun _ => a) ps)).
    + apply IH. intros q Hq. apply H. right. exact Hq.
    + apply runs_ret.
Qed.

Lemma flat_map_singleton {A B} (f : A -> B) (l : list A) :
  flat_map (fun a => [f a]) l = map f l.
Proof. induction l as [|a l IH]; cbn; [reflexivity | rewrite IH; reflexivity]. Qed.

Lemma runs_stop_all conn (u : string) (ids : list pyval) :
  always_referenced_by u ids ->
  (forall id, In id ids -> always_state (url (processor_handle conn id))) ->
  posts_answered ->
  runs (components <- get_referencing_components conn u ;; mapM Processor_stop components)
       (map (fun _ => tt) ids)
       (Read u :: map (fun id => Attempt (url (processor_handle conn id)) "STOPPED") ids).
Proof.
  intros Hr Hs Hp.
  apply (runs_bind _ _ (map (processor_handle conn) ids) _ [Read u]).
  - apply runs_referencing. exact Hr.
  - rewrite <- (map_map (processor_handle conn) (fun _ => tt)).
    rewrite <- (map_map (processor_handle conn) (fun p => Attempt (url p) "STOPPED")).
    rewrite <- (flat_map_singleton (fun p => Attempt (url p) "STOPPED")).
    apply (runs_mapM _ tt (fun p => [Attempt (url p) "STOPPED"])). intros p Hin. apply in_map_iff in Hin as (id & <- & Hid).
    apply runs_stop; [apply Hs; exact Hid | exact Hp].
Qed.

Lemma runs_start_all conn (u : string) (ids : list pyval) :
  always_referenced_by u ids ->
  (forall id, In id ids -> always_state (url (processor_handle conn id))) ->
  posts_answered ->
  runs (components <- get_referencing_components conn u ;; mapM Processor_start components)
       (map (fun _ => tt) ids)
       (Read u :: map (fun id => Attempt (url (processor_handle conn id)) "RUNNING") ids).
Proof.
  intros Hr Hs Hp.
  apply (runs_bind _ _ (map (processor_handle conn) ids) _ [Read u]).
  - apply runs_referencing. exact Hr.
  - rewrite <- (map_map (processor_handle conn) (fun _ => tt)).
    rewrite <- (map_map (processor_handle conn) (fun p => Attempt (url p) "RUNNING")).
    rewrite <- (flat_map_singleton (fun p => Attempt (url p) "RUNNING")).
    apply (runs_mapM _ tt (fun p => [Attempt (url p) "RUNNING"])). intros p Hin. apply in_map_iff in Hin as (id & <- & Hid).
    apply runs_start; [apply Hs; exact Hid | exact Hp].
Qed.

(** [stop_referencing_components] reads the references once and then tries
    to stop every referencing processor, one after the other in the order of
    the list, returning one [None] per processor; a service that no processor
    references gives the empty list after the one read. *)
Theorem stop_referencing_components_stops_each :
  forall (cs : NifiComponent) (ids : list pyval) (w : world server),
    always_referenced_by (url cs) ids ->
    (forall id, In id ids ->
                always_state (url (processor_handle (nifi_connection cs) id))) ->
    posts_answered ->
    exists s' evs,
      stop_referencing_components cs w = (Ok (map (fun _ => tt) ids), after w s' evs)
      /\ accounts evs
           (Read (url cs)
            :: map (fun id =>
                      Attempt (url (processor_handle (nifi_connection cs) id)) "STOPPED")
                 ids).
Proof.
  intros cs ids w Hr Hs Hp.
  exact (runs_stop_all (nifi_connection cs) (url cs) ids Hr Hs Hp w).
Qed.

(** [restart] of a processor: an attempt to stop it, a sleep of five
    seconds, an attempt to start it; the start is attempted whether or not
    the stop was written. *)
Theorem processor_restart_stops_then_starts :
  forall (p : NifiComponent) (w : world server),
    always_state (url p) ->
    posts_answered ->
    exists s' evs,
      Processor_restart p w = (Ok tt, after w s' evs)
      /\ accounts evs [Attempt (url p) "STOPPED"; Pause 5; Attempt (url p) "RUNNING"].
Proof.
  intros p w Hs Hp. revert w.
  change (runs (Processor_restart p) tt
            ([Attempt (url p) "STOPPED"] ++ [Pause 5] ++ [Attempt (url p) "RUNNING"])).
  unfold Processor_restart.
  apply (runs_logged "restarting " p); [reflexivity|].
  apply (runs_bind _ _ tt); [apply runs_stop; assumption|].
  apply (runs_bind _ _ tt); [apply runs_sleep|].
  apply runs_start; assumption.
Qed.

(** When no controller service of the listing reports the name asked for,
    [get_controller_service_by_name] returns [None], after it has asked every
    service of the listing for its name. *)
Theorem get_controller_service_by_name_none :
  forall (conn : NifiConnection) (gid : pyval) (g : NifiComponent)
         (name : string) (w : world server) (j : pyval) (s1 : server)
         (items ids : list pyval) (name_of : pyval -> pyval),
    FlowProcessGroup conn gid = Ok g ->
    answers (url g ++ "controller-services") (remote w) j s1 ->
    getitem j "controllerServices" = Ok (PyList items) ->
    Forall2 listing_entry items ids ->
    (forall id, In id ids ->
                always_named (url (service_handle conn id)) (name_of id)) ->
    Forall (fun x => py_eq_str (name_of x) name = false) ids ->
    let r := get_controller_service_by_name g name w in
    fst r = Ok None
    /\ requests_of (trace (snd r)) =
         (requests_of (trace w)
          ++ GET (url g ++ "controller-services")
             :: map (fun id => GET (url (service_handle conn id))) ids)%list.
Proof.
  intros conn gid g name w j s1 items ids name_of Hg Ha Hj Hf Hn Hno.
  destruct (get_controller_services_run conn gid g w j s1 items _ Hg Ha Hj Hf)
    as (msg & Hl).
  destruct (scan_by_name_run conn name_of name ids None
              (after w s1 [Http (GET (url g ++ "controller-services")); LogInfo msg])
              Hn) as (w' & Hrun & Hreq).
  cbv zeta. unfold get_controller_service_by_name.
  rewrite (bind_ok _ _ _ _ _ Hl), Hrun. cbn [fst snd].
  assert (Hlast : last_named conn name_of name ids None = None).
  { unfold last_named. clear -Hno. induction Hno as [|x l Hx _ IH]; [reflexivity|].
    cbn [fold_left]. rewrite Hx. exact IH. }
  rewrite Hlast. split; [reflexivity|].
  rewrite Hreq. cbn [after trace]. rewrite requests_of_app. cbn.
  rewrite <- app_assoc. reflexivity.
Qed.

(** [FlowProcessGroup.start] on a group whose id is not a string ends with a
    [TypeError] when the body is put together: the log record is written, no
    request is issued. *)
Theorem flow_process_group_start_needs_a_string_id :
  forall (g : NifiComponent) (w : world server),
    (forall i, component_id g <> PyStr i) ->
    FlowProcessGroup_start g w =
      (Raise TypeError, after w (remote w) [LogInfo ("starting url: " ++ url g)]).
Proof.
  intros g w Hid. unfold FlowProcessGroup_start.
  rewrite (bind_ok _ _ _ _ _ (describe_run "starting " g w eq_refl)).
  unfold bind, log_info, emit_event, lift, str_add.
  destruct (component_id g) eqn:E; try reflexivity.
  exfalso. exact (Hid s eq_refl).
Qed.

(** ** More about the upload of a template *)

Lemma basename_no_slash (name : string) :
  no_slash name = true -> basename name = name.
Proof.
  destruct name as [|c rest]; [reflexivity|].
  unfold no_slash. cbn [list_ascii_of_string existsb basename].
  rewrite negb_orb. intros H. apply andb_prop in H as [Hc Hr].
  apply negb_true_iff in Hc, Hr.
  rewrite Ascii.eqb_sym in Hc. rewrite Hc, Hr. reflexivity.
Qed.

Lemma has_slash_app (d name : string) :
  existsb (Ascii.eqb "/"%char) (list_ascii_of_string (d ++ "/" ++ name)) = true.
Proof.
  induction d as [|c d IH]; [reflexivity|].
  change (String c d ++ "/" ++ name) with (String c (d ++ "/" ++ name)).
  cbn [list_ascii_of_string existsb]. rewrite IH. apply orb_true_r.
Qed.

Lemma basename_app (dir name : string) :
  no_slash name = true -> basename (dir ++ "/" ++ name) = name.
Proof.
  intros H. induction dir as [|c dir IH].
  - cbn. apply basename_no_slash. exact H.
  - change (String c dir ++ "/" ++ name) with (String c (dir ++ "/" ++ name)).
    cbn [basename]. rewrite has_slash_app.
    destruct (Ascii.eqb c "/"); exact IH.
Qed.

(** [upload_template] of a file that cannot be opened ends with the error of
    [open] before anything is sent: no request is issued. *)
Theorem upload_template_missing_file :
  forall (conn : NifiConnection) (gid : pyval) (g : NifiComponent)
         (path : string) (w : world server),
    ProcessGroup conn gid = Ok g ->
    read_file path = None ->
    upload_template g path w = (Raise (IOError path), after w (remote w) [Open path]).
Proof.
  intros conn gid g path w Hg Hf.
  rewrite ProcessGroup_ok in Hg. injection Hg as <-.
  unfold upload_template, endpoint.
  change (kw_get (endpoints (process_group_handle conn gid)) "upload_template")
    with (Some "templates/upload").
  unfold bind, lift, open_rb, emit_event, raise. rewrite Hf. reflexivity.
Qed.

Lemma findall_scan_sound (s : string) :
  forall skip, Forall (fun g => exists pre, occurs_at s pre g) (findall_scan s skip).
Proof.
  induction s as [|c s IH]; intros skip; [constructor|].
  assert (Hshift : forall k,
            Forall (fun g => exists pre, occurs_at (String c s) pre g)
                   (findall_scan s k)).
  { intros k. eapply Forall_impl; [|apply (IH k)].
    intros g (pre & Ho). exists (String c pre). apply occurs_at_shift. exact Ho. }
  cbn [findall_scan]. destruct skip as [|k]; [|apply Hshift].
  destruct (match_at (String c s)) as [g|] eqn:Hm; [|apply Hshift].
  constructor; [|apply Hshift].
  exists EmptyString. apply match_at_sound. exact Hm.
Qed.

Lemma findall_id_found (s pre g : string) :
  occurs_at s pre g -> findall_id s <> [].
Proof.
  unfold findall_id. revert s. induction pre as [|c pre IH]; intros s Ho.
  - destruct (match_at_longest s g Ho) as (g' & Hm & _).
    destruct s as [|c s]; [discriminate Hm|].
    cbn [findall_scan]. rewrite Hm. discriminate.
  - destruct Ho as (r & He & Hn). subst s.
    change (String c pre ++ "<id>" ++ g ++ "</id>" ++ r)
      with (String c (pre ++ "<id>" ++ g ++ "</id>" ++ r)).
    cbn [findall_scan].
    destruct (match_at _); [discriminate|].
    apply IH. exists r. split; [reflexivity | exact Hn].
Qed.

(** Every id that the pattern search returns is text of the body that stands
    between an opening and a closing id tag and holds no newline; and the
    search returns nothing exactly when the body has no such text. *)
Theorem findall_id_sound_and_empty_iff :
  forall s : string,
    (forall g, In g (findall_id s) -> exists pre, occurs_at s pre g)
    /\ (findall_id s = [] <-> forall pre g, ~ occurs_at s pre g).
Proof.
  intros s. split; [|split].
  - intros g Hin. pose proof (findall_scan_sound s 0) as H.
    rewrite Forall_forall in H. exact (H g Hin).
  - intros He pre g Ho. exact (findall_id_found s pre g Ho He).
  - apply findall_id_none.
Qed.

(** Once the file is read and the server has answered the upload,
    [upload_template] returns a handle exactly when the body of the answer
    holds an id between its tags on one line, and the id of the handle is
    such a text of the body; otherwise it ends with an [IndexError]. *)
Theorem upload_template_returns_an_id_of_the_body :
  forall (conn : NifiConnection) (gid : pyval) (g : NifiComponent)
         (path content : string) (w : world server) (resp : response) (s' : server),
    ProcessGroup conn gid = Ok g ->
    read_file path = Some content ->
    serve (UPLOAD (url g ++ "templates/upload") "template" (basename path)
                  content "text/xml") (remote w) = (Some resp, s') ->
    let r := fst (upload_template g path w) in
    ((exists pre x, occurs_at (text resp) pre x) ->
       exists pre x, occurs_at (text resp) pre x
                     /\ r = Ok (template_handle conn (PyStr x)))
    /\ (r = Raise IndexError <-> forall pre x, ~ occurs_at (text resp) pre x).
Proof.
  intros conn gid g path content w resp s' Hg Hf Hs. cbv zeta.
  rewrite (upload_template_run conn gid g path content w resp s' Hg Hf Hs).
  destruct (findall_id_sound_and_empty_iff (text resp)) as [Hsound [He1 He2]].
  destruct (findall_id (text resp)) as [|x rest] eqn:E.
  - split.
    + intros (pre & x & Ho). exfalso. exact (He1 eq_refl pre x Ho).
    + split; [intros _; apply He1; reflexivity | reflexivity].
  - destruct (Hsound x (or_introl eq_refl)) as (pre & Ho). split.
    + intros _. exists pre, x. split; [exact Ho | reflexivity].
    + split; [discriminate|]. intros Hno. exfalso. exact (Hno pre x Ho).
Qed.

(** ** Instantiating, downloading and deleting a template *)

Lemma template_instance_body_str (tid : string) (x y : pyval) :
  template_instance_body (PyStr tid) x y
  = Ok (template_instance_text tid (str_of x) (str_of y)).
Proof.
  reflexivity.
Qed.

Lemma initialize_template_posts conn gid t tid x y w :
  component_id t = PyStr tid ->
  let g := process_group_handle conn gid in
  let req := POST (url g ++ "template-instance")
                  (template_instance_text tid (str_of x) (str_of y)) in
  initialize_template g t x y w =
    (let w1 := after w (remote w)
                 [LogInfo ("initializing template in " ++ ("url: " ++ url g) ++ " ")] in
     match serve req (remote w) with
     | (Some resp, s') =>
         (rbind (match loads (text resp) with
                 | Some j => Ok j
                 | None => Raise ValueError
                 end) (fun j =>
          rbind (getitem j "flow") (fun flow =>
          rbind (getitem flow "processGroups") (fun pgs =>
          rbind (getitem0 pgs) (fun pg =>
          rbind (getitem pg "id") (fun pid =>
          ProcessGroup conn pid))))),
          after w1 s' [Http req])
     | (None, s') => (Raise RequestException, after w1 s' [Http req])
     end).
Proof.
  intros Hid g req. unfold initialize_template.
  rewrite Hid, template_instance_body_str.
  unfold bind at 1. unfold lift at 1. rewrite NifiComponent_str_eq.
  unfold bind at 1. unfold lift at 1.
  change (format "initializing template in {} " ["url: " ++ url g] [])
    with (Ok ("initializing template in " ++ ("url: " ++ url g) ++ " ")).
  unfold bind at 1. unfold log_info, emit_event.
  unfold bind at 1. unfold lift at 1, endpoint.
  change (kw_get (endpoints g) "initialize_template") with (Some "template-instance").
  cbv beta iota.
  unfold bind at 1. unfold lift at 1.
  unfold bind at 1. unfold _post, http. cbn [remote trace]. fold req.
  destruct (serve req (remote w)) as [[resp|] s']; [|reflexivity].
  unfold bind, json_of, lift, ret. cbv zeta. unfold after. cbn [remote trace].
  destruct (loads (text resp)) as [j|]; [|reflexivity]. cbn [rbind].
  destruct (getitem j "flow") as [flow|]; [|reflexivity]. cbn [rbind].
  destruct (getitem flow "processGroups") as [pgs|]; [|reflexivity]. cbn [rbind].
  destruct (getitem0 pgs) as [pg|]; [|reflexivity]. cbn [rbind].
  destruct (getitem pg "id") as [pid|]; reflexivity.
Qed.

(** [initialize_template] posts the template id and the two coordinates to
    the [template-instance] endpoint of the group and returns a handle of the
    process group that stands first in the [flow.processGroups] list of the
    answer, whatever follows it in the list. *)
Theorem initialize_template_returns_first_group :
  forall (conn : NifiConnection) (gid : pyval) (g t : NifiComponent) (tid : string)
         (x y : pyval) (w : world server) (resp : response) (s' : server)
         (j flow pg pid : pyval) (more : list pyval),
    ProcessGroup conn gid = Ok g ->
    component_id t = PyStr tid ->
    serve (POST (url g ++ "template-instance")
                (template_instance_text tid (str_of x) (str_of y))) (remote w)
      = (Some resp, s') ->
    loads (text resp) = Some j ->
    getitem j "flow" = Ok flow ->
    getitem flow "processGroups" = Ok (PyList (pg :: more)) ->
    getitem pg "id" = Ok pid ->
    let r := initialize_template g t x y w in
    fst r = Ok (process_group_handle conn pid)
    /\ requests_of (trace (snd r)) =
         (requests_of (trace w)
          ++ [POST (url g ++ "template-instance")
                   (template_instance_text tid (str_of x) (str_of y))])%list.
Proof.
  intros conn gid g t tid x y w resp s' j flow pg pid more Hg Hid Hs Hl Hf Hp Hi.
  rewrite ProcessGroup_ok in Hg. injection Hg as <-. cbv zeta.
  rewrite (initialize_template_posts conn gid t tid x y w Hid). cbv zeta.
  rewrite Hs, Hl. cbn [rbind]. rewrite Hf. cbn [rbind]. rewrite Hp. cbn [rbind getitem0].
  rewrite Hi. cbn [rbind fst snd after trace]. rewrite ProcessGroup_ok.
  split; [reflexivity|].
  rewrite !requests_of_app. cbn. rewrite app_nil_r. reflexivity.
Qed.

(** When the answer to the instantiation lists no process group,
    [initialize_template] ends with an [IndexError] and returns no handle,
    after the instantiation has been posted. *)
Theorem initialize_template_without_group :
  forall (conn : NifiConnection) (gid : pyval) (g t : NifiComponent) (tid : string)
         (x y : pyval) (w : world server) (resp : response) (s' : server)
         (j flow : pyval),
    ProcessGroup conn gid = Ok g ->
    component_id t = PyStr tid ->
    serve (POST (url g ++ "template-instance")
                (template_instance_text tid (str_of x) (str_of y))) (remote w)
      = (Some resp, s') ->
    loads (text resp) = Some j ->
    getitem j "flow" = Ok flow ->
    getitem flow "processGroups" = Ok (PyList []) ->
    let r := initialize_template g t x y w in
    fst r = Raise IndexError
    /\ requests_of (trace (snd r)) =
         (requests_of (trace w)
          ++ [POST (url g ++ "template-instance")
                   (template_instance_text tid (str_of x) (str_of y))])%list.
Proof.
  intros conn gid g t tid x y w resp s' j flow Hg Hid Hs Hl Hf Hp.
  rewrite ProcessGroup_ok in Hg. injection Hg as <-. cbv zeta.
  rewrite (initialize_template_posts conn gid t tid x y w Hid). cbv zeta.
  rewrite Hs, Hl. cbn [rbind]. rewrite Hf. cbn [rbind]. rewrite Hp.
  cbn [rbind getitem0 fst snd after trace].
  split; [reflexivity|].
  rewrite !requests_of_app. cbn. rewrite app_nil_r. reflexivity.
Qed.

(** [Template.download] issues one [GET] on the [download] endpoint of the
    template and returns the body of the answer as it is, whatever the
    status of the answer. *)
Theorem template_download_returns_the_body :
  forall (conn : NifiConnection) (id : pyval) (w : world server),
    let t := template_handle conn id in
    let u := url_base conn ++ "/nifi-api/templates/" ++ str_of id ++ "/download" in
    let w1 := after w (remote w) [LogInfo ("downloading url: " ++ url t)] in
    Template_download t w =
      match serve (GET u) (remote w) with
      | (Some resp, s') => (Ok (text resp), after w1 s' [Http (GET u)])
      | (None, s') => (Raise RequestException, after w1 s' [Http (GET u)])
      end.
Proof.
  intros conn id w t u w1. unfold Template_download.
  rewrite (bind_ok _ _ _ _ _ (describe_run "downloading " t w eq_refl)).
  assert (Hu : url t ++ "download" = u).
  { unfold u. cbn [url t template_handle]. rewrite !str_app_assoc. reflexivity. }
  unfold bind, log_info, emit_event, lift, endpoint, _get, http, ret.
  change (kw_get (endpoints t) "download") with (Some "download"). cbv beta iota.
  rewrite Hu. cbn [remote trace].
  destruct (serve (GET u) (remote w)) as [[resp|] s']; reflexivity.
Qed.

(** [Template.delete] issues one [DELETE] on the URL of the template, without
    reading anything first, and returns [None] on any answer, whatever its
    status; only an exception of the transport ends it otherwise. *)
Theorem template_delete_ignores_the_answer :
  forall (t : NifiComponent) (w : world server),
    let w1 := after w (remote w) [LogInfo ("deleting url: " ++ url t)] in
    Template_delete t w =
      match serve (DELETE (url t)) (remote w) with
      | (Some _, s') => (Ok tt, after w1 s' [Http (DELETE (url t))])
      | (None, s') => (Raise RequestException, after w1 s' [Http (DELETE (url t))])
      end.
Proof.
  intros t w w1. unfold Template_delete.
  rewrite (bind_ok _ _ _ _ _ (describe_run "deleting " t w eq_refl)).
  unfold bind, log_info, emit_event, http, ret. cbn [remote trace].
  destruct (serve (DELETE (url t)) (remote w)) as [[resp|] s']; reflexivity.
Qed.

(** ** Updating a property of a controller service *)

Lemma dict_get_set_same (d : list (string * pyval)) (k : string) (v : pyval) :
  dict_get (dict_set d k v) k = Some v.
Proof.
  induction d as [|[k' v'] d IH]; cbn.
  - rewrite String.eqb_refl. reflexivity.
  - destruct (String.eqb k' k) eqn:E; cbn; rewrite E; [reflexivity | exact IH].
Qed.

Lemma dict_get_set_other (d : list (string * pyval)) (k k0 : string) (v : pyval) :
  k0 <> k -> dict_get (dict_set d k v) k0 = dict_get d k0.
Proof.
  intros Hne. induction d as [|[k' v'] d IH]; cbn.
  - destruct (String.eqb k k0) eqn:E; [|reflexivity].
    apply String.eqb_eq in E. congruence.
  - destruct (String.eqb k' k) eqn:E; cbn.
    + apply String.eqb_eq in E. subst k'.
      destruct (String.eqb k k0) eqn:E0; [|reflexivity].
      apply String.eqb_eq in E0. congruence.
    + destruct (String.eqb k' k0); [reflexivity | exact IH].
Qed.

Lemma format_updating (a b c : string) :
  format "updating {}, set property {} to value {} " [a; b; c] []
  = Ok ("updating " ++ a ++ ", set property " ++ b ++ " to value " ++ c ++ " ").
Proof. reflexivity. Qed.

Lemma update_property_run (cs : NifiComponent) (property : string) (value : pyval)
  (w : world server) :
  let w1 := after w (remote w)
              [LogInfo ("updating " ++ ("url: " ++ url cs) ++ ", set property "
                        ++ property ++ " to value " ++ str_of value ++ " ")] in
  update_property cs property value w =
    match serve (GET (url cs)) (remote w) with
    | (Some resp, s1) =>
        match rbind (match loads (text resp) with
                     | Some j => Ok j
                     | None => Raise ValueError
                     end) (fun j => set_property j property value) with
        | Ok doc' =>
            match serve (PUT (url cs) (dumps doc')) s1 with
            | (Some resp', s2) =>
                (Ok resp', after w1 s2 [Http (GET (url cs));
                                        Http (PUT (url cs) (dumps doc'))])
            | (None, s2) =>
                (Raise RequestException,
                 after w1 s2 [Http (GET (url cs)); Http (PUT (url cs) (dumps doc'))])
            end
        | Raise e => (Raise e, after w1 s1 [Http (GET (url cs))])
        end
    | (None, s1) => (Raise RequestException, after w1 s1 [Http (GET (url cs))])
    end.
Proof.
  intros w1. unfold update_property.
  unfold bind at 1. unfold lift at 1. rewrite NifiComponent_str_eq.
  unfold bind at 1. unfold lift at 1. rewrite format_updating.
  unfold bind at 1. unfold log_info, emit_event. fold w1.
  change {| remote := remote w; trace := trace w ++ _ |} with w1.
  unfold bind at 1. unfold _get, http.
  change (remote w1) with (remote w).
  destruct (serve (GET (url cs)) (remote w)) as [[resp|] s1]; [|reflexivity].
  unfold bind at 1. unfold json_of.
  destruct (loads (text resp)) as [j|]; [|reflexivity].
  unfold ret. cbn [rbind].
  unfold bind, lift. destruct (set_property j property value) as [doc'|e]; [|reflexivity].
  unfold _put, http. cbn [remote trace].
  destruct (serve (PUT (url cs) (dumps doc')) s1) as [[resp'|] s2];
    unfold after; cbn [remote trace]; rewrite <- app_assoc; reflexivity.
Qed.

(** [update_property] reads the document of the service and puts it back
    with the one property set: in the document sent, the property has the new
    value, every other property, every other field of the component and
    every other field of the document (the revision among them) is as it was
    read; the response of the server is returned as it is, whatever its
    status. *)
Theorem update_property_changes_one_property :
  forall (cs : NifiComponent) (property : string) (value : pyval) (w : world server)
         (doc c : pyval) (ps : list (string * pyval)) (s1 : server),
    answers (url cs) (remote w) doc s1 ->
    getitem doc "component" = Ok c ->
    getitem c "properties" = Ok (PyDict ps) ->
    exists doc' c' ps',
      set_property doc property value = Ok doc'
      /\ requests_of (trace (snd (update_property cs property value w))) =
           (requests_of (trace w)
            ++ [GET (url cs); PUT (url cs) (dumps doc')])%list
      /\ fst (update_property cs property value w) =
           match fst (serve (PUT (url cs) (dumps doc')) s1) with
           | Some resp' => Ok resp'
           | None => Raise RequestException
           end
      /\ getitem doc' "component" = Ok c'
      /\ getitem c' "properties" = Ok (PyDict ps')
      /\ dict_get ps' property = Some value
      /\ (forall k, k <> property -> dict_get ps' k = dict_get ps k)
      /\ (forall k, k <> "properties" -> getitem c' k = getitem c k)
      /\ (forall k, k <> "component" -> getitem doc' k = getitem doc k).
Proof.
  intros cs property value w doc c ps s1 (resp & Hs & Hl) Hc Hp.
  destruct doc as [| | | | | |d]; try discriminate Hc.
  destruct c as [| | | | | |dc]; try discriminate Hp.
  exists (PyDict (dict_set d "component"
                    (PyDict (dict_set dc "properties"
                               (PyDict (dict_set ps property value)))))),
         (PyDict (dict_set dc "properties" (PyDict (dict_set ps property value)))),
         (dict_set ps property value).
  assert (Hset : set_property (PyDict d) property value =
                 Ok (PyDict (dict_set d "component"
                               (PyDict (dict_set dc "properties"
                                          (PyDict (dict_set ps property value))))))).
  { unfold set_property. rewrite Hc. cbn [rbind]. rewrite Hp. reflexivity. }
  split; [exact Hset|].
  rewrite update_property_run. cbv zeta. rewrite Hs, Hl. cbn [rbind]. rewrite Hset.
  destruct (serve (PUT _ _) s1) as [[resp'|] s2] eqn:Hput; cbn [fst snd after trace];
    rewrite !requests_of_app; cbn [requests_of app]; rewrite app_nil_r;
    (split; [reflexivity|]); (split; [reflexivity|]);
    (split; [cbn; rewrite dict_get_set_same; reflexivity|]);
    (split; [cbn; rewrite dict_get_set_same; reflexivity|]);
    (split; [apply dict_get_set_same|]);
    (split; [intros k Hk; apply dict_get_set_other; exact Hk|]);
    (split; intros k Hk; cbn; rewrite dict_get_set_other by exact Hk; reflexivity).
Qed.

(** The assignment of [update_property] fails exactly when the component,
    or the properties under it, is missing or is not an object. *)
Lemma set_property_fails_iff :
  forall (doc : pyval) (property : string) (value : pyval),
    (exists e, set_property doc property value = Raise e)
    <-> ~ (exists c ps, getitem doc "component" = Ok c
                        /\ getitem c "properties" = Ok (PyDict ps)).
Proof.
  intros doc property value. split.
  - intros (e & He) (c & ps & Hc & Hp). unfold set_property in He.
    rewrite Hc in He. cbn [rbind] in He. rewrite Hp in He. cbn in He.
    destruct c; try discriminate Hp. destruct doc; try discriminate Hc.
    discriminate He.
  - intros Hno. unfold set_property.
    destruct (getitem doc "component") as [c|e] eqn:Hc; [|exists e; reflexivity].
    cbn [rbind].
    destruct (getitem c "properties") as [ps|e] eqn:Hp; [|exists e; reflexivity].
    cbn [rbind].
    destruct ps; try (exists TypeError; reflexivity).
    exfalso. apply Hno. exists c, d. split; [reflexivity | exact Hp].
Qed.

(** When the document of the service has no component, or no [properties]
    under it, or something there that is not an object, [update_property]
    ends with the exception of the assignment after the read: nothing is
    written to the server. *)
Theorem update_property_without_properties_writes_nothing :
  forall (cs : NifiComponent) (property : string) (value : pyval) (w : world server)
         (doc : pyval) (s1 : server),
    answers (url cs) (remote w) doc s1 ->
    ~ (exists c ps, getitem doc "component" = Ok c
                    /\ getitem c "properties" = Ok (PyDict ps)) ->
    let r := update_property cs property value w in
    (exists e, fst r = Raise e)
    /\ requests_of (trace (snd r)) = (requests_of (trace w) ++ [GET (url cs)])%list.
Proof.
  intros cs property value w doc s1 (resp & Hs & Hl) Hno. cbv zeta.
  destruct (proj2 (set_property_fails_iff doc property value) Hno) as (e & Hset).
  rewrite update_property_run. cbv zeta. rewrite Hs, Hl. cbn [rbind]. rewrite Hset.
  cbn [fst snd after trace]. rewrite !requests_of_app. cbn. rewrite app_nil_r.
  split; [exists e|]; reflexivity.
Qed.

(** ** A malformed reference *)

Lemma mapM_infos_bad good infos bad c rest (w : world server) :
  Forall2 reference_entry good infos ->
  getitem bad "component" = Ok c ->
  getitem c "id" = Raise (KeyError "id") ->
  mapM referencing_component_info (good ++ bad :: rest) w = (Raise (KeyError "id"), w).
Proof.
  intros Hf Hc Hi. induction Hf as [|item info good infos (c0 & Hc0 & Hi0 & Ht0) _ IH].
  - cbn [app mapM]. apply bind_raise. unfold referencing_component_info.
    unfold bind, lift. rewrite Hc, Hi. reflexivity.
  - cbn [app mapM]. unfold bind at 1. unfold referencing_component_info at 1.
    unfold bind, lift, ret. rewrite Hc0, Hi0, Ht0.
    unfold bind, lift, ret in IH. rewrite IH. reflexivity.
Qed.

(** ** Minimal information, and the state of a controller service *)

(** [get_min_info] issues one [GET] and succeeds exactly on a document that
    carries the id, the name and the revision version; it returns these three
    fields and nothing else, so a document without a state still has its
    minimal information. *)
Theorem get_min_info_succeeds_iff :
  forall (u : string) (w : world server) (j : pyval) (s' : server),
    answers u (remote w) j s' ->
    ((exists d, fst (get_min_info u w) = Ok d)
     <-> exists id name v, has_min_info j id name v)
    /\ (forall id name v, has_min_info j id name v ->
          get_min_info u w =
            (Ok (PyDict [ ("component", PyDict [("id", id); ("name", name)]);
                          ("revision", PyDict [("version", v)]) ]),
             after w s' [Http (GET u)])).
Proof.
  intros u w j s' Ha. split; [split|].
  - intros (d & Hd). revert Hd.
    unfold get_min_info. rewrite (bind_ok _ _ _ _ _ (get_info_run _ _ _ _ Ha)).
    unfold bind, lift, ret.
    destruct (getitem j "component") as [c|] eqn:Hc; [|discriminate].
    destruct (getitem c "id") as [id|] eqn:Hi; [|discriminate].
    destruct (getitem c "name") as [name|] eqn:Hn; [|discriminate].
    destruct (getitem j "revision") as [r|] eqn:Hr; [|discriminate].
    destruct (getitem r "version") as [v|] eqn:Hv; [|discriminate].
    intros _. exists id, name, v, c, r. repeat split; assumption.
  - intros (id & name & v & c & r & Hc & Hi & Hn & Hr & Hv). eexists.
    unfold get_min_info. rewrite (bind_ok _ _ _ _ _ (get_info_run _ _ _ _ Ha)).
    unfold bind, lift, ret. rewrite Hc, Hi, Hn, Hr, Hv. reflexivity.
  - intros id name v (c & r & Hc & Hi & Hn & Hr & Hv).
    unfold get_min_info. rewrite (bind_ok _ _ _ _ _ (get_info_run _ _ _ _ Ha)).
    unfold bind, lift, ret. rewrite Hc, Hi, Hn, Hr, Hv. reflexivity.
Qed.

(** [enable] and [disable] of a controller service have no forbidden state:
    whatever state the read reports, the one already asked for included, the
    new state is written under the version read. *)
Theorem controller_service_state_is_always_written :
  forall (cs : NifiComponent) (w : world server) (j : pyval) (s1 : server)
         (id st v : pyval),
    answers (url cs) (remote w) j s1 ->
    has_state j id st v ->
    writes_of (trace (snd (ControllerService_enable cs w))) =
      (writes_of (trace w)
       ++ [POST (url cs) (dumps (state_payload id "ENABLED" v))])%list
    /\ writes_of (trace (snd (ControllerService_disable cs w))) =
      (writes_of (trace w)
       ++ [POST (url cs) (dumps (state_payload id "DISABLED" v))])%list.
Proof.
  intros cs w j s1 id st v Ha Hs.
  assert (H : forall lit state,
            brace_free lit = true ->
            writes_of (trace (snd ((msg <- describe (lit ++ "{}") cs ;; log_info msg ;;
                                    change_state (url cs) state None) w))) =
            (writes_of (trace w)
             ++ [POST (url cs) (dumps (state_payload id state v))])%list).
  { intros lit state Hl.
    rewrite (bind_ok _ _ _ _ _ (describe_run lit cs w Hl)).
    change ((log_info (lit ++ "url: " ++ url cs);; change_state (url cs) state None) w)
      with (change_state (url cs) state None
              (after w (remote w) [LogInfo (lit ++ "url: " ++ url cs)])).
    rewrite (change_state_writes (url cs) state None
               (after w (remote w) [LogInfo (lit ++ "url: " ++ url cs)])
               j s1 id st v Ha Hs eq_refl).
    cbv zeta.
    destruct (serve (POST (url cs) (dumps (state_payload id state v))) s1)
      as [[resp|] s2]; cbn [snd after trace]; unfold write_events;
      rewrite !writes_of_app; [destruct (status_code resp =? 200)|];
      cbn; rewrite ?app_nil_r; reflexivity. }
  split; [exact (H "enabling " "ENABLED" eq_refl) | exact (H "disabling " "DISABLED" eq_refl)].
Qed.

(** ** The restart of a controller service, write by write *)

Lemma runs_change_state_written (u state f : string) :
  always_state_not u f -> posts_answered ->
  runs (change_state u state (Some f)) tt [Write u state].
Proof.
  intros Hs Hp w.
  destruct (Hs (remote w)) as (j & s1 & id & st & v & Ha & Hst & Hne).
  assert (Hm : forbidden_matches st (Some f) = false).
  { unfold forbidden_matches. rewrite Hne. apply andb_false_r. }
  pose proof (change_state_writes u state (Some f) w j s1 id st v Ha Hst Hm) as Hw.
  cbv zeta in Hw. specialize (Hp u (dumps (state_payload id state v)) s1).
  destruct (serve (POST u (dumps (state_payload id state v))) s1) as [[resp|] s2];
    [|contradiction Hp; reflexivity].
  exists s2, (write_events u (dumps (state_payload id state v)) resp).
  split; [exact Hw|].
  unfold write_events. cbn. apply accounts_write.
  destruct (status_code resp =? 200); repeat constructor.
Qed.

Lemma runs_stop_written (p : NifiComponent) :
  always_state_not (url p) "DISABLED" -> posts_answered ->
  runs (Processor_stop p) tt [Write (url p) "STOPPED"].
Proof.
  intros Hs Hp. apply (runs_logged "stopping " p); [reflexivity|].
  apply runs_change_state_written; assumption.
Qed.

Lemma runs_start_written (p : NifiComponent) :
  always_state_not (url p) "DISABLED" -> posts_answered ->
  runs (Processor_start p) tt [Write (url p) "RUNNING"].
Proof.
  intros Hs Hp. apply (runs_logged "starting " p); [reflexivity|].
  apply runs_change_state_written; assumption.
Qed.

Lemma runs_all_written conn (u state : string) (f : NifiComponent -> M unit)
  (ids : list pyval) :
  always_referenced_by u ids ->
  (forall id, In id ids -> runs (f (processor_handle conn id)) tt
                             [Write (url (processor_handle conn id)) state]) ->
  runs (components <- get_referencing_components conn u ;; mapM f components)
       (map (fun _ => tt) ids)
       (Read u :: map (fun id => Write (url (processor_handle conn id)) state) ids).
Proof.
  intros Hr Hf.
  apply (runs_bind _ _ (map (processor_handle conn) ids) _ [Read u]).
  - apply runs_referencing. exact Hr.
  - rewrite <- (map_map (processor_handle conn) (fun _ => tt)).
    rewrite <- (map_map (processor_handle conn) (fun p => Write (url p) state)).
    rewrite <- (flat_map_singleton (fun p => Write (url p) state)).
    apply (runs_mapM _ tt (fun p => [Write (url p) state])).
    intros p Hin. apply in_map_iff in Hin as (id & <- & Hid). apply Hf. exact Hid.
Qed.

(** The steps of a restart when every stop and start is written. *)
Lemma runs_restart_written (cs : NifiComponent) (ids : list pyval) :
  always_referenced_by (url cs) ids ->
  always_state (url cs) ->
  (forall id, In id ids ->
     always_state_not (url (processor_handle (nifi_connection cs) id)) "DISABLED") ->
  posts_answered ->
  runs (ControllerService_restart cs) tt
       ((Read (url cs)
         :: map (fun id => Write (url (processor_handle (nifi_connection cs) id)) "STOPPED")
              ids)
        ++ [ Pause 5; Write (url cs) "DISABLED";
             Pause 5; Write (url cs) "ENABLED";
             Pause 5 ]
        ++ (Read (url cs)
            :: map (fun id => Write (url (processor_handle (nifi_connection cs) id)) "RUNNING")
                 ids))%list.
Proof.
  intros Hr Hcs Hs Hp.
  change (runs (ControllerService_restart cs) tt
            ((Read (url cs)
              :: map (fun id =>
                        Write (url (processor_handle (nifi_connection cs) id)) "STOPPED")
                   ids)
             ++ [Pause 5] ++ [Write (url cs) "DISABLED"] ++ [Pause 5]
             ++ [Write (url cs) "ENABLED"] ++ [Pause 5]
             ++ (Read (url cs)
                 :: map (fun id =>
                           Write (url (processor_handle (nifi_connection cs) id)) "RUNNING")
                      ids))%list).
  unfold ControllerService_restart.
  apply (runs_logged "restarting controller service " cs); [reflexivity|].
  apply (runs_bind _ _ (map (fun _ => tt) ids)).
  { apply (runs_all_written (nifi_connection cs) (url cs) "STOPPED" Processor_stop ids Hr).
    intros id Hid. apply runs_stop_written; [apply Hs; exact Hid | exact Hp]. }
  apply (runs_bind _ _ tt); [apply runs_sleep|].
  apply (runs_bind _ _ tt).
  { apply (runs_logged "disabling " cs); [reflexivity|].
    apply runs_change_state_write; assumption. }
  apply (runs_bind _ _ tt); [apply runs_sleep|].
  apply (runs_bind _ _ tt).
  { apply (runs_logged "enabling " cs); [reflexivity|].
    apply runs_change_state_write; assumption. }
  apply (runs_bind _ _ tt); [apply runs_sleep|].
  rewrite <- (app_nil_r (Read (url cs) :: _)).
  apply (runs_bind _ _ (map (fun _ => tt) ids)).
  { apply (runs_all_written (nifi_connection cs) (url cs) "RUNNING" Processor_start ids Hr).
    intros id Hid. apply runs_start_written; [apply Hs; exact Hid | exact Hp]. }
  apply runs_concluded.
Qed.

(** When no step is a mere attempt, the writes of the events are the state
    changes of the steps, one for one and in order. *)
Lemma accounts_writes (evs : list event) (steps : list step) :
  accounts evs steps -> attempt_free steps = true ->
  Forall2 sets_state (writes_of evs) (written steps).
Proof.
  induction 1 as [| msg evs steps _ IH | out evs steps _ IH | u evs steps _ IH
                  | u id state v evs steps _ IH | u id state v evs steps _ IH
                  | u f state evs steps _ IH | n evs steps _ IH]; intros Hf;
    cbn in Hf |- *; try discriminate Hf; try (apply IH; exact Hf).
  - constructor.
  - constructor; [|apply IH; exact Hf]. exists id, v. reflexivity.
Qed.

Lemma written_app (a b : list step) : written (a ++ b) = (written a ++ written b)%list.
Proof.
  induction a as [|x a IH]; [reflexivity|]. destruct x; cbn; rewrite IH; reflexivity.
Qed.

Lemma attempt_free_app (a b : list step) :
  attempt_free (a ++ b) = attempt_free a && attempt_free b.
Proof.
  induction a as [|x a IH]; [reflexivity|]. destruct x; cbn; try exact IH. reflexivity.
Qed.

Lemma written_writes (f : pyval -> string) (state : string) (ids : list pyval) :
  written (map (fun id => Write (f id) state) ids) = map (fun id => (f id, state)) ids
  /\ attempt_free (map (fun id => Write (f id) state) ids) = true.
Proof.
  induction ids as [|id ids [IH1 IH2]]; [split; reflexivity|].
  cbn. rewrite IH1. split; [reflexivity | exact IH2].
Qed.

(** [restart] of a controller service with any number of referencing
    processors, none of which reports DISABLED: the references are read,
    the state STOPPED is written to every processor in list order, DISABLED
    and then ENABLED are written to the service, the references are read
    again and RUNNING is written to every processor in list order, with a
    sleep of five seconds after each of the first three phases and none after
    the last; these are all the writes of the run. *)
Theorem restart_with_any_number_of_processors :
  forall (cs : NifiComponent) (ids : list pyval) (w : world server),
    always_referenced_by (url cs) ids ->
    always_state (url cs) ->
    (forall id, In id ids ->
       always_state_not (url (processor_handle (nifi_connection cs) id)) "DISABLED") ->
    posts_answered ->
    exists s' evs,
      ControllerService_restart cs w = (Ok tt, after w s' evs)
      /\ accounts evs
           ((Read (url cs)
             :: map (fun id =>
                       Write (url (processor_handle (nifi_connection cs) id)) "STOPPED")
                  ids)
            ++ [ Pause 5; Write (url cs) "DISABLED";
                 Pause 5; Write (url cs) "ENABLED";
                 Pause 5 ]
            ++ (Read (url cs)
                :: map (fun id =>
                          Write (url (processor_handle (nifi_connection cs) id)) "RUNNING")
                     ids))%list
      /\ Forall2 sets_state (writes_of evs)
           (map (fun id => (url (processor_handle (nifi_connection cs) id), "STOPPED")) ids
            ++ [ (url cs, "DISABLED"); (url cs, "ENABLED") ]
            ++ map (fun id => (url (processor_handle (nifi_connection cs) id), "RUNNING")) ids)%list.
Proof.
  intros cs ids w Hr Hcs Hs Hp.
  destruct (runs_restart_written cs ids Hr Hcs Hs Hp w) as (s' & evs & Hrun & Hacc).
  exists s', evs. split; [exact Hrun|]. split; [exact Hacc|].
  pose proof (written_writes
                (fun id => url (processor_handle (nifi_connection cs) id)) "STOPPED" ids)
    as [Hw1 Hf1].
  pose proof (written_writes
                (fun id => url (processor_handle (nifi_connection cs) id)) "RUNNING" ids)
    as [Hw2 Hf2].
  apply accounts_writes in Hacc.
  - rewrite written_app in Hacc. cbn [written] in Hacc.
    rewrite written_app in Hacc. cbn [written] in Hacc.
    rewrite Hw1, Hw2 in Hacc. exact Hacc.
  - rewrite attempt_free_app. cbn [attempt_free]. rewrite Hf1.
    rewrite attempt_free_app. cbn [attempt_free]. rewrite Hf2. reflexivity.
Qed.

(** C4, as amended.  For a controller service that two processors
    reference, neither of which reports the state DISABLED, [restart] does,
    in this order and with nothing else reaching the server in between: the
    read of the referencing components; the write of STOPPED to the first
    processor, then to the second; after a pause, the write of DISABLED to
    the service; after a pause, the write of ENABLED to the service; after a
    pause, the read of the referencing components again, the write of RUNNING
    to the first processor, then to the second.  These six are all the
    writes of the run, each under the id and the version read just before
    it. *)
Theorem restart_writes_state_changes_in_order :
  forall (cs : NifiComponent) (id1 id2 : pyval) (w : world server),
    let p1 := processor_handle (nifi_connection cs) id1 in
    let p2 := processor_handle (nifi_connection cs) id2 in
    always_referenced_by (url cs) [id1; id2] ->
    always_state (url cs) ->
    always_state_not (url p1) "DISABLED" ->
    always_state_not (url p2) "DISABLED" ->
    posts_answered ->
    exists s' evs,
      ControllerService_restart cs w = (Ok tt, after w s' evs)
      /\ accounts evs
           [ Read (url cs);
             Write (url p1) "STOPPED"; Write (url p2) "STOPPED";
             Pause 5;
             Write (url cs) "DISABLED";
             Pause 5;
             Write (url cs) "ENABLED";
             Pause 5;
             Read (url cs);
             Write (url p1) "RUNNING"; Write (url p2) "RUNNING" ]
      /\ Forall2 sets_state (writes_of evs)
           [ (url p1, "STOPPED"); (url p2, "STOPPED");
             (url cs, "DISABLED"); (url cs, "ENABLED");
             (url p1, "RUNNING"); (url p2, "RUNNING") ].
Proof.
  intros cs id1 id2 w p1 p2 Hr Hcs Hp1 Hp2 Hp.
  assert (Hs : forall id, In id [id1; id2] ->
            always_state_not (url (processor_handle (nifi_connection cs) id)) "DISABLED").
  { intros id [<- | [<- | []]]; assumption. }
  destruct (runs_restart_written cs [id1; id2] Hr Hcs Hs Hp w) as (s' & evs & Hrun & Hacc).
  exists s', evs. split; [exact Hrun|]. split; [exact Hacc|].
  apply accounts_writes in Hacc; [exact Hacc | reflexivity].
Qed.

(** ** A malformed entry, wherever it stands *)

Lemma mapM_ids_fails before bad c rest (w : world server) :
  getitem bad "component" = Ok c ->
  getitem c "id" = Raise (KeyError "id") ->
  exists e, mapM controller_service_id (before ++ bad :: rest) w = (Raise e, w).
Proof.
  intros Hc Hi. induction before as [|a before (e & IH)].
  - exists (KeyError "id"). cbn [app mapM]. apply bind_raise.
    unfold controller_service_id, bind, lift. rewrite Hc, Hi. reflexivity.
  - cbn [app mapM]. unfold bind at 1. unfold controller_service_id at 1.
    unfold bind at 1, lift at 1.
    destruct (getitem a "component") as [ca|ea]; [|exists ea; reflexivity].
    unfold lift at 1.
    destruct (getitem ca "id") as [ia|ea]; [|exists ea; reflexivity].
    exists e. apply bind_raise. exact IH.
Qed.

(** A [controllerServices] entry whose component has no id makes
    [NifiConnection.get_controller_services] end with an exception after its
    one [GET], wherever the entry stands and whatever the other entries hold:
    no partial list is returned.  When every entry before it is well formed,
    the exception is the [KeyError] of the missing id. *)
Theorem listing_with_a_malformed_entry_fails :
  forall (conn : NifiConnection) (process_group : string) (w : world server)
         (j : pyval) (s1 : server) (before rest : list pyval) (bad c : pyval),
    let u := url_base conn ++ "/nifi-api/flow/process-groups/" ++ process_group
             ++ "/controller-services" in
    answers u (remote w) j s1 ->
    getitem j "controllerServices" = Ok (PyList (before ++ bad :: rest)) ->
    getitem bad "component" = Ok c ->
    getitem c "id" = Raise (KeyError "id") ->
    exists e,
      get_controller_services conn process_group w =
        (Raise e, after w s1 [Http (GET u)])
      /\ (forall ids, Forall2 listing_entry before ids -> e = KeyError "id").
Proof.
  intros conn pg w j s1 before rest bad c u (resp & Hs & Hl) Hj Hc Hi.
  destruct (mapM_ids_fails before bad c rest (after w s1 [Http (GET u)]) Hc Hi)
    as (e & He).
  exists e. split.
  - unfold get_controller_services.
    pose proof (listing_url (url_base conn) pg) as Hu. fold u in Hu.
    unfold rbind in Hu. unfold bind at 1. unfold lift at 1.
    destruct (template_of CONTROLLER_SERVICES) as [t|]; [|discriminate].
    unfold bind at 1. unfold lift at 1. rewrite Hu.
    unfold bind at 1. unfold _get, http. rewrite Hs.
    unfold bind at 1. unfold json_of. rewrite Hl. unfold ret.
    unfold controller_services_of.
    unfold bind at 1. unfold lift at 1. rewrite Hj.
    unfold bind at 1. unfold lift at 1. cbn [py_iter].
    apply bind_raise. exact He.
  - intros ids Hf.
    rewrite (mapM_ids_bad before ids bad c rest _ Hf Hc Hi) in He.
    injection He as <-. reflexivity.
Qed.

Lemma mapM_infos_fails before bad c rest (w : world server) :
  getitem bad "component" = Ok c ->
  getitem c "id" = Raise (KeyError "id") ->
  exists e, mapM referencing_component_info (before ++ bad :: rest) w = (Raise e, w).
Proof.
  intros Hc Hi. induction before as [|a before (e & IH)].
  - exists (KeyError "id"). cbn [app mapM]. apply bind_raise.
    unfold referencing_component_info, bind, lift. rewrite Hc, Hi. reflexivity.
  - cbn [app mapM]. unfold bind at 1. unfold referencing_component_info at 1.
    unfold bind, lift, ret.
    destruct (getitem a "component") as [ca|ea]; [|exists ea; reflexivity].
    destruct (getitem ca "id") as [ia|ea]; [|exists ea; reflexivity].
    destruct (getitem ca "referenceType") as [ta|ea]; [|exists ea; reflexivity].
    exists e. unfold bind, ret in IH. rewrite IH. reflexivity.
Qed.

(** One reference whose component has no id makes
    [get_referencing_components] end with an exception after its one [GET],
    wherever the reference stands, whatever its type and whatever the other
    references hold: the reference is not skipped and no handle is returned.
    When every reference before it is well formed, the exception is the
    [KeyError] of the missing id. *)
Theorem get_referencing_components_malformed_reference :
  forall (conn : NifiConnection) (u : string) (w : world server) (j c : pyval)
         (s' : server) (before rest : list pyval) (bad cb : pyval),
    answers u (remote w) j s' ->
    getitem j "component" = Ok c ->
    getitem c "referencingComponents" = Ok (PyList (before ++ bad :: rest)) ->
    getitem bad "component" = Ok cb ->
    getitem cb "id" = Raise (KeyError "id") ->
    exists e,
      get_referencing_components conn u w = (Raise e, after w s' [Http (GET u)])
      /\ (forall infos, Forall2 reference_entry before infos -> e = KeyError "id").
Proof.
  intros conn u w j c s' before rest bad cb Ha Hc Hr Hb Hi.
  destruct (mapM_infos_fails before bad cb rest (after w s' [Http (GET u)]) Hb Hi)
    as (e & He).
  exists e. split.
  - unfold get_referencing_components.
    rewrite (bind_ok _ _ _ _ _ (get_info_run _ _ _ _ Ha)).
    unfold bind at 1. unfold lift at 1. rewrite Hc.
    unfold bind at 1. unfold lift at 1. rewrite Hr.
    unfold bind at 1. unfold lift at 1. cbn [py_iter].
    apply bind_raise. exact He.
  - intros infos Hf.
    rewrite (mapM_infos_bad before infos bad cb rest _ Hf Hb Hi) in He.
    injection He as <-. reflexivity.
Qed.

(** ** The file name of an upload *)

Lemma no_slash_cons (c : ascii) (s : string) :
  no_slash (String c s) = negb (Ascii.eqb "/" c) && no_slash s.
Proof. unfold no_slash. cbn. apply negb_orb. Qed.

(** Every path splits into a directory part and the slash-free name that
    [basename] returns. *)
Lemma basename_splits (path : string) :
  no_slash (basename path) = true
  /\ exists dir, path = dir ++ basename path /\ directory_part dir.
Proof.
  induction path as [|c rest (Hn & dir & He & Hd)].
  - split; [reflexivity|]. exists EmptyString. split; [reflexivity | left; reflexivity].
  - cbn [basename].
    destruct (Ascii.eqb c "/") eqn:Hc.
    + apply Ascii.eqb_eq in Hc. subst c. split; [exact Hn|].
      exists (String "/" dir). split; [cbn; rewrite <- He; reflexivity|].
      right. destruct Hd as [-> | (d & ->)].
      * exists EmptyString. reflexivity.
      * exists (String "/" d). reflexivity.
    + destruct (existsb (Ascii.eqb "/"%char) (list_ascii_of_string rest)) eqn:Hs.
      * split; [exact Hn|].
        exists (String c dir). split; [cbn; rewrite <- He; reflexivity|].
        right. destruct Hd as [-> | (d & ->)].
        -- exfalso. cbn in He. rewrite <- He in Hn. unfold no_slash in Hn.
           rewrite Hs in Hn. discriminate Hn.
        -- exists (String c d). reflexivity.
      * split.
        -- rewrite no_slash_cons. rewrite Ascii.eqb_sym, Hc. unfold no_slash.
           rewrite Hs. reflexivity.
        -- exists EmptyString. split; [reflexivity | left; reflexivity].
Qed.

Lemma basename_of_split (dir name : string) :
  directory_part dir -> no_slash name = true -> basename (dir ++ name) = name.
Proof.
  intros [-> | (d & ->)] Hn.
  - apply basename_no_slash. exact Hn.
  - rewrite str_app_assoc. apply (basename_app d name Hn).
Qed.

(** [upload_template] issues exactly one request, whatever the server
    answers and whether or not an id can be taken from the answer: the
    multipart upload, on the [templates/upload] endpoint of the group, of the
    file's content under the last component of its path.  Every path has
    that component: it splits, in one way only, into a directory part (empty,
    or ending in a slash) and a name without a slash. *)
Theorem upload_template_sends_the_file_under_its_name :
  forall (conn : NifiConnection) (gid : pyval) (g : NifiComponent)
         (path content : string) (w : world server),
    ProcessGroup conn gid = Ok g ->
    read_file path = Some content ->
    exists dir name,
      path = dir ++ name /\ directory_part dir /\ no_slash name = true
      /\ (forall dir' name',
            path = dir' ++ name' -> directory_part dir' -> no_slash name' = true ->
            name' = name)
      /\ requests_of (trace (snd (upload_template g path w))) =
           (requests_of (trace w)
            ++ [UPLOAD (url_base conn ++ "/nifi-api/process-groups/" ++ str_of gid
                        ++ "/templates/upload")
                       "template" name content "text/xml"])%list.
Proof.
  intros conn gid g path content w Hg Hf.
  destruct (basename_splits path) as (Hn & dir & He & Hd).
  exists dir, (basename path).
  split; [exact He|]. split; [exact Hd|]. split; [exact Hn|]. split.
  { intros dir' name' He' Hd' Hn'. rewrite He' at 1.
    symmetry. apply basename_of_split; assumption. }
  rewrite ProcessGroup_ok in Hg. injection Hg as <-.
  unfold upload_template, endpoint.
  change (kw_get (endpoints (process_group_handle conn gid)) "upload_template")
    with (Some "templates/upload").
  assert (Hurl : url (process_group_handle conn gid) ++ "templates/upload"
                 = url_base conn ++ "/nifi-api/process-groups/" ++ str_of gid
                   ++ "/templates/upload").
  { cbn [url process_group_handle]. rewrite !str_app_assoc. reflexivity. }
  unfold open_rb. rewrite Hf.
  unfold bind, lift, emit_event, ret, http. cbv beta iota.
  cbn [remote trace]. rewrite Hurl.
  destruct (serve _ (remote w)) as [[resp|] s1]; cbn [snd trace].
  - destruct (first (findall_id (text resp))) as [x|e]; cbn [snd trace];
      rewrite !requests_of_app; cbn; rewrite app_nil_r; reflexivity.
  - rewrite !requests_of_app. cbn. rewrite app_nil_r. reflexivity.
Qed.

End Client.

(** ** The claims on the mock plant *)

Ltac discharge :=
  repeat first
    [ reflexivity
    | apply Forall2_nil | apply Forall2_cons
    | apply Forall_nil | apply Forall_cons
    | split | eexists ].

Lemma change_state_reads_then_writes_witness :
  let u := Mock.processors "p1" in
  let w' := snd (change_state Mock.plant_serve Mock.plant_loads Mock.dumps
                   u "STOPPED" (Some "DISABLED") Mock.w0) in
  let body := Mock.dumps (state_payload (PyStr "p1") "STOPPED" (PyInt 3)) in
  requests_of (trace w') = (requests_of (trace Mock.w0) ++ [GET u; POST u body])%list
  /\ reads_of (trace w') = (reads_of (trace Mock.w0) ++ [GET u])%list
  /\ writes_of (trace w') = (writes_of (trace Mock.w0) ++ [POST u body])%list.
Proof.
  apply (change_state_reads_then_writes Mock.plant_serve Mock.plant_loads Mock.dumps
           (Mock.processors "p1") "STOPPED" (Some "DISABLED") Mock.w0
           (Mock.entity "p1" "RUNNING" "GetFile" 3 []) tt
           (PyStr "p1") (PyStr "RUNNING") (PyInt 3)).
  - discharge.
  - discharge.
  - right. discharge.
Defined.

(** C2, as stated, fails: an empty forbidden initial state is falsy, so the
    guard is not consulted; the state read is the empty string, equal to the
    forbidden one, and the write is issued all the same. *)
Lemma change_state_empty_forbidden_state_writes :
  let u := Mock.processors "p4" in
  let doc := Mock.entity "p4" EmptyString "Funnel" 0 [] in
  let r := change_state Mock.plant_serve Mock.plant_loads Mock.dumps
             u "RUNNING" (Some EmptyString) Mock.w0 in
  answers Mock.plant_serve Mock.plant_loads u (remote Mock.w0) doc tt
  /\ has_state doc (PyStr "p4") (PyStr EmptyString) (PyInt 0)
  /\ py_eq_str (PyStr EmptyString) EmptyString = true
  /\ fst r = Ok tt
  /\ writes_of (trace (snd r)) =
       [POST u (Mock.dumps (state_payload (PyStr "p4") "RUNNING" (PyInt 0)))].
Proof. cbv zeta. discharge. Qed.

Lemma change_state_forbidden_skips_write_witness :
  let u := Mock.processors "p3" in
  let r := change_state Mock.plant_serve Mock.plant_loads Mock.dumps
             u "RUNNING" (Some "DISABLED") Mock.w0 in
  fst r = Ok tt
  /\ writes_of (trace (snd r)) = writes_of (trace Mock.w0)
  /\ requests_of (trace (snd r)) = (requests_of (trace Mock.w0) ++ [GET u])%list
  /\ exists msg, trace (snd r) = (trace Mock.w0 ++ [Http (GET u); LogInfo msg])%list.
Proof.
  apply (change_state_forbidden_skips_write Mock.plant_serve Mock.plant_loads Mock.dumps
           (Mock.processors "p3") "RUNNING" "DISABLED" Mock.w0
           (Mock.entity "p3" "DISABLED" "LogAttribute" 1 []) tt
           (PyStr "p3") (PyStr "DISABLED") (PyInt 1)).
  - discharge.
  - discharge.
  - discriminate.
  - reflexivity.
Defined.

Lemma change_state_swallows_failed_write_witness :
  let u := Mock.processors "p1" in
  let body := Mock.dumps (state_payload (PyStr "p1") "STOPPED" (PyInt 3)) in
  change_state Mock.refusing_serve Mock.refusing_loads Mock.dumps
    u "STOPPED" (Some "DISABLED") Mock.w0 =
  (Ok tt,
   after Mock.w0 tt
     [ Http (GET u); Http (POST u body);
       LogInfo (str_of_Z (status_code {| status_code := 409; text := "revision conflict" |}));
       Print (text {| status_code := 409; text := "revision conflict" |}) ]).
Proof.
  apply (change_state_swallows_failed_write Mock.refusing_serve Mock.refusing_loads
           Mock.dumps (Mock.processors "p1") "STOPPED" (Some "DISABLED") Mock.w0
           (Mock.entity "p1" "RUNNING" "GetFile" 3 []) tt tt
           (PyStr "p1") (PyStr "RUNNING") (PyInt 3)
           {| status_code := 409; text := "revision conflict" |}).
  - discharge.
  - discharge.
  - reflexivity.
  - reflexivity.
  - discriminate.
Defined.

Lemma get_referencing_components_keeps_processors_witness :
  get_referencing_components Mock.plant_serve Mock.plant_loads Mock.py_str
    Mock.conn (Mock.services "cs1") Mock.w0 =
  (Ok (map (processor_handle Mock.py_str Mock.conn)
         (map fst (filter is_processor_reference
                     [ (PyStr "p1", PyStr "Processor");
                       (PyStr "rt", PyStr "ReportingTask");
                       (PyStr "p2", PyStr "Processor") ]))),
   after Mock.w0 tt [Http (GET (Mock.services "cs1"))]).
Proof.
  apply (get_referencing_components_keeps_processors
           Mock.plant_serve Mock.plant_loads Mock.py_str
           Mock.conn (Mock.services "cs1") Mock.w0
           (Mock.entity "cs1" "ENABLED" "pool" 4
              [("p1", "Processor"); ("rt", "ReportingTask"); ("p2", "Processor")])
           (PyDict [ ("id", PyStr "cs1"); ("name", PyStr "pool"); ("state", PyStr "ENABLED");
                     ("referencingComponents",
                       PyList (map (fun r =>
                                 PyDict [ ("component",
                                           PyDict [ ("id", PyStr (fst r));
                                                    ("referenceType", PyStr (snd r)) ]) ])
                                 [("p1", "Processor"); ("rt", "ReportingTask");
                                  ("p2", "Processor")])) ])
           tt
           (map (fun r =>
                   PyDict [ ("component",
                             PyDict [ ("id", PyStr (fst r));
                                      ("referenceType", PyStr (snd r)) ]) ])
                [("p1", "Processor"); ("rt", "ReportingTask"); ("p2", "Processor")])
           [ (PyStr "p1", PyStr "Processor");
             (PyStr "rt", PyStr "ReportingTask");
             (PyStr "p2", PyStr "Processor") ]).
  - discharge.
  - reflexivity.
  - reflexivity.
  - cbn [map fst snd]. discharge.
Defined.

Lemma flow_process_group_start_writes_directly_witness :
  let g := {| component_type := FLOW;
              component_id := PyStr "root";
              nifi_connection := Mock.conn;
              template := "{url_base}/nifi-api/flow/process-groups/{component_id}/";
              url := Mock.base ++ "/nifi-api/flow/process-groups/root/";
              endpoints := [("controller-services", "controller-services")] |} in
  let w' := snd (FlowProcessGroup_start Mock.plant_serve g Mock.w0) in
  requests_of (trace w') =
    (requests_of (trace Mock.w0) ++ [PUT (url g) (flow_start_body "root")])%list
  /\ reads_of (trace w') = reads_of (trace Mock.w0)
  /\ trace w' =
       (trace Mock.w0 ++ [ LogInfo ("starting url: " ++ url g);
                           Http (PUT (url g) (flow_start_body "root")) ])%list.
Proof.
  cbv zeta.
  apply (flow_process_group_start_writes_directly Mock.plant_serve
           {| component_type := FLOW;
              component_id := PyStr "root";
              nifi_connection := Mock.conn;
              template := "{url_base}/nifi-api/flow/process-groups/{component_id}/";
              url := Mock.base ++ "/nifi-api/flow/process-groups/root/";
              endpoints := [("controller-services", "controller-services")] |}
           "root" Mock.w0).
  reflexivity.
Defined.

Lemma get_controller_service_by_name_last_match_witness :
  let g := {| component_type := FLOW;
              component_id := PyStr "root";
              nifi_connection := Mock.conn;
              template := "{url_base}/nifi-api/flow/process-groups/{component_id}/";
              url := Mock.base ++ "/nifi-api/flow/process-groups/root/";
              endpoints := [("controller-services", "controller-services")] |} in
  let r := get_controller_service_by_name Mock.plant_serve Mock.plant_loads Mock.py_str
             g "pool" Mock.w0 in
  fst r = Ok (Some (service_handle Mock.py_str Mock.conn (PyStr "cs3")))
  /\ requests_of (trace (snd r)) =
       (requests_of (trace Mock.w0)
        ++ GET (url g ++ "controller-services")
           :: map (fun id => GET (url (service_handle Mock.py_str Mock.conn id)))
                ([PyStr "cs1"; PyStr "cs2"] ++ PyStr "cs3" :: []))%list.
Proof.
  cbv zeta.
  apply (get_controller_service_by_name_last_match
           Mock.plant_serve Mock.plant_loads Mock.py_str Mock.conn (PyStr "root")
           _ "pool" Mock.w0
           (PyDict [ ("controllerServices",
                       PyList [ PyDict [("component", PyDict [("id", PyStr "cs1")])];
                                PyDict [("component", PyDict [("id", PyStr "cs2")])];
                                PyDict [("component", PyDict [("id", PyStr "cs3")])] ]) ])
           tt
           [ PyDict [("component", PyDict [("id", PyStr "cs1")])];
             PyDict [("component", PyDict [("id", PyStr "cs2")])];
             PyDict [("component", PyDict [("id", PyStr "cs3")])] ]
           [PyStr "cs1"; PyStr "cs2"] [] (PyStr "cs3")
           (fun id => if py_eq_str id "cs2" then PyStr "cache" else PyStr "pool")).
  - reflexivity.
  - discharge.
  - reflexivity.
  - discharge.
  - intros id [<- | [<- | [<- | []]]] []; discharge.
  - reflexivity.
  - constructor.
Defined.

Lemma upload_template_extracts_first_id_witness :
  let g := {| component_type := PROCESS_GROUP;
              component_id := PyStr "root";
              nifi_connection := Mock.conn;
              template := "{url_base}/nifi-api/process-groups/{component_id}/";
              url := Mock.base ++ "/nifi-api/process-groups/root/";
              endpoints := [ ("upload_template", "templates/upload");
                             ("initialize_template", "template-instance");
                             ("controller-services", "controller-services") ] |} in
  let body := "<templateEntity><template><id>abc-123</id></template></templateEntity>" in
  let r := fst (upload_template Mock.plant_serve Mock.py_str Mock.read_file
                  g "/tmp/flow.xml" Mock.w0) in
  (forall pre x, first_occurrence body pre x ->
                 r = Ok (template_handle Mock.py_str Mock.conn (PyStr x)))
  /\ ((forall pre x, ~ occurs_at body pre x) -> r = Raise IndexError)
  /\ r = match findall_id body with
         | x :: _ => Ok (template_handle Mock.py_str Mock.conn (PyStr x))
         | [] => Raise IndexError
         end.
Proof.
  cbv zeta.
  apply (upload_template_extracts_first_id Mock.plant_serve Mock.py_str Mock.read_file
           Mock.conn (PyStr "root") _ "/tmp/flow.xml" "<template></template>" Mock.w0
           {| status_code := 201;
              text := "<templateEntity><template><id>abc-123</id></template></templateEntity>" |}
           tt).
  - reflexivity.
  - reflexivity.
  - reflexivity.
Defined.

(** ** Runs on the mock plant *)

(** Starting a DISABLED processor reads its state and writes nothing. *)
Example start_of_disabled_processor_is_refused :
  writes_of (trace (snd (Processor_start Mock.plant_serve Mock.plant_loads Mock.dumps
                           (processor_handle Mock.py_str Mock.conn (PyStr "p3"))
                           Mock.w0))) = [].
Proof. vm_compute. reflexivity. Qed.

(** Enabling it targets STOPPED under the version just read. *)
Example enable_of_disabled_processor_writes_stopped :
  writes_of (trace (snd (Processor_enable Mock.plant_serve Mock.plant_loads Mock.dumps
                           (processor_handle Mock.py_str Mock.conn (PyStr "p3"))
                           Mock.w0))) =
  [POST (Mock.processors "p3")
        (Mock.dumps (state_payload (PyStr "p3") "STOPPED" (PyInt 1)))].
Proof. vm_compute. reflexivity. Qed.

(** The six writes of a restart of the service [cs1] of the plant. *)
Example restart_writes_on_plant :
  writes_of (trace (snd (ControllerService_restart
                           Mock.plant_serve Mock.plant_loads Mock.dumps Mock.py_str
                           (service_handle Mock.py_str Mock.conn (PyStr "cs1"))
                           Mock.w0))) =
  [ POST (Mock.processors "p1") (Mock.dumps (state_payload (PyStr "p1") "STOPPED" (PyInt 3)));
    POST (Mock.processors "p2") (Mock.dumps (state_payload (PyStr "p2") "STOPPED" (PyInt 7)));
    POST (Mock.services "cs1") (Mock.dumps (state_payload (PyStr "cs1") "DISABLED" (PyInt 4)));
    POST (Mock.services "cs1") (Mock.dumps (state_payload (PyStr "cs1") "ENABLED" (PyInt 4)));
    POST (Mock.processors "p1") (Mock.dumps (state_payload (PyStr "p1") "RUNNING" (PyInt 3)));
    POST (Mock.processors "p2") (Mock.dumps (state_payload (PyStr "p2") "RUNNING" (PyInt 7))) ].
Proof. vm_compute. reflexivity. Qed.

(** The body of a state change, as the mock writes it. *)
Example payload_on_the_wire :
  Mock.dumps (state_payload (PyStr "p1") "RUNNING" (PyInt 3)) =
  "{" ++ dq ++ "component" ++ dq ++ ": {" ++ dq ++ "id" ++ dq ++ ": " ++ dq ++ "p1" ++ dq
      ++ ", " ++ dq ++ "state" ++ dq ++ ": " ++ dq ++ "RUNNING" ++ dq ++ "}, "
      ++ dq ++ "revision" ++ dq ++ ": {" ++ dq ++ "version" ++ dq ++ ": 3}}".
Proof. vm_compute. reflexivity. Qed.

(** The upload scenario: the id of the new template is taken from the body;
    a body without the tag pair ends the call with an [IndexError]; two tag
    pairs on one line are taken as one match by the greedy group. *)
Example upload_template_on_plant :
  forall g, ProcessGroup Mock.py_str Mock.conn (PyStr "root") = Ok g ->
    fst (upload_template Mock.plant_serve Mock.py_str Mock.read_file g
           "/tmp/flow.xml" Mock.w0)
    = Ok (template_handle Mock.py_str Mock.conn (PyStr "abc-123"))
    /\ fst (upload_template Mock.refusing_serve Mock.py_str Mock.read_file g
              "/tmp/flow.xml" Mock.w0)
       = Raise IndexError.
Proof. intros g H. vm_compute in H. injection H as <-. split; vm_compute; reflexivity. Qed.

Example findall_id_is_greedy :
  findall_id "<id>a</id><id>b</id>" = ["a</id><id>b"].
Proof. vm_compute. reflexivity. Qed.

(** A missing file ends the upload before any request is made. *)
Example upload_of_missing_file :
  forall g, ProcessGroup Mock.py_str Mock.conn (PyStr "root") = Ok g ->
    let r := upload_template Mock.plant_serve Mock.py_str Mock.read_file g
               "/tmp/absent.xml" Mock.w0 in
    fst r = Raise (IOError "/tmp/absent.xml") /\ requests_of (trace (snd r)) = [].
Proof. intros g H. vm_compute in H. injection H as <-. split; vm_compute; reflexivity. Qed.

(** The lookup by name on the plant returns the later of the two pools. *)
Example lookup_by_name_on_plant :
  forall g, FlowProcessGroup Mock.py_str Mock.conn (PyStr "root") = Ok g ->
    fst (get_controller_service_by_name Mock.plant_serve Mock.plant_loads Mock.py_str
           g "pool" Mock.w0)
    = Ok (Some (service_handle Mock.py_str Mock.conn (PyStr "cs3")))
    /\ fst (get_controller_service_by_name Mock.plant_serve Mock.plant_loads Mock.py_str
              g "absent" Mock.w0)
       = Ok None.
Proof. intros g H. vm_compute in H. injection H as <-. split; vm_compute; reflexivity. Qed.

(** The template of the listing of controller services has other fields: no
    class carries its type, and a component of that type could not be built. *)
Example listing_template_needs_a_process_group :
  NifiComponent_init Mock.py_str CONTROLLER_SERVICES Mock.conn (PyStr "root")
  = Raise (KeyError "process_group").
Proof. vm_compute. reflexivity. Qed.

(** The listing of the connection resolves that template with its own fields. *)
Example connection_listing_on_plant :
  fst (get_controller_services Mock.plant_serve Mock.plant_loads Mock.py_str
         Mock.conn "root" Mock.w0)
  = Ok (map (service_handle Mock.py_str Mock.conn) [PyStr "cs1"; PyStr "cs2"; PyStr "cs3"]).
Proof. vm_compute. reflexivity. Qed.

(** Construction of a connection probes the base endpoint. *)
Example connection_probe_on_plant :
  NifiConnection_init Mock.plant_serve Mock.base Mock.w0
  = (Ok Mock.conn, after Mock.w0 tt [Http (GET (Mock.base ++ "/nifi-api"))]).
Proof. vm_compute. reflexivity. Qed.

(** ** Further runs on the mock sites *)

Lemma get_state_succeeds_iff_witness :
  let u := Mock.processors "p1" in
  let j := Mock.entity "p1" "RUNNING" "GetFile" 3 [] in
  ((exists d, fst (get_state Mock.plant_serve Mock.plant_loads u Mock.w0) = Ok d)
   <-> exists id st v, has_state j id st v)
  /\ (forall id st v, has_state j id st v ->
        fst (get_state Mock.plant_serve Mock.plant_loads u Mock.w0)
        = Ok (state_payload_read id st v))
  /\ trace (snd (get_state Mock.plant_serve Mock.plant_loads u Mock.w0))
     = (trace Mock.w0 ++ [Http (GET u)])%list.
Proof.
  apply (get_state_succeeds_iff Mock.plant_serve Mock.plant_loads
           (Mock.processors "p1") Mock.w0
           (Mock.entity "p1" "RUNNING" "GetFile" 3 []) tt).
  discharge.
Defined.

Lemma change_state_failed_read_writes_nothing_witness :
  let r := change_state Mock.plant_serve Mock.plant_loads Mock.dumps
             (Mock.processors "gone") "RUNNING" (Some "DISABLED") Mock.w0 in
  fst r = Raise ValueError
  /\ trace (snd r) = (trace Mock.w0 ++ [Http (GET (Mock.processors "gone"))])%list
  /\ writes_of (trace (snd r)) = writes_of (trace Mock.w0).
Proof.
  apply (change_state_failed_read_writes_nothing Mock.plant_serve Mock.plant_loads
           Mock.dumps (Mock.processors "gone") "RUNNING" (Some "DISABLED") Mock.w0
           ValueError).
  reflexivity.
Defined.

Lemma change_state_write_raises_witness :
  let u := Mock.processors "p1" in
  let body := Mock.dumps (state_payload (PyStr "p1") "STOPPED" (PyInt 3)) in
  change_state Mock.serve_reads_only Mock.plant_loads Mock.dumps
    u "STOPPED" (Some "DISABLED") Mock.w0 =
  (Raise RequestException, after Mock.w0 tt [Http (GET u); Http (POST u body)]).
Proof.
  apply (change_state_write_raises Mock.serve_reads_only Mock.plant_loads Mock.dumps
           (Mock.processors "p1") "STOPPED" (Some "DISABLED") Mock.w0
           (Mock.entity "p1" "RUNNING" "GetFile" 3 []) tt tt
           (PyStr "p1") (PyStr "RUNNING") (PyInt 3)).
  - discharge.
  - discharge.
  - reflexivity.
  - reflexivity.
Defined.

Lemma change_state_guard_needs_a_string_state_witness :
  let u := Mock.processors "q1" in
  writes_of (trace (snd (change_state Mock.annex_serve Mock.annex_loads Mock.dumps
                           u "RUNNING" (Some "1") Mock.w0))) =
  (writes_of (trace Mock.w0)
   ++ [POST u (Mock.dumps (state_payload (PyStr "q1") "RUNNING" (PyInt 2)))])%list.
Proof.
  apply (change_state_guard_needs_a_string_state Mock.annex_serve Mock.annex_loads
           Mock.dumps (Mock.processors "q1") "RUNNING" "1" Mock.w0
           (PyDict [ ("component", PyDict [("id", PyStr "q1"); ("state", PyInt 1)]);
                     ("revision", PyDict [("version", PyInt 2)]) ])
           tt (PyStr "q1") (PyInt 1) (PyInt 2)).
  - discharge.
  - discharge.
  - discriminate.
Defined.

Lemma processor_methods_refused_witness :
  let p := processor_handle Mock.py_str Mock.conn (PyStr "p3") in
  let run (m : NifiComponent -> M unit) := m p Mock.w0 in
  (PyStr "DISABLED" = PyStr "DISABLED" ->
     fst (run (Processor_start Mock.plant_serve Mock.plant_loads Mock.dumps)) = Ok tt
     /\ writes_of (trace (snd (run (Processor_start Mock.plant_serve Mock.plant_loads
                                      Mock.dumps)))) = writes_of (trace Mock.w0)
     /\ fst (run (Processor_stop Mock.plant_serve Mock.plant_loads Mock.dumps)) = Ok tt
     /\ writes_of (trace (snd (run (Processor_stop Mock.plant_serve Mock.plant_loads
                                      Mock.dumps)))) = writes_of (trace Mock.w0))
  /\ (PyStr "DISABLED" = PyStr "RUNNING" ->
     fst (run (Processor_enable Mock.plant_serve Mock.plant_loads Mock.dumps)) = Ok tt
     /\ writes_of (trace (snd (run (Processor_enable Mock.plant_serve Mock.plant_loads
                                      Mock.dumps)))) = writes_of (trace Mock.w0)
     /\ fst (run (Processor_disable Mock.plant_serve Mock.plant_loads Mock.dumps)) = Ok tt
     /\ writes_of (trace (snd (run (Processor_disable Mock.plant_serve Mock.plant_loads
                                      Mock.dumps)))) = writes_of (trace Mock.w0)).
Proof.
  cbv zeta.
  apply (processor_methods_refused Mock.plant_serve Mock.plant_loads Mock.dumps
           (processor_handle Mock.py_str Mock.conn (PyStr "p3")) Mock.w0
           (Mock.entity "p3" "DISABLED" "LogAttribute" 1 []) tt
           (PyStr "p3") (PyStr "DISABLED") (PyInt 1)).
  - discharge.
  - discharge.
Defined.

Lemma connection_lists_controller_services_witness :
  let u := url_base Mock.conn ++ "/nifi-api/flow/process-groups/" ++ "root"
           ++ "/controller-services" in
  get_controller_services Mock.plant_serve Mock.plant_loads Mock.py_str
    Mock.conn "root" Mock.w0 =
  (Ok (map (service_handle Mock.py_str Mock.conn) [PyStr "cs1"; PyStr "cs2"; PyStr "cs3"]),
   after Mock.w0 tt [Http (GET u)]).
Proof.
  apply (connection_lists_controller_services Mock.plant_serve Mock.plant_loads
           Mock.py_str Mock.conn "root" Mock.w0
           (PyDict [ ("controllerServices",
                       PyList [ PyDict [("component", PyDict [("id", PyStr "cs1")])];
                                PyDict [("component", PyDict [("id", PyStr "cs2")])];
                                PyDict [("component", PyDict [("id", PyStr "cs3")])] ]) ])
           tt
           [ PyDict [("component", PyDict [("id", PyStr "cs1")])];
             PyDict [("component", PyDict [("id", PyStr "cs2")])];
             PyDict [("component", PyDict [("id", PyStr "cs3")])] ]
           [PyStr "cs1"; PyStr "cs2"; PyStr "cs3"]).
  - discharge.
  - reflexivity.
  - discharge.
Defined.

Lemma listings_agree_witness :
  let g := flow_handle Mock.py_str Mock.conn (PyStr "root") in
  fst (FlowProcessGroup_get_controller_services Mock.plant_serve Mock.plant_loads
         Mock.py_str g Mock.w0)
    = fst (get_controller_services Mock.plant_serve Mock.plant_loads Mock.py_str
             Mock.conn "root" Mock.w0)
  /\ requests_of (trace (snd (FlowProcessGroup_get_controller_services
                                Mock.plant_serve Mock.plant_loads Mock.py_str g Mock.w0)))
     = requests_of (trace (snd (get_controller_services Mock.plant_serve Mock.plant_loads
                                  Mock.py_str Mock.conn "root" Mock.w0))).
Proof.
  apply (listings_agree Mock.plant_serve Mock.plant_loads Mock.py_str
           Mock.conn "root" (flow_handle Mock.py_str Mock.conn (PyStr "root")) Mock.w0).
  reflexivity.
Defined.

Lemma stop_referencing_components_stops_each_witness :
  let cs := service_handle Mock.py_str Mock.conn (PyStr "cs1") in
  exists s' evs,
    stop_referencing_components Mock.plant_serve Mock.plant_loads Mock.dumps Mock.py_str
      cs Mock.w0 = (Ok (map (fun _ => tt) [PyStr "p1"; PyStr "p2"]), after Mock.w0 s' evs)
    /\ accounts Mock.dumps evs
         (Read (url cs)
          :: map (fun id =>
                    Attempt (url (processor_handle Mock.py_str (nifi_connection cs) id))
                            "STOPPED")
               [PyStr "p1"; PyStr "p2"]).
Proof.
  apply (stop_referencing_components_stops_each Mock.plant_serve Mock.plant_loads
           Mock.dumps Mock.py_str (service_handle Mock.py_str Mock.conn (PyStr "cs1"))
           [PyStr "p1"; PyStr "p2"] Mock.w0).
  - intros [].
    exists (Mock.entity "cs1" "ENABLED" "pool" 4
              [("p1", "Processor"); ("rt", "ReportingTask"); ("p2", "Processor")]), tt.
    eexists. eexists.
    exists [ (PyStr "p1", PyStr "Processor"); (PyStr "rt", PyStr "ReportingTask");
             (PyStr "p2", PyStr "Processor") ].
    discharge.
  - intros id [<- | [<- | []]] []; discharge.
  - intros u data []. discriminate.
Defined.

Lemma processor_restart_stops_then_starts_witness :
  let p := processor_handle Mock.py_str Mock.conn (PyStr "p1") in
  exists s' evs,
    Processor_restart Mock.plant_serve Mock.plant_loads Mock.dumps p Mock.w0
      = (Ok tt, after Mock.w0 s' evs)
    /\ accounts Mock.dumps evs
         [Attempt (url p) "STOPPED"; Pause 5; Attempt (url p) "RUNNING"].
Proof.
  apply (processor_restart_stops_then_starts Mock.plant_serve Mock.plant_loads Mock.dumps
           (processor_handle Mock.py_str Mock.conn (PyStr "p1")) Mock.w0).
  - intros []. discharge.
  - intros u data []. discriminate.
Defined.

Lemma get_controller_service_by_name_none_witness :
  let g := flow_handle Mock.py_str Mock.conn (PyStr "root") in
  let r := get_controller_service_by_name Mock.plant_serve Mock.plant_loads Mock.py_str
             g "absent" Mock.w0 in
  fst r = Ok None
  /\ requests_of (trace (snd r)) =
       (requests_of (trace Mock.w0)
        ++ GET (url g ++ "controller-services")
           :: map (fun id => GET (url (service_handle Mock.py_str Mock.conn id)))
                [PyStr "cs1"; PyStr "cs2"; PyStr "cs3"])%list.
Proof.
  cbv zeta.
  apply (get_controller_service_by_name_none
           Mock.plant_serve Mock.plant_loads Mock.py_str Mock.conn (PyStr "root")
           (flow_handle Mock.py_str Mock.conn (PyStr "root")) "absent" Mock.w0
           (PyDict [ ("controllerServices",
                       PyList [ PyDict [("component", PyDict [("id", PyStr "cs1")])];
                                PyDict [("component", PyDict [("id", PyStr "cs2")])];
                                PyDict [("component", PyDict [("id", PyStr "cs3")])] ]) ])
           tt
           [ PyDict [("component", PyDict [("id", PyStr "cs1")])];
             PyDict [("component", PyDict [("id", PyStr "cs2")])];
             PyDict [("component", PyDict [("id", PyStr "cs3")])] ]
           [PyStr "cs1"; PyStr "cs2"; PyStr "cs3"]
           (fun id => if py_eq_str id "cs2" then PyStr "cache" else PyStr "pool")).
  - reflexivity.
  - discharge.
  - reflexivity.
  - discharge.
  - intros id [<- | [<- | [<- | []]]] []; discharge.
  - discharge.
Defined.

Lemma flow_process_group_start_needs_a_string_id_witness :
  let g := flow_handle Mock.py_str Mock.conn (PyInt 5) in
  FlowProcessGroup_start Mock.plant_serve g Mock.w0 =
    (Raise TypeError, after Mock.w0 (remote Mock.w0) [LogInfo ("starting url: " ++ url g)]).
Proof.
  apply (flow_process_group_start_needs_a_string_id Mock.plant_serve
           (flow_handle Mock.py_str Mock.conn (PyInt 5)) Mock.w0).
  intros i. discriminate.
Defined.

Lemma upload_template_missing_file_witness :
  upload_template Mock.plant_serve Mock.py_str Mock.read_file
    (process_group_handle Mock.py_str Mock.conn (PyStr "root")) "/tmp/absent.xml" Mock.w0
  = (Raise (IOError "/tmp/absent.xml"),
     after Mock.w0 (remote Mock.w0) [Open "/tmp/absent.xml"]).
Proof.
  apply (upload_template_missing_file Mock.plant_serve Mock.py_str Mock.read_file
           Mock.conn (PyStr "root")); reflexivity.
Defined.

Lemma upload_template_returns_an_id_of_the_body_witness :
  let body := "<templateEntity><template><id>abc-123</id></template></templateEntity>" in
  let r := fst (upload_template Mock.plant_serve Mock.py_str Mock.read_file
                  (process_group_handle Mock.py_str Mock.conn (PyStr "root"))
                  "/tmp/flow.xml" Mock.w0) in
  ((exists pre x, occurs_at body pre x) ->
     exists pre x, occurs_at body pre x
                   /\ r = Ok (template_handle Mock.py_str Mock.conn (PyStr x)))
  /\ (r = Raise IndexError <-> forall pre x, ~ occurs_at body pre x).
Proof.
  cbv zeta.
  apply (upload_template_returns_an_id_of_the_body Mock.plant_serve Mock.py_str
           Mock.read_file Mock.conn (PyStr "root") _ "/tmp/flow.xml"
           "<template></template>" Mock.w0
           {| status_code := 201;
              text := "<templateEntity><template><id>abc-123</id></template></templateEntity>" |}
           tt); reflexivity.
Defined.

Lemma initialize_template_returns_first_group_witness :
  let g := process_group_handle Mock.py_str Mock.conn (PyStr "root") in
  let t := template_handle Mock.py_str Mock.conn (PyStr "abc-123") in
  let body := template_instance_text "abc-123" (str_of Mock.py_str (PyInt 0))
                (str_of Mock.py_str (PyInt 40)) in
  let r := initialize_template Mock.annex_serve Mock.annex_loads Mock.py_str
             g t (PyInt 0) (PyInt 40) Mock.w0 in
  fst r = Ok (process_group_handle Mock.py_str Mock.conn (PyStr "pg-1"))
  /\ requests_of (trace (snd r)) =
       (requests_of (trace Mock.w0) ++ [POST (url g ++ "template-instance") body])%list.
Proof.
  cbv zeta.
  apply (initialize_template_returns_first_group Mock.annex_serve Mock.annex_loads
           Mock.py_str Mock.conn (PyStr "root") _ _ "abc-123" (PyInt 0) (PyInt 40) Mock.w0
           {| status_code := 201; text := Mock.render Mock.flow_answer |} tt
           Mock.flow_answer
           (PyDict [ ("processGroups",
                       PyList [ PyDict [("id", PyStr "pg-1")];
                                PyDict [("id", PyStr "pg-2")] ]) ])
           (PyDict [("id", PyStr "pg-1")]) (PyStr "pg-1")
           [ PyDict [("id", PyStr "pg-2")] ]); reflexivity.
Defined.

Lemma initialize_template_without_group_witness :
  let g := process_group_handle Mock.py_str Mock.conn (PyStr "root") in
  let t := template_handle Mock.py_str Mock.conn (PyStr "abc-123") in
  let body := template_instance_text "abc-123" (str_of Mock.py_str (PyInt 0))
                (str_of Mock.py_str (PyInt 0)) in
  let r := initialize_template Mock.barren_serve Mock.barren_loads Mock.py_str
             g t (PyInt 0) (PyInt 0) Mock.w0 in
  fst r = Raise IndexError
  /\ requests_of (trace (snd r)) =
       (requests_of (trace Mock.w0) ++ [POST (url g ++ "template-instance") body])%list.
Proof.
  cbv zeta.
  apply (initialize_template_without_group Mock.barren_serve Mock.barren_loads
           Mock.py_str Mock.conn (PyStr "root") _ _ "abc-123" (PyInt 0) (PyInt 0) Mock.w0
           {| status_code := 201; text := Mock.render Mock.empty_flow_answer |} tt
           Mock.empty_flow_answer
           (PyDict [ ("processGroups", PyList []) ])); reflexivity.
Defined.

Lemma update_property_changes_one_property_witness :
  let cs := service_handle Mock.py_str Mock.conn (PyStr "cs9") in
  let doc := PyDict [ ("revision", PyDict [("version", PyInt 5)]);
                      ("component",
                        PyDict [ ("id", PyStr "cs9"); ("name", PyStr "pool");
                                 ("properties",
                                   PyDict [ ("url", PyStr "jdbc:a");
                                            ("user", PyStr "nifi") ]) ]) ] in
  let c := PyDict [ ("id", PyStr "cs9"); ("name", PyStr "pool");
                    ("properties",
                      PyDict [ ("url", PyStr "jdbc:a"); ("user", PyStr "nifi") ]) ] in
  let ps := [ ("url", PyStr "jdbc:a"); ("user", PyStr "nifi") ] in
  let run := update_property Mock.annex_serve Mock.annex_loads Mock.dumps Mock.py_str
               cs "url" (PyStr "jdbc:b") Mock.w0 in
  exists doc' c' ps',
    set_property doc "url" (PyStr "jdbc:b") = Ok doc'
    /\ requests_of (trace (snd run)) =
         (requests_of (trace Mock.w0)
          ++ [GET (url cs); PUT (url cs) (Mock.dumps doc')])%list
    /\ fst run =
         match fst (Mock.annex_serve (PUT (url cs) (Mock.dumps doc')) tt) with
         | Some resp' => Ok resp'
         | None => Raise RequestException
         end
    /\ getitem doc' "component" = Ok c'
    /\ getitem c' "properties" = Ok (PyDict ps')
    /\ dict_get ps' "url" = Some (PyStr "jdbc:b")
    /\ (forall k, k <> "url" -> dict_get ps' k = dict_get ps k)
    /\ (forall k, k <> "properties" -> getitem c' k = getitem c k)
    /\ (forall k, k <> "component" -> getitem doc' k = getitem doc k).
Proof.
  cbv zeta.
  apply (update_property_changes_one_property Mock.annex_serve Mock.annex_loads
           Mock.dumps Mock.py_str (service_handle Mock.py_str Mock.conn (PyStr "cs9"))
           "url" (PyStr "jdbc:b") Mock.w0).
  - discharge.
  - reflexivity.
  - reflexivity.
Defined.

Lemma update_property_without_properties_writes_nothing_witness :
  let cs := service_handle Mock.py_str Mock.conn (PyStr "cs8") in
  let r := update_property Mock.annex_serve Mock.annex_loads Mock.dumps Mock.py_str
             cs "url" (PyStr "jdbc:b") Mock.w0 in
  (exists e, fst r = Raise e)
  /\ requests_of (trace (snd r)) = (requests_of (trace Mock.w0) ++ [GET (url cs)])%list.
Proof.
  cbv zeta.
  apply (update_property_without_properties_writes_nothing Mock.annex_serve
           Mock.annex_loads Mock.dumps Mock.py_str
           (service_handle Mock.py_str Mock.conn (PyStr "cs8"))
           "url" (PyStr "jdbc:b") Mock.w0
           (PyDict [ ("revision", PyDict [("version", PyInt 1)]);
                     ("component",
                       PyDict [ ("id", PyStr "cs8"); ("properties", PyNone) ]) ])
           tt).
  - discharge.
  - intros (c & ps & Hc & Hp). cbn in Hc. injection Hc as <-. discriminate Hp.
Defined.

Lemma get_min_info_succeeds_iff_witness :
  let u := Mock.processors "p1" in
  let j := Mock.entity "p1" "RUNNING" "GetFile" 3 [] in
  ((exists d, fst (get_min_info Mock.plant_serve Mock.plant_loads u Mock.w0) = Ok d)
   <-> exists id name v, has_min_info j id name v)
  /\ (forall id name v, has_min_info j id name v ->
        get_min_info Mock.plant_serve Mock.plant_loads u Mock.w0 =
          (Ok (PyDict [ ("component", PyDict [("id", id); ("name", name)]);
                        ("revision", PyDict [("version", v)]) ]),
           after Mock.w0 tt [Http (GET u)])).
Proof.
  apply (get_min_info_succeeds_iff Mock.plant_serve Mock.plant_loads
           (Mock.processors "p1") Mock.w0
           (Mock.entity "p1" "RUNNING" "GetFile" 3 []) tt).
  discharge.
Defined.

Lemma controller_service_state_is_always_written_witness :
  let cs := service_handle Mock.py_str Mock.conn (PyStr "cs1") in
  writes_of (trace (snd (ControllerService_enable Mock.plant_serve Mock.plant_loads
                           Mock.dumps cs Mock.w0))) =
    (writes_of (trace Mock.w0)
     ++ [POST (url cs) (Mock.dumps (state_payload (PyStr "cs1") "ENABLED" (PyInt 4)))])%list
  /\ writes_of (trace (snd (ControllerService_disable Mock.plant_serve Mock.plant_loads
                              Mock.dumps cs Mock.w0))) =
    (writes_of (trace Mock.w0)
     ++ [POST (url cs) (Mock.dumps (state_payload (PyStr "cs1") "DISABLED" (PyInt 4)))])%list.
Proof.
  cbv zeta.
  apply (controller_service_state_is_always_written Mock.plant_serve Mock.plant_loads
           Mock.dumps (service_handle Mock.py_str Mock.conn (PyStr "cs1")) Mock.w0
           (Mock.entity "cs1" "ENABLED" "pool" 4
              [("p1", "Processor"); ("rt", "ReportingTask"); ("p2", "Processor")])
           tt (PyStr "cs1") (PyStr "ENABLED") (PyInt 4)).
  - discharge.
  - discharge.
Defined.

(** ** The revised runs *)

(** C4, as stated, fails: the service [csy] of the yard is referenced by two
    processors, the second of which is DISABLED; its restart ends normally
    with four writes, none of them to the second processor, which is neither
    stopped nor started. *)
Lemma restart_skips_a_disabled_processor :
  let cs := service_handle Mock.py_str Mock.conn (PyStr "csy") in
  let run := ControllerService_restart Mock.yard_serve Mock.yard_loads Mock.dumps
               Mock.py_str cs Mock.w0 in
  fst (get_referencing_components Mock.yard_serve Mock.yard_loads Mock.py_str
         Mock.conn (url cs) Mock.w0)
    = Ok [ processor_handle Mock.py_str Mock.conn (PyStr "y1");
           processor_handle Mock.py_str Mock.conn (PyStr "y2") ]
  /\ fst run = Ok tt
  /\ writes_of (trace (snd run)) =
       [ POST (Mock.processors "y1")
              (Mock.dumps (state_payload (PyStr "y1") "STOPPED" (PyInt 3)));
         POST (Mock.services "csy")
              (Mock.dumps (state_payload (PyStr "csy") "DISABLED" (PyInt 4)));
         POST (Mock.services "csy")
              (Mock.dumps (state_payload (PyStr "csy") "ENABLED" (PyInt 4)));
         POST (Mock.processors "y1")
              (Mock.dumps (state_payload (PyStr "y1") "RUNNING" (PyInt 3))) ].
Proof. cbv zeta. repeat split; vm_compute; reflexivity. Qed.

Lemma restart_writes_state_changes_in_order_witness :
  let cs := service_handle Mock.py_str Mock.conn (PyStr "cs1") in
  let p1 := processor_handle Mock.py_str Mock.conn (PyStr "p1") in
  let p2 := processor_handle Mock.py_str Mock.conn (PyStr "p2") in
  exists s' evs,
    ControllerService_restart Mock.plant_serve Mock.plant_loads Mock.dumps Mock.py_str
      cs Mock.w0 = (Ok tt, after Mock.w0 s' evs)
    /\ accounts Mock.dumps evs
         [ Read (url cs);
           Write (url p1) "STOPPED"; Write (url p2) "STOPPED";
           Pause 5;
           Write (url cs) "DISABLED";
           Pause 5;
           Write (url cs) "ENABLED";
           Pause 5;
           Read (url cs);
           Write (url p1) "RUNNING"; Write (url p2) "RUNNING" ]
    /\ Forall2 (sets_state Mock.dumps) (writes_of evs)
         [ (url p1, "STOPPED"); (url p2, "STOPPED");
           (url cs, "DISABLED"); (url cs, "ENABLED");
           (url p1, "RUNNING"); (url p2, "RUNNING") ].
Proof.
  apply (restart_writes_state_changes_in_order Mock.plant_serve Mock.plant_loads
           Mock.dumps Mock.py_str (service_handle Mock.py_str Mock.conn (PyStr "cs1"))
           (PyStr "p1") (PyStr "p2") Mock.w0).
  - intros [].
    exists (Mock.entity "cs1" "ENABLED" "pool" 4
              [("p1", "Processor"); ("rt", "ReportingTask"); ("p2", "Processor")]), tt.
    eexists. eexists.
    exists [ (PyStr "p1", PyStr "Processor"); (PyStr "rt", PyStr "ReportingTask");
             (PyStr "p2", PyStr "Processor") ].
    discharge.
  - intros []. discharge.
  - intros []. discharge.
  - intros []. discharge.
  - intros u data []. discriminate.
Defined.

Lemma restart_with_any_number_of_processors_witness :
  let cs := service_handle Mock.py_str Mock.conn (PyStr "cs1") in
  let ids := [PyStr "p1"; PyStr "p2"] in
  exists s' evs,
    ControllerService_restart Mock.plant_serve Mock.plant_loads Mock.dumps Mock.py_str
      cs Mock.w0 = (Ok tt, after Mock.w0 s' evs)
    /\ accounts Mock.dumps evs
         ((Read (url cs)
           :: map (fun id =>
                     Write (url (processor_handle Mock.py_str (nifi_connection cs) id))
                           "STOPPED") ids)
          ++ [ Pause 5; Write (url cs) "DISABLED";
               Pause 5; Write (url cs) "ENABLED";
               Pause 5 ]
          ++ (Read (url cs)
              :: map (fun id =>
                        Write (url (processor_handle Mock.py_str (nifi_connection cs) id))
                              "RUNNING") ids))%list
    /\ Forall2 (sets_state Mock.dumps) (writes_of evs)
         (map (fun id => (url (processor_handle Mock.py_str (nifi_connection cs) id),
                          "STOPPED")) ids
          ++ [ (url cs, "DISABLED"); (url cs, "ENABLED") ]
          ++ map (fun id => (url (processor_handle Mock.py_str (nifi_connection cs) id),
                             "RUNNING")) ids)%list.
Proof.
  apply (restart_with_any_number_of_processors Mock.plant_serve Mock.plant_loads
           Mock.dumps Mock.py_str (service_handle Mock.py_str Mock.conn (PyStr "cs1"))
           [PyStr "p1"; PyStr "p2"] Mock.w0).
  - intros [].
    exists (Mock.entity "cs1" "ENABLED" "pool" 4
              [("p1", "Processor"); ("rt", "ReportingTask"); ("p2", "Processor")]), tt.
    eexists. eexists.
    exists [ (PyStr "p1", PyStr "Processor"); (PyStr "rt", PyStr "ReportingTask");
             (PyStr "p2", PyStr "Processor") ].
    discharge.
  - intros []. discharge.
  - intros id [<- | [<- | []]] []; discharge.
  - intros u data []. discriminate.
Defined.

Lemma listing_with_a_malformed_entry_fails_witness :
  let u := url_base Mock.conn ++ "/nifi-api/flow/process-groups/" ++ "annex"
           ++ "/controller-services" in
  exists e,
    get_controller_services Mock.annex_serve Mock.annex_loads Mock.py_str
      Mock.conn "annex" Mock.w0 = (Raise e, after Mock.w0 tt [Http (GET u)])
    /\ (forall ids,
          Forall2 listing_entry
            [ PyDict [("component", PyDict [("id", PyStr "cs9")])] ] ids ->
          e = KeyError "id").
Proof.
  apply (listing_with_a_malformed_entry_fails Mock.annex_serve Mock.annex_loads
           Mock.py_str Mock.conn "annex" Mock.w0
           (PyDict [ ("controllerServices",
                       PyList [ PyDict [("component", PyDict [("id", PyStr "cs9")])];
                                PyDict [("component", PyDict [("name", PyStr "nameless")])];
                                PyDict [("component", PyDict [("id", PyStr "cs8")])] ]) ])
           tt
           [ PyDict [("component", PyDict [("id", PyStr "cs9")])] ]
           [ PyDict [("component", PyDict [("id", PyStr "cs8")])] ]
           (PyDict [("component", PyDict [("name", PyStr "nameless")])])
           (PyDict [("name", PyStr "nameless")])).
  - discharge.
  - reflexivity.
  - reflexivity.
  - reflexivity.
Defined.

Lemma get_referencing_components_malformed_reference_witness :
  exists e,
    get_referencing_components Mock.annex_serve Mock.annex_loads Mock.py_str
      Mock.conn (Mock.services "cs7") Mock.w0 =
      (Raise e, after Mock.w0 tt [Http (GET (Mock.services "cs7"))])
    /\ (forall infos,
          Forall2 reference_entry
            [ PyDict [ ("component",
                         PyDict [ ("id", PyStr "p1");
                                  ("referenceType", PyStr "Processor") ]) ] ] infos ->
          e = KeyError "id").
Proof.
  apply (get_referencing_components_malformed_reference
           Mock.annex_serve Mock.annex_loads Mock.py_str
           Mock.conn (Mock.services "cs7") Mock.w0
           (PyDict [ ("component",
                       PyDict [ ("id", PyStr "cs7");
                                ("referencingComponents",
                                  PyList [ PyDict [ ("component",
                                                      PyDict [ ("id", PyStr "p1");
                                                               ("referenceType", PyStr "Processor") ]) ];
                                           PyDict [ ("component",
                                                      PyDict [ ("referenceType",
                                                                PyStr "ReportingTask") ]) ];
                                           PyDict [ ("component",
                                                      PyDict [ ("id", PyStr "p2");
                                                               ("referenceType", PyStr "Processor") ]) ] ]) ]) ])
           (PyDict [ ("id", PyStr "cs7");
                     ("referencingComponents",
                       PyList [ PyDict [ ("component",
                                           PyDict [ ("id", PyStr "p1");
                                                    ("referenceType", PyStr "Processor") ]) ];
                                PyDict [ ("component",
                                           PyDict [ ("referenceType",
                                                     PyStr "ReportingTask") ]) ];
                                PyDict [ ("component",
                                           PyDict [ ("id", PyStr "p2");
                                                    ("referenceType", PyStr "Processor") ]) ] ]) ])
           tt
           [ PyDict [ ("component",
                        PyDict [ ("id", PyStr "p1"); ("referenceType", PyStr "Processor") ]) ] ]
           [ PyDict [ ("component",
                        PyDict [ ("id", PyStr "p2"); ("referenceType", PyStr "Processor") ]) ] ]
           (PyDict [ ("component", PyDict [ ("referenceType", PyStr "ReportingTask") ]) ])
           (PyDict [ ("referenceType", PyStr "ReportingTask") ])).
  - discharge.
  - reflexivity.
  - reflexivity.
  - reflexivity.
  - reflexivity.
Defined.

Lemma upload_template_sends_the_file_under_its_name_witness :
  let g := process_group_handle Mock.py_str Mock.conn (PyStr "root") in
  exists dir name,
    "flow.xml" = dir ++ name /\ directory_part dir /\ no_slash name = true
    /\ (forall dir' name',
          "flow.xml" = dir' ++ name' -> directory_part dir' -> no_slash name' = true ->
          name' = name)
    /\ requests_of (trace (snd (upload_template Mock.plant_serve Mock.py_str
                                  Mock.read_local g "flow.xml" Mock.w0))) =
         (requests_of (trace Mock.w0)
          ++ [UPLOAD (url_base Mock.conn ++ "/nifi-api/process-groups/"
                      ++ str_of Mock.py_str (PyStr "root") ++ "/templates/upload")
                     "template" name "<template></template>" "text/xml"])%list.
Proof.
  apply (upload_template_sends_the_file_under_its_name Mock.plant_serve Mock.py_str
           Mock.read_local Mock.conn (PyStr "root")
           (process_group_handle Mock.py_str Mock.conn (PyStr "root"))
           "flow.xml" "<template></template>" Mock.w0); reflexivity.
Defined.

(** The same upload from a path with directories sends the same name. *)
Example upload_from_a_directory_sends_the_last_component :
  requests_of (trace (snd (upload_template Mock.plant_serve Mock.py_str Mock.read_file
                             (process_group_handle Mock.py_str Mock.conn (PyStr "root"))
                             "/tmp/flow.xml" Mock.w0))) =
  [UPLOAD (Mock.base ++ "/nifi-api/process-groups/root/templates/upload")
          "template" "flow.xml" "<template></template>" "text/xml"].
Proof. vm_compute. reflexivity. Qed.
